(** * DefectDojo CI/CD integration: scan import and threshold gate

    A shallow embedding of [defect_dojo_api.py] (class [DefectDojoAPI]) and
    [evalution.py] ([get_findings], [check_thresholds]).

    Python values coming from JSON bodies are kept dynamically typed
    ([pyval]); every operation that Python would reject raises the
    corresponding exception.  HTTP, the file system and the logger are an
    explicit state: a chronological trace of the calls made with their
    outcomes, and the list of log records.

    Modelling conventions:
    - a string is kept as the bytes of its UTF-8 encoding.  The built-ins
      whose result depends on the Unicode tables of the interpreter
      ([str.lower], [str.isdigit], [int] of a string) are part of the world
      the client runs in ([runtime]); what they do to ASCII strings is fixed;
    - JSON numbers are integers;
    - a URL is named by its endpoint (the host prefix is the constant
      [self.host]); a JSON or multipart payload is the dictionary itself;
    - a log message is kept as the f-string's pieces, literal text and
      interpolated values. *)

From Stdlib Require Import ZArith List String Ascii Bool Lia DecimalString.
Import ListNotations.
Open Scope string_scope.
Open Scope Z_scope.

(** ** Python values *)

Module Py.

#[local] Set Warnings "-register-all".

Inductive pyval : Type :=
| PNone
| PBool (b : bool)
| PInt (z : Z)
| PStr (s : string)
| PList (l : list pyval)
| PDict (d : list (string * pyval)).

Inductive exn : Type :=
| RequestException
| JSONDecodeError
| OSError
| TypeError
| KeyError
| AttributeError
| IndexError
| SystemExit
| ValueError.

Inductive result (A : Type) : Type :=
| Ok (a : A)
| Raise (e : exn).
Arguments Ok {A} a.
Arguments Raise {A} e.

(** [bool(v)] *)
Definition truthy (v : pyval) : bool :=
  match v with
  | PNone => false
  | PBool b => b
  | PInt z => negb (z =? 0)
  | PStr s => negb (s =? "")%string
  | PList l => match l with [] => false | _ => true end
  | PDict d => match d with [] => false | _ => true end
  end.

(** *** Strings *)

(** Every character is an ASCII one. *)
Fixpoint is_ascii (s : string) : bool :=
  match s with
  | EmptyString => true
  | String c r => (nat_of_ascii c <? 128)%nat && is_ascii r
  end.

(** What [s.lower()] is on an ASCII string: A-Z become a-z. *)
Definition lower_ascii (c : ascii) : ascii :=
  let n := nat_of_ascii c in
  if (65 <=? n)%nat && (n <=? 90)%nat then ascii_of_nat (n + 32) else c.

Fixpoint lower (s : string) : string :=
  match s with
  | EmptyString => EmptyString
  | String c r => String (lower_ascii c) (lower r)
  end.

Definition is_digit (c : ascii) : bool :=
  let n := nat_of_ascii c in (48 <=? n)%nat && (n <=? 57)%nat.

Fixpoint all_digits (s : string) : bool :=
  match s with
  | EmptyString => true
  | String c r => is_digit c && all_digits r
  end.

(** What [s.isdigit()] is on an ASCII string: at least one character, all
    of them among 0-9. *)
Definition isdigit (s : string) : bool :=
  match s with
  | EmptyString => false
  | _ => all_digits s
  end.

Fixpoint int_of_digits_acc (acc : Z) (s : string) : Z :=
  match s with
  | EmptyString => acc
  | String c r => int_of_digits_acc (10 * acc + (Z.of_nat (nat_of_ascii c) - 48)) r
  end.

(** What [int(s)] is on a string of the digits 0-9. *)
Definition int_of_digits (s : string) : Z := int_of_digits_acc 0 s.

(** [str(z)] *)
Definition str_of_int (z : Z) : string := NilZero.string_of_int (Z.to_int z).

Definition str_of_nat (n : nat) : string := NilZero.string_of_uint (Nat.to_uint n).

(** [needle in hay] on strings *)
Fixpoint str_contains (needle hay : string) : bool :=
  if prefix needle hay then true
  else match hay with
       | EmptyString => false
       | String _ r => str_contains needle r
       end.

Fixpoint chars (s : string) : list pyval :=
  match s with
  | EmptyString => []
  | String c r => PStr (String c EmptyString) :: chars r
  end.

(** *** Dictionaries *)

Fixpoint lookup (k : string) (d : list (string * pyval)) : option pyval :=
  match d with
  | [] => None
  | (k', v) :: r => if (k' =? k)%string then Some v else lookup k r
  end.

(** [d[k] = v] *)
Fixpoint dict_set (k : string) (v : pyval) (d : list (string * pyval))
  : list (string * pyval) :=
  match d with
  | [] => [(k, v)]
  | (k', v') :: r =>
      if (k' =? k)%string then (k, v) :: r else (k', v') :: dict_set k v r
  end.

(** [v.get(k, default)] *)
Definition get (v : pyval) (k : string) (default : pyval) : result pyval :=
  match v with
  | PDict d => Ok (match lookup k d with Some x => x | None => default end)
  | _ => Raise AttributeError
  end.

(** [v[k]] for a string key *)
Definition getitem (v : pyval) (k : string) : result pyval :=
  match v with
  | PDict d => match lookup k d with Some x => Ok x | None => Raise KeyError end
  | _ => Raise TypeError
  end.

(** [v[0]]; the keys of a JSON object are strings, so [0] is never one. *)
Definition getitem0 (v : pyval) : result pyval :=
  match v with
  | PList [] => Raise IndexError
  | PList (x :: _) => Ok x
  | PStr EmptyString => Raise IndexError
  | PStr (String c _) => Ok (PStr (String c EmptyString))
  | PDict _ => Raise KeyError
  | _ => Raise TypeError
  end.

(** [k in v] for a string [k] *)
Definition contains (v : pyval) (k : string) : result bool :=
  match v with
  | PDict d => Ok (match lookup k d with Some _ => true | None => false end)
  | PList l =>
      Ok (existsb (fun x => match x with PStr s => (s =? k)%string | _ => false end) l)
  | PStr s => Ok (str_contains k s)
  | _ => Raise TypeError
  end.

(** the elements a [for] loop over [v] visits *)
Definition iter (v : pyval) : result (list pyval) :=
  match v with
  | PList l => Ok l
  | PDict d => Ok (map (fun kv => PStr (fst kv)) d)
  | PStr s => Ok (chars s)
  | _ => Raise TypeError
  end.

(** [len(v)] *)
Definition len (v : pyval) : result nat :=
  match v with
  | PList l => Ok (List.length l)
  | PDict d => Ok (List.length d)
  | PStr s => Ok (String.length s)
  | _ => Raise TypeError
  end.

(** [v.lower()] where the result is only compared with ASCII literals
    without the letter k: the ASCII folding decides such a comparison as
    [str.lower] does, since no other character lowercases to one of their
    letters. *)
Definition py_lower (v : pyval) : result string :=
  match v with
  | PStr s => Ok (lower s)
  | _ => Raise AttributeError
  end.

End Py.
Import Py.

(** ** The outside world: HTTP, files, log *)

Inductive method : Type := GET | POST.

(** The paths below [self.host]; an id interpolated in a path is kept as the
    value it was formatted from. *)
Inductive endpoint : Type :=
| EpUsers                         (* /api/v2/users/ *)
| EpDevelopmentEnvironments       (* /api/v2/development_environments/ *)
| EpEngagement (id : pyval)       (* /api/v2/engagements/{id}/ *)
| EpProduct (id : pyval)          (* /api/v2/products/{id}/ *)
| EpTestTypes                     (* /api/v2/test_types/ *)
| EpTests                         (* /api/v2/tests/ *)
| EpImportScan                    (* /api/v2/import-scan/ *)
| EpFindings.                     (* /api/v2/findings/ *)

(** [self.headers] (token and JSON content type) or the token alone. *)
Inductive headers : Type := HdrJson | HdrTokenOnly.

Record request : Type := mkRequest {
  req_method : method;
  req_endpoint : endpoint;
  req_headers : headers;
  (** [data=] (or [params=]) dictionary; empty when absent *)
  req_data : list (string * pyval);
  (** [files={'file': f}]: the handle of the open file *)
  req_file : option nat
}.

Record response : Type := mkResponse {
  status_code : Z;
  text : string;
  (** the parsed body, [None] when the body is not JSON *)
  body : option pyval
}.

(** What [requests.get]/[requests.post] does: it returns a response or
    raises a [requests.exceptions.RequestException]. *)
Inductive outcome : Type :=
| Responds (r : response)
| TransportError.

Inductive event : Type :=
| EvHttp (rq : request) (o : outcome)
| EvOpen (handle : nat) (path : string).

Inductive level : Type := DEBUG | INFO | WARNING | ERROR.

Inductive piece : Type :=
| Lit (s : string)
| Val (v : pyval)
| Exc (e : exn).

Record state : Type := mkState {
  trace : list event;
  log : list (level * list piece)
}.

Definition init : state := mkState [] [].

(** The string built-ins of the interpreter whose tables are not part of
    the repository.  Only their behaviour on ASCII strings, which no version
    of the Unicode tables changes, is fixed; [str_int] is [None] where
    [int] raises [ValueError], and its law stops at 640 digits, the least
    limit an interpreter can be configured with. *)
Record runtime : Type := mkRuntime {
  (** [s.lower()] *)
  str_lower : string -> string;
  (** [s.isdigit()] *)
  str_isdigit : string -> bool;
  (** [int(s)] *)
  str_int : string -> option Z;
  lower_ascii_law : forall s, is_ascii s = true -> str_lower s = lower s;
  isdigit_ascii_law : forall s, is_ascii s = true -> str_isdigit s = isdigit s;
  int_ascii_law :
    forall s, isdigit s = true -> (String.length s <= 640)%nat ->
              str_int s = Some (int_of_digits s)
}.

Record world : Type := mkWorld {
  (** the remote service and the network, given the history so far *)
  server : list event -> request -> outcome;
  (** [os.path.isfile] *)
  isfile : string -> bool;
  (** whether [open(path, 'rb')] succeeds *)
  readable : string -> bool;
  (** [datetime.datetime.now().strftime('%Y-%m-%d')] *)
  today : string;
  (** the interpreter's string built-ins *)
  python : runtime
}.

(** ** State and exception monad *)

Definition M (A : Type) : Type := state -> result A * state.

Definition ret {A} (a : A) : M A := fun st => (Ok a, st).

Definition raise {A} (e : exn) : M A := fun st => (Raise e, st).

Definition bind {A B} (m : M A) (k : A -> M B) : M B :=
  fun st =>
    match m st with
    | (Ok a, st') => k a st'
    | (Raise e, st') => (Raise e, st')
    end.

Definition lift {A} (r : result A) : M A := fun st => (r, st).

(** [try: m  except <classes>: h] *)
Definition try_except {A} (m : M A) (catches : exn -> bool) (h : exn -> M A) : M A :=
  fun st =>
    match m st with
    | (Ok a, st') => (Ok a, st')
    | (Raise e, st') => if catches e then h e st' else (Raise e, st')
    end.

Declare Scope py_scope.
Delimit Scope py_scope with py.
Notation "x <- m ;; k" := (bind m (fun x => k))
  (at level 61, m at next level, right associativity) : py_scope.
Notation "m ;;; k" := (bind m (fun _ => k))
  (at level 61, right associativity) : py_scope.
Open Scope py_scope.

Definition logger (l : level) (msg : list piece) : M unit :=
  fun st => (Ok tt, mkState (trace st) (log st ++ [(l, msg)])).

Definition count_opens (tr : list event) : nat :=
  List.length (filter (fun e => match e with EvOpen _ _ => true | _ => false end) tr).

(** Exception classes.  [requests.exceptions.JSONDecodeError], which
    [response.json()] raises, derives from both [json.JSONDecodeError] and
    [RequestException]. *)
Definition is_RequestException (e : exn) : bool :=
  match e with RequestException | JSONDecodeError => true | _ => false end.

Definition is_JSONDecodeError (e : exn) : bool :=
  match e with JSONDecodeError => true | _ => false end.

Section Client.

Variable W : world.

(** [requests.get(...)] / [requests.post(...)] *)
Definition http (rq : request) : M response :=
  fun st =>
    let o := server W (trace st) rq in
    let st' := mkState (trace st ++ [EvHttp rq o]) (log st) in
    match o with
    | Responds r => (Ok r, st')
    | TransportError => (Raise RequestException, st')
    end.

(** [response.json()] *)
Definition json (r : response) : M pyval :=
  match body r with
  | Some v => ret v
  | None => raise JSONDecodeError
  end.

(** [open(path, 'rb')]: the handle is the number of files opened before. *)
Definition open_rb (path : string) : M nat :=
  fun st =>
    if readable W path then
      let h := count_opens (trace st) in
      (Ok h, mkState (trace st ++ [EvOpen h path]) (log st))
    else (Raise OSError, st).

(** ** defect_dojo_api.py: class DefectDojoAPI *)

(** A name-or-id argument: an [int] or a [str]. *)
Inductive reference : Type :=
| RInt (z : Z)
| RStr (s : string).

Definition pyval_of_ref (r : reference) : pyval :=
  match r with
  | RInt z => PInt z
  | RStr s => PStr s
  end.

(** [f"{r}"] *)
Definition str_of_ref (r : reference) : string :=
  match r with
  | RInt z => str_of_int z
  | RStr s => s
  end.

(** [v.lower()] *)
Definition lower_of (v : pyval) : result string :=
  match v with
  | PStr s => Ok (str_lower (python W) s)
  | _ => Raise AttributeError
  end.

Definition get_environments : M pyval :=
  response <- http (mkRequest GET EpDevelopmentEnvironments HdrJson [] None) ;;
  if status_code response =? 200 then
    try_except
      (data <- json response ;;
       has <- lift (contains data "results") ;;
       if has : bool then lift (getitem data "results") else ret data)
      is_JSONDecodeError
      (fun _ =>
         logger ERROR [Lit "Failed to parse environments response as JSON"] ;;;
         ret (PList []))
  else
    logger ERROR [Lit "Failed to retrieve environments: ";
                  Val (PInt (status_code response)); Lit " ";
                  Val (PStr (text response))] ;;;
    ret (PList []).

(** The [for env in environments] loop of [get_environment_id]; [Some id]
    is the early [return env.get('id')]. *)
Fixpoint find_environment (envs : list pyval) (name : string) : M (option pyval) :=
  match envs with
  | [] => ret None
  | env :: rest =>
      n <- lift (get env "name" (PStr "")) ;;
      l <- lift (lower_of n) ;;
      if (l =? str_lower (python W) name)%string then
        i <- lift (get env "id" PNone) ;;
        ret (Some i)
      else find_environment rest name
  end.

Definition get_environment_id (environment_name_or_id : reference) : M pyval :=
  match environment_name_or_id with
  | RInt z => ret (PInt z)
  | RStr s =>
      if str_isdigit (python W) s then
        match str_int (python W) s with
        | Some z => ret (PInt z)
        | None => raise ValueError
        end
      else
        environments <- get_environments ;;
        envs <- lift (iter environments) ;;
        found <- find_environment envs s ;;
        match found with
        | Some i => ret i
        | None =>
            nonempty <- (if truthy environments then
                           n <- lift (len environments) ;; ret (0 <? n)%nat
                         else ret false) ;;
            if nonempty : bool then
              e0 <- lift (getitem0 environments) ;;
              name0 <- lift (get e0 "name" PNone) ;;
              e0' <- lift (getitem0 environments) ;;
              id0 <- lift (get e0' "id" PNone) ;;
              logger WARNING [Lit "Environment '"; Val (PStr s);
                              Lit "' not found. Using first available environment: ";
                              Val name0; Lit " (ID: "; Val id0; Lit ")"] ;;;
              e0'' <- lift (getitem0 environments) ;;
              lift (get e0'' "id" PNone)
            else ret PNone
        end
  end.

Definition get_engagement (engagement_id : pyval) : M pyval :=
  logger INFO [Lit "Retrieving engagement with ID: "; Val engagement_id] ;;;
  response <- http (mkRequest GET (EpEngagement engagement_id) HdrJson [] None) ;;
  if status_code response =? 200 then json response
  else
    logger ERROR [Lit "Failed to retrieve engagement: ";
                  Val (PInt (status_code response)); Lit " ";
                  Val (PStr (text response))] ;;;
    ret PNone.

Definition get_product_from_engagement (engagement_id : pyval) : M pyval :=
  engagement <- get_engagement engagement_id ;;
  if truthy engagement then
    has <- lift (contains engagement "product") ;;
    if has : bool then lift (getitem engagement "product") else ret PNone
  else ret PNone.

Definition get_product (product_id : pyval) : M pyval :=
  logger INFO [Lit "Retrieving product with ID: "; Val product_id] ;;;
  response <- http (mkRequest GET (EpProduct product_id) HdrJson [] None) ;;
  if status_code response =? 200 then json response
  else
    logger ERROR [Lit "Failed to retrieve product: ";
                  Val (PInt (status_code response)); Lit " ";
                  Val (PStr (text response))] ;;;
    ret PNone.

Definition get_test_types : M pyval :=
  response <- http (mkRequest GET EpTestTypes HdrJson [] None) ;;
  if status_code response =? 200 then
    try_except
      (data <- json response ;;
       has <- lift (contains data "results") ;;
       if has : bool then lift (getitem data "results") else ret data)
      is_JSONDecodeError
      (fun _ =>
         logger ERROR [Lit "Failed to parse test types response as JSON"] ;;;
         ret (PList []))
  else
    logger ERROR [Lit "Failed to retrieve test types: ";
                  Val (PInt (status_code response)); Lit " ";
                  Val (PStr (text response))] ;;;
    ret (PList []).

(** The loop of [_get_test_type_id]. *)
Fixpoint find_test_type (test_types : list pyval) (name : string) : M (option pyval) :=
  match test_types with
  | [] => ret None
  | test_type :: rest =>
      n <- lift (getitem test_type "name") ;;
      l <- lift (lower_of n) ;;
      if (l =? str_lower (python W) name)%string then
        i <- lift (getitem test_type "id") ;;
        ret (Some i)
      else find_test_type rest name
  end.

Definition _get_test_type_id (test_type_name : string) : M pyval :=
  test_types <- get_test_types ;;
  tts <- lift (iter test_types) ;;
  found <- find_test_type tts test_type_name ;;
  match found with
  | Some i => ret i
  | None => ret PNone
  end.
(** [if not x] on an optional string argument: [None] and [''] are false *)
Definition given (x : option string) : bool :=
  match x with
  | Some s => negb (s =? "")%string
  | None => false
  end.

Definition pyval_of_opt (x : option string) : pyval :=
  match x with
  | Some s => PStr s
  | None => PNone
  end.

(** The test-type step of [create_test]: [Some id], or [None] for the
    early [return None]. *)
Definition resolve_test_type (test_type : reference) : M (option pyval) :=
  match test_type with
  | RStr s =>
      if negb (str_isdigit (python W) s) then
        test_type_id <- _get_test_type_id s ;;
        if negb (truthy test_type_id) then
          logger ERROR [Lit "Test type '"; Val (PStr s); Lit "' not found"] ;;;
          ret None
        else ret (Some test_type_id)
      else ret (Some (PStr s))
  | RInt z => ret (Some (PInt z))
  end.

(** [create_test]; the unused [notes] argument is left out. *)
Definition create_test (engagement_id : pyval) (test_type environment : reference)
    (target_start : string) (target_end title : option string) : M pyval :=
  let target_end := if given target_end then pyval_of_opt target_end
                    else PStr target_start in
  let title := if given title then pyval_of_opt title
               else PStr (str_of_ref test_type ++ " test on " ++ target_start) in
  resolved <- resolve_test_type test_type ;;
  match resolved with
  | None => ret PNone
  | Some test_type_id =>
      environment_id <- get_environment_id environment ;;
      if negb (truthy environment_id) then
        logger ERROR [Lit "Environment '"; Val (pyval_of_ref environment);
                      Lit "' not found and no default available"] ;;;
        ret PNone
      else
        let data := [("engagement", engagement_id);
                     ("test_type", test_type_id);
                     ("environment", environment_id);
                     ("target_start", PStr target_start);
                     ("target_end", target_end);
                     ("title", title)] in
        logger INFO [Lit "Creating new test: "; Val title] ;;;
        logger DEBUG [Lit "Test creation data: "; Val (PDict data)] ;;;
        response <- http (mkRequest POST EpTests HdrJson data None) ;;
        if status_code response =? 201 then json response
        else
          logger ERROR [Lit "Failed to create test: ";
                        Val (PInt (status_code response)); Lit " ";
                        Val (PStr (text response))] ;;;
          ret PNone
  end.

Definition missing_product_name : string := "product_name parameter missing".

(** [status in [200, 201]] *)
Definition accepted (r : response) : bool :=
  (status_code r =? 200) || (status_code r =? 201).

(** The product lookup of [upload_findings]: the new values of the local
    variables [product_id] and [product_name]. *)
Definition product_from_engagement (engagement_id product_id product_name : pyval)
  : M (pyval * pyval) :=
  if truthy engagement_id && negb (truthy product_id) && negb (truthy product_name) then
    product_id <- get_product_from_engagement engagement_id ;;
    if truthy product_id then
      product <- get_product product_id ;;
      if truthy product then
        has <- lift (contains product "name") ;;
        if has : bool then
          n <- lift (getitem product "name") ;;
          ret (product_id, n)
        else ret (product_id, product_name)
      else ret (product_id, product_name)
    else ret (product_id, product_name)
  else ret (product_id, product_name).

(** The multipart POST to the import-scan endpoint: the token is the only
    header, [data] the form fields, [f] the open report file. *)
Definition upload_request (data : list (string * pyval)) (f : nat) : request :=
  mkRequest POST EpImportScan HdrTokenOnly data (Some f).

(** The body of the [try] of [upload_findings]: [Some json] is a [return]
    from inside it, [None] falls through to the final error. *)
Definition try_upload (report_file scan_type : string) (f : nat)
    (data : list (string * pyval)) (product_name : pyval) : M (option pyval) :=
  logger INFO [Lit "Trying to upload to: "; Lit "/api/v2/import-scan/"] ;;;
  logger DEBUG [Lit "Upload data: "; Val (PDict data)] ;;;
  response <- http (upload_request data f) ;;
  logger DEBUG [Lit "Response status: "; Val (PInt (status_code response))] ;;;
  logger DEBUG [Lit "Response content: "; Val (PStr (text response))] ;;;
  if accepted response then
    logger INFO [Lit "Successfully uploaded findings to "; Lit "/api/v2/import-scan/"] ;;;
    v <- json response ;;
    ret (Some v)
  else
    logger WARNING [Lit "Failed to upload to "; Lit "/api/v2/import-scan/"; Lit ": ";
                    Val (PInt (status_code response)); Lit " ";
                    Val (PStr (text response))] ;;;
    if str_contains missing_product_name (text response) && negb (truthy product_name) then
      logger INFO [Lit "Trying again with scan_type as product_name"] ;;;
      let data := dict_set "product_name" (PStr scan_type) data in
      f2 <- open_rb report_file ;;
      retry_response <- http (upload_request data f2) ;;
      logger DEBUG [Lit "Retry response status: ";
                    Val (PInt (status_code retry_response))] ;;;
      logger DEBUG [Lit "Retry response content: ";
                    Val (PStr (text retry_response))] ;;;
      if accepted retry_response then
        logger INFO [Lit "Successfully uploaded findings on retry"] ;;;
        v <- json retry_response ;;
        ret (Some v)
      else ret None
    else ret None.

(** The [data] dictionary [upload_findings] builds before the first attempt. *)
Definition upload_data (test_id : pyval) (scan_type : string)
    (close_old_findings push_to_jira : bool) (product_id product_name : pyval)
  : list (string * pyval) :=
  let data := [("scan_type", PStr scan_type);
               ("test", test_id);
               ("active", PBool true);
               ("verified", PBool false);
               ("close_old_findings", PBool close_old_findings);
               ("push_to_jira", PBool push_to_jira)] in
  let data := if truthy product_id then dict_set "product_id" product_id data
              else data in
  let data := if truthy product_name then dict_set "product_name" product_name data
              else data in
  data.

Definition upload_findings (test_id : pyval) (report_file scan_type : string)
    (close_old_findings push_to_jira : bool)
    (engagement_id product_id product_name : pyval) : M pyval :=
  logger INFO [Lit "Uploading findings from file: "; Val (PStr report_file);
               Lit " with scan type: "; Val (PStr scan_type)] ;;;
  if negb (isfile W report_file) then
    logger ERROR [Lit "Report file not found: "; Val (PStr report_file)] ;;;
    ret PNone
  else
    p <- product_from_engagement engagement_id product_id product_name ;;
    let product_id := fst p in
    let product_name := snd p in
    f <- open_rb report_file ;;
    let data := upload_data test_id scan_type close_old_findings push_to_jira
                  product_id product_name in
    returned <- try_except
                  (try_upload report_file scan_type f data product_name)
                  is_RequestException
                  (fun e =>
                     logger WARNING [Lit "Error uploading to ";
                                     Lit "/api/v2/import-scan/"; Lit ": "; Exc e] ;;;
                     ret None) ;;
    match returned with
    | Some v => ret v
    | None =>
        logger ERROR [Lit "Failed to upload findings"] ;;;
        ret PNone
    end.

(** The title [scan_and_import] composes. *)
Definition scan_title (test_type : reference) (build_id branch_name : option string)
  : string :=
  let title := str_of_ref test_type ++ " scan" in
  let title := if given build_id
               then title ++ " - Build #" ++ match build_id with Some b => b | None => "" end
               else title in
  let title := if given branch_name
               then title ++ " - Branch: " ++ match branch_name with Some b => b | None => "" end
               else title in
  title.

Definition scan_and_import (engagement_id : pyval) (test_type : reference)
    (report_file scan_type : string) (environment : reference)
    (close_old_findings push_to_jira : bool) (build_id branch_name : option string)
    (product_id product_name : pyval) : M pyval :=
  let title := scan_title test_type build_id branch_name in
  test <- create_test engagement_id test_type environment (today W) None (Some title) ;;
  if negb (truthy test) then
    ret (PDict [("success", PBool false); ("message", PStr "Failed to create test")])
  else
    test_id <- lift (getitem test "id") ;;
    import_result <- upload_findings test_id report_file scan_type
                       close_old_findings push_to_jira
                       engagement_id product_id product_name ;;
    if truthy import_result then
      test_id <- lift (getitem test "id") ;;
      import_id <- lift (getitem import_result "id") ;;
      test_title <- lift (getitem test "title") ;;
      ret (PDict [("success", PBool true);
                  ("test_id", test_id);
                  ("import_id", import_id);
                  ("message", PStr "Successfully created test and imported findings");
                  ("test_title", test_title)])
    else
      test_id <- lift (getitem test "id") ;;
      ret (PDict [("success", PBool false);
                  ("test_id", test_id);
                  ("message", PStr "Created test but failed to import findings")]).

(** ** evalution.py *)

(** [response.raise_for_status()]: an [HTTPError], which is a
    [RequestException], on a 4xx or 5xx status. *)
Definition raise_for_status (r : response) : M unit :=
  if (400 <=? status_code r) && (status_code r <? 600) then raise RequestException
  else ret tt.

Definition findings_params (product_id : pyval) : list (string * pyval) :=
  let params := [("limit", PInt 1000); ("false_p", PBool false)] in
  if truthy product_id then dict_set "test__engagement__product" product_id params
  else params.

Definition get_findings (product_id : pyval) : M pyval :=
  try_except
    (response <- http (mkRequest GET EpFindings HdrJson (findings_params product_id) None) ;;
     raise_for_status response ;;;
     json response)
    is_RequestException
    (fun e =>
       logger ERROR [Lit "Error fetching findings: "; Exc e] ;;;
       raise SystemExit).

End Client.

Record counters : Type := mkCounters {
  critical_count : nat;
  high_count : nat;
  medium_count : nat
}.

(** One iteration of the counting loop of [check_thresholds]. *)
Definition count_finding (finding : pyval) (c : counters) : result counters :=
  match get finding "severity" (PStr "") with
  | Raise e => Raise e
  | Ok sev =>
      match py_lower sev with
      | Raise e => Raise e
      | Ok severity =>
          match get finding "false_p" (PBool false) with
          | Raise e => Raise e
          | Ok fp =>
              if truthy fp then Ok c
              else if (severity =? "critical")%string then
                Ok (mkCounters (S (critical_count c)) (high_count c) (medium_count c))
              else if (severity =? "high")%string then
                Ok (mkCounters (critical_count c) (S (high_count c)) (medium_count c))
              else if (severity =? "medium")%string then
                Ok (mkCounters (critical_count c) (high_count c) (S (medium_count c)))
              else Ok c
          end
      end
  end.

Fixpoint count_findings (findings : list pyval) (c : counters) : result counters :=
  match findings with
  | [] => Ok c
  | finding :: rest =>
      match count_finding finding c with
      | Raise e => Raise e
      | Ok c' => count_findings rest c'
      end
  end.

(** The threshold checks of [check_thresholds], on the final counters. *)
Definition check_counts (c : counters) : bool * list string :=
  let failed := false in
  let failure_reasons : list string := [] in
  let '(failed, failure_reasons) :=
    if (0 <? critical_count c)%nat then
      (true, (failure_reasons ++
             [("Found " ++ str_of_nat (critical_count c) ++ " critical findings (threshold: 0)")%string])%list)
    else (failed, failure_reasons) in
  let '(failed, failure_reasons) :=
    if (2 <? high_count c)%nat then
      (true, (failure_reasons ++
             [("Found " ++ str_of_nat (high_count c) ++ " high findings (threshold: 2)")%string])%list)
    else (failed, failure_reasons) in
  let '(failed, failure_reasons) :=
    if (10 <? medium_count c)%nat then
      (true, (failure_reasons ++
             [("Found " ++ str_of_nat (medium_count c) ++ " medium findings (threshold: 10)")%string])%list)
    else (failed, failure_reasons) in
  (failed, failure_reasons).

Definition check_thresholds (findings_data : pyval) : M (bool * list string) :=
  results <- lift (get findings_data "results" (PList [])) ;;
  findings <- lift (iter results) ;;
  c <- lift (count_findings findings (mkCounters 0 0 0)) ;;
  logger INFO [Lit "Found "; Val (PInt (Z.of_nat (critical_count c))); Lit " critical findings"] ;;;
  logger INFO [Lit "Found "; Val (PInt (Z.of_nat (high_count c))); Lit " high findings"] ;;;
  logger INFO [Lit "Found "; Val (PInt (Z.of_nat (medium_count c))); Lit " medium findings"] ;;;
  ret (check_counts c).

From Stdlib Require Import Permutation.

(** * The rest of the repository *)

(** How a script ends: [sys.exit(code)], or an exception nothing catches. *)
Inductive termination : Type :=
| Exit (code : Z)
| Uncaught (e : exn).

(** The exit status the shell sees; the interpreter turns an uncaught
    exception into status 1. *)
Definition exit_status (t : termination) : Z :=
  match t with
  | Exit code => code
  | Uncaught _ => 1
  end.

(** ** evalution.py: main *)

Section Gate.

Variable W : world.

(** [for reason in reasons: logger.error(f"- {reason}")] *)
Fixpoint log_reasons (reasons : list string) : M unit :=
  match reasons with
  | [] => ret tt
  | reason :: rest =>
      logger ERROR [Lit "- "; Val (PStr reason)] ;;;
      log_reasons rest
  end.

(** [main] of evalution.py, from the parsed arguments [--url] and
    [--product].  The [SystemExit] that leaves [get_findings] is its
    [sys.exit(1)]. *)
Definition gate_main (url : string) (product : pyval) (st : state) : termination * state :=
  let '(_, st) :=
    logger INFO [Lit "Fetching findings from DefectDojo API at "; Val (PStr url)] st in
  match get_findings W product st with
  | (Raise SystemExit, st) => (Exit 1, st)
  | (Raise e, st) => (Uncaught e, st)
  | (Ok findings_data, st) =>
      match check_thresholds findings_data st with
      | (Raise e, st) => (Uncaught e, st)
      | (Ok (failed, reasons), st) =>
          if failed : bool then
            let '(_, st) :=
              logger ERROR [Lit "Pipeline check FAILED due to the following reasons:"] st in
            let '(_, st) := log_reasons reasons st in
            (Exit 1, st)
          else
            let '(_, st) :=
              logger INFO [Lit "Pipeline check PASSED - all thresholds are satisfied"] st in
            (Exit 0, st)
      end
  end.

End Gate.

(** ** defect_dojo_api.py: the constructor *)

(** [s.rstrip('/')] *)
Fixpoint rstrip_slash (s : string) : string :=
  match s with
  | EmptyString => EmptyString
  | String c r =>
      match rstrip_slash r with
      | EmptyString => if Ascii.eqb c "/" then EmptyString else String c EmptyString
      | r' => String c r'
      end
  end.

(** What [DefectDojoAPI(api_key, host)] gives: the client with its key and
    its host, or one of the two exceptions [__init__] raises. *)
Inductive construction : Type :=
| Constructed (api_key host : string)
| ValueError
| ConnectionError.

Section Constructor.

Variable W : world.

(** [test_connection]: [true] when it returns, [false] when it raises
    [ConnectionError] (the built-in one, which the [except] clause for
    [RequestException] does not catch). *)
Definition test_connection (host : string) : M bool :=
  try_except
    (response <- http W (mkRequest GET EpUsers HdrJson [] None) ;;
     if status_code response =? 200 then
       logger INFO [Lit "Successfully connected to DefectDojo at "; Val (PStr host)] ;;;
       ret true
     else
       logger ERROR [Lit "Failed to connect to DefectDojo: ";
                     Val (PInt (status_code response)); Lit " ";
                     Val (PStr (text response))] ;;;
       ret false)
    is_RequestException
    (fun e =>
       logger ERROR [Lit "Connection error: "; Exc e] ;;;
       ret false).

(** [__init__]; [verify_ssl] and [debug] do not change what it does here. *)
Definition init_client (api_key host : option string) (st : state) : construction * state :=
  let host := if given host then Some (rstrip_slash (match host with
                                                     | Some h => h
                                                     | None => ""
                                                     end))
              else None in
  if negb (given api_key) || negb (given host) then
    let '(_, st) := logger ERROR [Lit "API key and host are required"] st in
    (ValueError, st)
  else
    let key := match api_key with Some k => k | None => "" end in
    let h := match host with Some h => h | None => "" end in
    match test_connection h st with
    | (Ok true, st) => (Constructed key h, st)
    | (_, st) => (ConnectionError, st)
    end.

End Constructor.

(** ** patch_defectdojo.py: the host of the patched constructor *)

(** [s.endswith('/')] *)
Fixpoint endswith_slash (s : string) : bool :=
  match s with
  | EmptyString => false
  | String c EmptyString => Ascii.eqb c "/"
  | String _ r => endswith_slash r
  end.

(** [s.split('/')] *)
Fixpoint split_slash (s : string) : list string :=
  match s with
  | EmptyString => [EmptyString]
  | String c r =>
      if Ascii.eqb c "/" then EmptyString :: split_slash r
      else match split_slash r with
           | h :: t => String c h :: t
           | [] => [String c EmptyString]
           end
  end.

(** [x in parts] *)
Definition among (x : string) (parts : list string) : bool :=
  existsb (fun p => (p =? x)%string) parts.

(** [self.host] once [patched_init] has run. *)
Definition patched_host (host : string) : string :=
  let host := if negb (endswith_slash host) then host ++ "/" else host in
  let host_parts := split_slash host in
  if negb (among "api" host_parts) && negb (among "v2" host_parts)
  then host ++ "api/v2/"
  else host.

(** ** defect_dojo_import_scan.py *)

(** [kwargs.get(k, default)] *)
Definition kwargs_get (kwargs : list (string * pyval)) (k : string) (default : pyval)
  : pyval :=
  match lookup k kwargs with
  | Some v => v
  | None => default
  end.

(** [if kwargs.get(k): data[k] = kwargs.get(k)] *)
Definition copy_if_set (kwargs data : list (string * pyval)) (k : string)
  : list (string * pyval) :=
  if truthy (kwargs_get kwargs k PNone) then dict_set k (kwargs_get kwargs k PNone) data
  else data.

(** The optional fields of the name approach, in the order of the source. *)
Definition name_approach : list string :=
  ["product_name"; "engagement_name"; "product_type_name"; "auto_create_context";
   "deduplication_on_engagement"].

(** The other optional fields, in the order of the source. *)
Definition other_optional : list string :=
  ["scan_date"; "minimum_severity"; "endpoint_to_add"; "test_title"; "build_id";
   "branch_tag"; "commit_hash"; "tags"; "environment"; "version"; "service";
   "source_code_management_uri"; "engagement_end_date"; "lead"].

(** The [data] dictionary of [import_scan]. *)
Definition import_data (scan_type : string) (kwargs : list (string * pyval))
  : list (string * pyval) :=
  let data := [("scan_type", PStr scan_type);
               ("active", kwargs_get kwargs "active" (PBool true));
               ("verified", kwargs_get kwargs "verified" (PBool false));
               ("close_old_findings", kwargs_get kwargs "close_old_findings" (PBool false));
               ("push_to_jira", kwargs_get kwargs "push_to_jira" (PBool false))] in
  let data :=
    if truthy (kwargs_get kwargs "engagement" PNone)
    then dict_set "engagement" (kwargs_get kwargs "engagement" PNone) data
    else fold_left (copy_if_set kwargs) name_approach data in
  fold_left (copy_if_set kwargs) other_optional data.

Inductive stream : Type := Stdout | Stderr.

Section ImportScan.

Variable W : world.

(** [import_scan]; [api_key], [host] and [verify_ssl] do not change what it
    does here. *)
Definition import_scan (scan_file scan_type : string) (debug : bool)
    (kwargs : list (string * pyval)) : M pyval :=
  if negb (isfile W scan_file) then
    logger ERROR [Lit "Scan file not found: "; Val (PStr scan_file)] ;;;
    ret PNone
  else
    let data := import_data scan_type kwargs in
    logger INFO [Lit "Importing scan from "; Val (PStr scan_file);
                 Lit " with scan type: "; Val (PStr scan_type)] ;;;
    (if debug then logger DEBUG [Lit "Import parameters: "; Val (PDict data)]
     else ret tt) ;;;
    f <- open_rb W scan_file ;;
    try_except
      (response <- http W (upload_request data f) ;;
       (if debug then
          logger DEBUG [Lit "Response status: "; Val (PInt (status_code response))] ;;;
          logger DEBUG [Lit "Response content: "; Val (PStr (text response))]
        else ret tt) ;;;
       if accepted response then
         logger INFO [Lit "Successfully imported the scan"] ;;;
         json response
       else
         logger ERROR [Lit "Failed to import scan: ";
                       Val (PInt (status_code response)); Lit " ";
                       Val (PStr (text response))] ;;;
         ret PNone)
      is_RequestException
      (fun e =>
         logger ERROR [Lit "Error during API request: "; Exc e] ;;;
         ret PNone).

(** [main] of defect_dojo_import_scan.py, from the parsed arguments: the
    file, the scan type, the debug flag and the remaining options [kwargs].
    Beside the way it ends it gives the lines it prints. *)
Definition import_main (file scan_type : string) (debug : bool)
    (kwargs : list (string * pyval)) (st : state)
  : termination * list (stream * list piece) * state :=
  if negb (truthy (kwargs_get kwargs "engagement" PNone))
     && negb (truthy (kwargs_get kwargs "product_name" PNone)) then
    (Exit 1,
     [(Stderr, [Lit "Error: Either --engagement or --product-name must be provided"])],
     st)
  else
    let out :=
      if truthy (kwargs_get kwargs "product_name" PNone)
         && negb (truthy (kwargs_get kwargs "engagement_name" PNone))
         && negb (truthy (kwargs_get kwargs "auto_create_context" PNone))
      then [(Stderr, [Lit "Warning: When using --product-name, you should also provide --engagement-name or --auto-create-context"])]
      else [] in
    match import_scan file scan_type debug kwargs st with
    | (Raise e, st) => (Uncaught e, out, st)
    | (Ok result, st) =>
        if truthy result then
          let out := (out ++ [(Stdout, [Lit "Scan import successful!"])])%list in
          match get result "test" (PStr "Unknown") with
          | Raise e => (Uncaught e, out, st)
          | Ok test =>
              let out := (out ++ [(Stdout, [Lit "Test ID: "; Val test])])%list in
              match get result "finding_count" (PInt 0) with
              | Raise e => (Uncaught e, out, st)
              | Ok n =>
                  (Exit 0,
                   (out ++ [(Stdout, [Lit "Finding count: "; Val n])])%list, st)
              end
          end
        else (Exit 1, (out ++ [(Stderr, [Lit "Scan import failed."])])%list, st)
    end.

End ImportScan.

(** ** defect_dojo_api.py: get_scan_types

    The URLs this method tries are not among the endpoints of the rest of
    the client, so its calls are recorded here by their path. *)

Module ScanTypes.

Record state : Type := mkState {
  calls : list (string * outcome);
  log : list (level * list piece)
}.

Definition init : state := mkState [] [].

(** The service, given the calls made so far and the path asked for. *)
Definition service : Type := list (string * outcome) -> string -> outcome.

Definition T (A : Type) : Type := state -> result A * state.

Definition ret {A} (a : A) : T A := fun st => (Ok a, st).

Definition bind {A B} (m : T A) (k : A -> T B) : T B :=
  fun st =>
    match m st with
    | (Ok a, st') => k a st'
    | (Raise e, st') => (Raise e, st')
    end.

Definition lift {A} (r : result A) : T A := fun st => (r, st).

Definition logger (l : level) (msg : list piece) : T unit :=
  fun st => (Ok tt, mkState (calls st) (log st ++ [(l, msg)])).

(** [requests.get(f"{self.host}{path}", ...)] *)
Definition get_path (S : service) (path : string) : T response :=
  fun st =>
    let o := S (calls st) path in
    let st' := mkState (calls st ++ [(path, o)]) (log st) in
    match o with
    | Responds r => (Ok r, st')
    | TransportError => (Raise RequestException, st')
    end.

Definition endpoints : list string :=
  ["/api/v2/import-scan-info/"; "/api/v2/scan_type_info/"; "/api/v2/test-types/"].

Definition swagger : string := "/api/v2/oa3/swagger-ui/".

(** The loop over the items of one answer: the names appended to
    [scan_types]. *)
Fixpoint names_of (items : list pyval) : result (list pyval) :=
  match items with
  | [] => Ok []
  | item :: rest =>
      match contains item "scan_type_name" with
      | Raise e => Raise e
      | Ok true =>
          match getitem item "scan_type_name" with
          | Raise e => Raise e
          | Ok n => match names_of rest with
                    | Raise e => Raise e
                    | Ok ns => Ok (n :: ns)
                    end
          end
      | Ok false =>
          match contains item "name" with
          | Raise e => Raise e
          | Ok true =>
              match getitem item "name" with
              | Raise e => Raise e
              | Ok n => match names_of rest with
                        | Raise e => Raise e
                        | Ok ns => Ok (n :: ns)
                        end
              end
          | Ok false => names_of rest
          end
      end
  end.

(** The names found in one parsed body: those of its items when it is a
    list, those of its [results] when it has that field, none otherwise. *)
Definition scan_types_of (data : pyval) : result (list pyval) :=
  match data with
  | PList items => names_of items
  | _ =>
      match contains data "results" with
      | Raise e => Raise e
      | Ok true =>
          match getitem data "results" with
          | Raise e => Raise e
          | Ok results =>
              match iter results with
              | Raise e => Raise e
              | Ok items => names_of items
              end
          end
      | Ok false => Ok []
      end
  end.

Section Client.

Variable S : service.

(** One round of the loop over the endpoints: [Some names] is the
    [return scan_types] from inside it. *)
Definition try_endpoint (endpoint : string) : T (option (list pyval)) :=
  fun st =>
    match
      bind (logger INFO [Lit "Trying to get scan types from endpoint: ";
                         Val (PStr endpoint)])
        (fun _ =>
           bind (get_path S endpoint)
             (fun response =>
                if status_code response =? 200 then
                  bind (lift (match body response with
                              | Some v => Ok v
                              | None => Raise JSONDecodeError
                              end))
                    (fun data =>
                       bind (lift (scan_types_of data))
                         (fun scan_types =>
                            match scan_types with
                            | [] => ret None
                            | _ =>
                                bind (logger INFO
                                        [Lit "Successfully retrieved ";
                                         Val (PInt (Z.of_nat (List.length scan_types)));
                                         Lit " scan types from ";
                                         Val (PStr endpoint)])
                                  (fun _ => ret (Some scan_types))
                            end))
                else
                  bind (logger WARNING [Lit "Failed to retrieve scan types from ";
                                        Val (PStr endpoint); Lit ": ";
                                        Val (PInt (status_code response))])
                    (fun _ => ret None)))
        st
    with
    | (Raise e, st') =>
        if is_RequestException e then
          bind (logger WARNING [Lit "Error accessing "; Val (PStr endpoint);
                                Lit ": "; Exc e])
            (fun _ => ret None) st'
        else (Raise e, st')
    | ok => ok
    end.

(** What follows the loop when no endpoint returned: the error, the look at
    the Swagger page inside a bare [except], and the empty list. *)
Definition after_loop : T (list pyval) :=
  bind (logger ERROR [Lit "Failed to retrieve scan types from all endpoints"])
    (fun _ st =>
       let '(_, st') :=
         bind (logger INFO [Lit "Attempting to extract information from Swagger UI..."])
           (fun _ =>
              bind (get_path S swagger)
                (fun response =>
                   if status_code response =? 200 then
                     logger INFO [Lit "Successfully accessed Swagger UI. Please check the API documentation manually."]
                   else ret tt))
           st in
       (Ok [], st')).

Fixpoint try_endpoints (eps : list string) : T (list pyval) :=
  match eps with
  | [] => after_loop
  | endpoint :: rest =>
      bind (try_endpoint endpoint)
        (fun found =>
           match found with
           | Some scan_types => ret scan_types
           | None => try_endpoints rest
           end)
  end.

Definition get_scan_types : T (list pyval) := try_endpoints endpoints.

End Client.

End ScanTypes.

(** * Vocabulary of the properties *)

(** ** The threshold evaluator *)

(** The counters [check_thresholds] computes from the parsed findings body. *)
Definition tally (findings_data : pyval) : result counters :=
  match get findings_data "results" (PList []) with
  | Raise e => Raise e
  | Ok results =>
      match iter results with
      | Raise e => Raise e
      | Ok findings => count_findings findings (mkCounters 0 0 0)
      end
  end.

Definition critical_reason (n : nat) : string :=
  "Found " ++ str_of_nat n ++ " critical findings (threshold: 0)".
Definition high_reason (n : nat) : string :=
  "Found " ++ str_of_nat n ++ " high findings (threshold: 2)".
Definition medium_reason (n : nat) : string :=
  "Found " ++ str_of_nat n ++ " medium findings (threshold: 10)".

(** A finding record as the findings endpoint serves it. *)
Definition finding (severity : string) (false_p : bool) : pyval :=
  PDict [("severity", PStr severity); ("false_p", PBool false_p)].

(** Findings on which the counting loop cannot raise: records whose
    severity is a string. *)
Definition well_formed (f : pyval) : Prop :=
  exists d, f = PDict d /\
            (lookup "severity" d = None \/ exists s, lookup "severity" d = Some (PStr s)).


(** ** The identifier resolver *)

(** A reference that bypasses the lookup: an integer, or a string for
    which [isdigit()] is true. *)
Definition numeric (W : world) (r : reference) : bool :=
  match r with
  | RInt _ => true
  | RStr s => str_isdigit (python W) s
  end.

(** [int(r)]: the integer value of a reference, [None] where [int] raises
    [ValueError]. *)
Definition int_value (W : world) (r : reference) : option Z :=
  match r with
  | RInt z => Some z
  | RStr s => str_int (python W) s
  end.

(** A listed resource (a record with a string name) whose name is not [s]
    up to case: their [lower()] differ. *)
Definition named_other_than (W : world) (s : string) (r : pyval) : Prop :=
  exists d n, r = PDict d /\ lookup "name" d = Some (PStr n)
              /\ (str_lower (python W) n =? str_lower (python W) s)%string = false.

Definition is_post (e : event) : bool :=
  match e with
  | EvHttp rq _ => match req_method rq with POST => true | GET => false end
  | EvOpen _ _ => false
  end.

(** The mutating calls of a trace. *)
Definition posts (tr : list event) : list event := filter is_post tr.

Definition environments_request : request :=
  mkRequest GET EpDevelopmentEnvironments HdrJson [] None.

Definition test_types_request : request :=
  mkRequest GET EpTestTypes HdrJson [] None.

(** ** Concrete services, used to run the client on examples *)

Definition replies (status : Z) (txt : string) (v : pyval) : outcome :=
  Responds (mkResponse status txt (Some v)).

Definition production : pyval := PDict [("id", PInt 3); ("name", PStr "Production")].

Definition zap_scan : pyval := PDict [("id", PInt 7); ("name", PStr "ZAP Scan")].

(** A service with one environment, one test type, one engagement and its
    product; [tests] and [upload] say how it answers the test-creation and
    the import-scan requests. *)
Definition service (tests upload : list event -> request -> outcome)
    (tr : list event) (rq : request) : outcome :=
  match req_endpoint rq with
  | EpDevelopmentEnvironments =>
      replies 200 "" (PDict [("count", PInt 1); ("results", PList [production])])
  | EpTestTypes =>
      replies 200 "" (PDict [("count", PInt 1); ("results", PList [zap_scan])])
  | EpEngagement _ => replies 200 "" (PDict [("id", PInt 1); ("product", PInt 5)])
  | EpProduct _ => replies 200 "" (PDict [("id", PInt 5); ("name", PStr "Shop")])
  | EpTests => tests tr rq
  | EpImportScan => upload tr rq
  | _ => Responds (mkResponse 404 "Not found" None)
  end.

(** The test-creation endpoint creating test 11 with the posted title. *)
Definition creates_test (tr : list event) (rq : request) : outcome :=
  replies 201 ""
    (PDict [("id", PInt 11);
            ("title", match lookup "title" (req_data rq) with
                      | Some t => t
                      | None => PNone
                      end)]).

Definition accepts_upload (tr : list event) (rq : request) : outcome :=
  replies 201 "" (PDict [("id", PInt 21); ("test", PInt 11)]).

Definition rejects (txt : string) (tr : list event) (rq : request) : outcome :=
  Responds (mkResponse 400 txt None).

Definition unreachable (tr : list event) (rq : request) : outcome := TransportError.

(** An import-scan endpoint that insists on a product name. *)
Definition wants_product_name (tr : list event) (rq : request) : outcome :=
  match lookup "product_name" (req_data rq) with
  | Some _ => accepts_upload tr rq
  | None => rejects "product_name parameter missing" tr rq
  end.

Definition on_disk (path : string) : bool := (path =? "report.xml")%string.

(** The built-ins cut down to the ASCII letters and digits.  On an ASCII
    string this is what every interpreter does (the laws of [runtime]); the
    sample runs on the services below resolve ASCII references against ASCII
    names only.  [sample_runtime], further down, goes beyond ASCII. *)
Definition ascii_runtime : runtime :=
  mkRuntime lower isdigit (fun s => Some (int_of_digits s))
    (fun _ _ => eq_refl) (fun _ _ => eq_refl) (fun _ _ _ => eq_refl).

Definition world_of (tests upload : list event -> request -> outcome) : world :=
  mkWorld (service tests upload) on_disk on_disk "2024-05-01" ascii_runtime.

(** The service on which everything succeeds. *)
Definition demo : world := world_of creates_test accepts_upload.

(** A service with nothing configured: every listing is empty. *)
Definition bare_service (tr : list event) (rq : request) : outcome :=
  match req_endpoint rq with
  | EpDevelopmentEnvironments | EpTestTypes =>
      replies 200 "" (PDict [("count", PInt 0); ("results", PList [])])
  | EpTests => creates_test tr rq
  | EpImportScan => accepts_upload tr rq
  | _ => Responds (mkResponse 404 "Not found" None)
  end.

Definition bare : world :=
  mkWorld bare_service on_disk on_disk "2024-05-01" ascii_runtime.

Definition environment_not_found (environment : reference) : level * list piece :=
  (ERROR, [Lit "Environment '"; Val (pyval_of_ref environment);
           Lit "' not found and no default available"]).

(** ** The orchestrator *)

(** The state once [upload_findings] has logged its first line. *)
Definition upload_started (report_file scan_type : string) (st : state) : state :=
  mkState (trace st)
    (log st ++ [(INFO, [Lit "Uploading findings from file: "; Val (PStr report_file);
                        Lit " with scan type: "; Val (PStr scan_type)])]).

(** The two results [scan_and_import] returns on failure. *)
Definition creation_failure : pyval :=
  PDict [("success", PBool false); ("message", PStr "Failed to create test")].

Definition import_failure (test_id : pyval) : pyval :=
  PDict [("success", PBool false);
         ("test_id", test_id);
         ("message", PStr "Created test but failed to import findings")].

(** An upload attempt that did not deliver an import result: the call
    raised, or the status was neither 200 nor 201. *)
Definition attempt_failed (o : outcome) : bool :=
  match o with
  | Responds r => negb (accepted r)
  | TransportError => true
  end.

(** The demo service with the engagement endpoint out of reach. *)
Definition engagement_down : world :=
  mkWorld (fun tr rq => match req_endpoint rq with
                        | EpEngagement _ => TransportError
                        | _ => service creates_test accepts_upload tr rq
                        end)
    on_disk on_disk "2024-05-01" ascii_runtime.

(** A service that cannot be reached at all. *)
Definition offline : world :=
  mkWorld unreachable on_disk on_disk "2024-05-01" ascii_runtime.

(** The first upload request of [upload_findings], given the product
    metadata [p] it settled on and the state [st2] it opens the file in. *)
Definition first_attempt (test_id : pyval) (scan_type : string)
    (close_old_findings push_to_jira : bool) (p : pyval * pyval) (st2 : state) : request :=
  upload_request
    (upload_data test_id scan_type close_old_findings push_to_jira (fst p) (snd p))
    (count_opens (trace st2)).

(** The retry: the same fields with [product_name] set to the scan type,
    and the next file handle. *)
Definition retry_attempt (test_id : pyval) (scan_type : string)
    (close_old_findings push_to_jira : bool) (p : pyval * pyval) (st2 : state) : request :=
  upload_request
    (dict_set "product_name" (PStr scan_type)
       (upload_data test_id scan_type close_old_findings push_to_jira (fst p) (snd p)))
    (S (count_opens (trace st2))).

(** A service whose import-scan endpoint rejects every upload for the
    missing product name, whatever is sent. *)
Definition stubborn : world :=
  world_of creates_test (rejects "product_name parameter missing").

Definition stubborn_reply : response :=
  mkResponse 400 "product_name parameter missing" None.

(** ** An interpreter beyond ASCII

    A runtime that, beside the ASCII letters and digits, knows what Python
    does to three strings: a capital E with acute lowercases, the
    Arabic-Indic digits of 42 are digits with that value, and a superscript
    two is a digit that [int] refuses. *)

Definition sample_lower (s : string) : string :=
  if (s =? "École")%string then "école" else lower s.

Definition sample_isdigit (s : string) : bool :=
  isdigit s || (s =? "٤٢")%string || (s =? "²")%string.

Definition sample_int (s : string) : option Z :=
  if (s =? "٤٢")%string then Some 42
  else if (s =? "²")%string then None
  else Some (int_of_digits s).

Definition sample_runtime : runtime.
Proof.
  refine (mkRuntime sample_lower sample_isdigit sample_int _ _ _).
  - intros s H. unfold sample_lower. destruct s as [|c r]; [reflexivity|].
    destruct c as [[] [] [] [] [] [] [] []]; try discriminate H; reflexivity.
  - intros s H. unfold sample_isdigit. destruct s as [|c r]; [reflexivity|].
    destruct c as [[] [] [] [] [] [] [] []]; try discriminate H;
      cbn; rewrite ?orb_false_r; reflexivity.
  - intros s H _. unfold sample_int. destruct s as [|c r]; [discriminate H|].
    destruct c as [[] [] [] [] [] [] [] []]; try discriminate H; reflexivity.
Defined.

(** A service that lists two environments, the second with a name that is
    not ASCII. *)
Definition polyglot_service (tr : list event) (rq : request) : outcome :=
  match req_endpoint rq with
  | EpDevelopmentEnvironments =>
      replies 200 ""
        (PDict [("results",
                  PList [production; PDict [("id", PInt 4); ("name", PStr "École")]])])
  | EpTestTypes => replies 200 "" (PDict [("results", PList [zap_scan])])
  | EpTests => creates_test tr rq
  | EpImportScan => accepts_upload tr rq
  | _ => Responds (mkResponse 404 "Not found" None)
  end.

Definition polyglot : world :=
  mkWorld polyglot_service on_disk on_disk "2024-05-01" sample_runtime.

(** * Vocabulary of the further properties *)

(** A listed resource named [s] up to case. *)
Definition named_like (W : world) (s : string) (r : pyval)
    (d : list (string * pyval)) : Prop :=
  r = PDict d
  /\ exists n, lookup "name" d = Some (PStr n)
               /\ str_lower (python W) n = str_lower (python W) s.

(** [d.get('id')] *)
Definition id_of (d : list (string * pyval)) : pyval :=
  match lookup "id" d with
  | Some i => i
  | None => PNone
  end.

(** A service whose listings are refused with status 403. *)
Definition forbidden_listing : world :=
  mkWorld (fun tr rq => match req_endpoint rq with
                        | EpDevelopmentEnvironments | EpTestTypes =>
                            Responds (mkResponse 403 "Forbidden" None)
                        | _ => service creates_test accepts_upload tr rq
                        end)
    on_disk on_disk "2024-05-01" ascii_runtime.

(** [x != 'results'] for each element of a bare listing *)
Definition no_results_string (l : list pyval) : bool :=
  negb (existsb (fun x => match x with PStr s => (s =? "results")%string | _ => false end) l).

(** The request [create_test] posts once the references are resolved to
    [test_type_id] and [environment_id]. *)
Definition test_request (engagement_id : pyval) (test_type : reference)
    (test_type_id environment_id : pyval) (target_start : string)
    (target_end title : option string) : request :=
  mkRequest POST EpTests HdrJson
    [("engagement", engagement_id);
     ("test_type", test_type_id);
     ("environment", environment_id);
     ("target_start", PStr target_start);
     ("target_end", if given target_end then pyval_of_opt target_end
                    else PStr target_start);
     ("title", if given title then pyval_of_opt title
               else PStr (str_of_ref test_type ++ " test on " ++ target_start))]
    None.

(** What a caller gets from a call that answers with [o] when only the
    status [expected] counts as success: the parsed body, [None] for another
    status, the exception of a failed call or of a body that is not JSON. *)
Definition answer (expected : response -> bool) (o : outcome) : result pyval :=
  match o with
  | Responds r =>
      if expected r then
        match body r with
        | Some v => Ok v
        | None => Raise JSONDecodeError
        end
      else Ok PNone
  | TransportError => Raise RequestException
  end.

Definition created (r : response) : bool := status_code r =? 201.

(** The result [scan_and_import] returns on success. *)
Definition import_success (test_id import_id test_title : pyval) : pyval :=
  PDict [("success", PBool true);
         ("test_id", test_id);
         ("import_id", import_id);
         ("message", PStr "Successfully created test and imported findings");
         ("test_title", test_title)].

(** A service that has everything but is asked about a file that is not
    there: [on_disk] knows "report.xml" only. *)
Definition missing_file : string := "missing.xml".

Definition is_upload_post (e : event) : bool :=
  match e with
  | EvHttp rq _ =>
      match req_method rq, req_endpoint rq with
      | POST, EpImportScan => true
      | _, _ => false
      end
  | EvOpen _ _ => false
  end.

Definition is_test_post (e : event) : bool :=
  match e with
  | EvHttp rq _ =>
      match req_method rq, req_endpoint rq with
      | POST, EpTests => true
      | _, _ => false
      end
  | EvOpen _ _ => false
  end.

(** A POST that is neither a test creation nor an upload. *)
Definition is_other_post (e : event) : bool :=
  is_post e && negb (is_test_post e) && negb (is_upload_post e).

(** How many events of a trace satisfy [P]. *)
Definition occurrences (P : event -> bool) (tr : list event) : nat :=
  List.length (filter P tr).

(** A computation that adds at most [n] events satisfying [P] to the trace,
    from whatever state it starts and however it ends. *)
Definition adds_at_most {A : Type} (P : event -> bool) (n : nat) (m : M A) : Prop :=
  forall st, (occurrences P (trace (snd (m st))) <= occurrences P (trace st) + n)%nat.



(** The demo service without its product endpoint. *)
Definition product_down : world :=
  mkWorld (fun tr rq => match req_endpoint rq with
                        | EpProduct _ => Responds (mkResponse 404 "Not found" None)
                        | _ => service creates_test accepts_upload tr rq
                        end)
    on_disk on_disk "2024-05-01" ascii_runtime.

(** ** The evaluator, further *)

(** A record the counting loop accepts: a JSON object whose severity, when
    present, is a string. *)
Definition valid_finding (f : pyval) : bool :=
  match f with
  | PDict d =>
      match lookup "severity" d with
      | None | Some (PStr _) => true
      | Some _ => false
      end
  | _ => false
  end.

(** A record counted under [severity]: not flagged false positive, and of
    that severity up to case. *)
Definition counts_as (severity : string) (f : pyval) : bool :=
  match f with
  | PDict d =>
      negb (truthy (match lookup "false_p" d with Some v => v | None => PBool false end))
      && match lookup "severity" d with
         | Some (PStr s) => (lower s =? severity)%string
         | _ => false
         end
  | _ => false
  end.

Definition how_many (severity : string) (fs : list pyval) : nat :=
  List.length (filter (counts_as severity) fs).

Definition findings_body (fs : list pyval) : pyval := PDict [("results", PList fs)].

Definition findings_request (product_id : pyval) : request :=
  mkRequest GET EpFindings HdrJson (findings_params product_id) None.

(** [400 <= status < 600] *)
Definition error_status (r : response) : bool :=
  (400 <=? status_code r) && (status_code r <? 600).

(** A service whose findings endpoint answers with [o]. *)
Definition findings_world (o : outcome) : world :=
  mkWorld (fun _ _ => o) on_disk on_disk "2024-05-01" ascii_runtime.

(** [n] slashes *)
Fixpoint slashes (n : nat) : string :=
  match n with
  | O => EmptyString
  | S k => String "/" (slashes k)
  end.

Definition users_request : request := mkRequest GET EpUsers HdrJson [] None.

(** A service whose users endpoint answers with [o]. *)
Definition users_world (o : outcome) : world :=
  mkWorld (fun _ _ => o) on_disk on_disk "2024-05-01" ascii_runtime.

(** ** The stand-alone import script *)

(** The fields [import_scan] always sends. *)
Definition always_sent : list string :=
  ["scan_type"; "active"; "verified"; "close_old_findings"; "push_to_jira"].

(** ** Scan types *)

(** An answer that yields no scan type and no error: a failed call, a
    status other than 200, a body that is not JSON, or a body without a named
    item. *)
Definition yields_nothing (o : outcome) : bool :=
  match o with
  | TransportError => true
  | Responds r =>
      if status_code r =? 200 then
        match body r with
        | None => true
        | Some data =>
            match ScanTypes.scan_types_of data with
            | Ok [] => true
            | _ => false
            end
        end
      else true
  end.

(** An answer that yields the scan types [names], at least one. *)
Definition yields (o : outcome) (names : list pyval) : Prop :=
  exists r data,
    o = Responds r /\ status_code r = 200 /\ body r = Some data
    /\ ScanTypes.scan_types_of data = Ok names /\ names <> [].

(** A service that knows the scan types only under the last URL tried. *)
Definition legacy_service : ScanTypes.service :=
  fun _ path =>
    if (path =? "/api/v2/test-types/")%string then
      replies 200 ""
        (PDict [("results", PList [PDict [("id", PInt 1); ("name", PStr "ZAP Scan")];
                                   PDict [("id", PInt 2); ("name", PStr "Nessus Scan")]])])
    else Responds (mkResponse 404 "Not found" None).

(** * Properties *)

(** ** The threshold evaluator *)

Lemma check_thresholds_result (findings_data : pyval) (st : state) :
  fst (check_thresholds findings_data st) =
  match tally findings_data with
  | Ok c => Ok (check_counts c)
  | Raise e => Raise e
  end.
Proof.
  unfold check_thresholds, tally, bind, lift, logger, ret.
  destruct (get findings_data "results" (PList [])) as [results|e]; [|reflexivity].
  destruct (iter results) as [findings|e]; [|reflexivity].
  destruct (count_findings findings _) as [c|e]; reflexivity.
Qed.

Lemma check_counts_rules (c : counters) :
  check_counts c =
  ((0 <? critical_count c)%nat || (2 <? high_count c)%nat || (10 <? medium_count c)%nat,
   ((if (0 <? critical_count c)%nat then [critical_reason (critical_count c)] else []) ++
    (if (2 <? high_count c)%nat then [high_reason (high_count c)] else []) ++
    (if (10 <? medium_count c)%nat then [medium_reason (medium_count c)] else []))%list).
Proof.
  unfold check_counts, critical_reason, high_reason, medium_reason.
  destruct (0 <? critical_count c)%nat, (2 <? high_count c)%nat,
    (10 <? medium_count c)%nat; reflexivity.
Qed.

Lemma count_finding_total (f : pyval) (c : counters) :
  well_formed f -> exists c', count_finding f c = Ok c'.
Proof.
  intros [d [-> Hsev]]. unfold count_finding. cbn [get].
  assert (Hl : exists s, py_lower (match lookup "severity" d with
                                   | Some x => x | None => PStr "" end) = Ok s).
  { destruct Hsev as [-> | [s ->]]; cbn; eauto. }
  destruct Hl as [s ->].
  destruct (truthy _); [eauto|].
  destruct (s =? "critical")%string; [eauto|].
  destruct (s =? "high")%string; [eauto|].
  destruct (s =? "medium")%string; eauto.
Qed.

Lemma count_findings_total (fs : list pyval) :
  Forall well_formed fs -> forall c, exists c', count_findings fs c = Ok c'.
Proof.
  induction 1 as [|f fs Hf _ IH]; intros c; cbn [count_findings]; [eauto|].
  destruct (count_finding_total f c Hf) as [c' ->]. apply IH.
Qed.

(** On a well-formed findings body the evaluator returns a verdict. *)
Lemma check_thresholds_total (fs : list pyval) (st : state) :
  Forall well_formed fs ->
  exists verdict, fst (check_thresholds (PDict [("results", PList fs)]) st) = Ok verdict.
Proof.
  intros H. rewrite check_thresholds_result. unfold tally. cbn.
  destruct (count_findings_total fs H (mkCounters 0 0 0)) as [c ->]. eauto.
Qed.

Lemma count_findings_app (xs ys : list pyval) (c : counters) :
  count_findings (xs ++ ys) c =
  match count_findings xs c with
  | Ok c' => count_findings ys c'
  | Raise e => Raise e
  end.
Proof.
  revert c. induction xs as [|x xs IH]; intros c; cbn; [reflexivity|].
  destruct (count_finding x c); [apply IH | reflexivity].
Qed.

(** A record flagged false positive leaves the counters as they are,
    whatever its severity string. *)
Lemma count_finding_false_positive (d : list (string * pyval)) (v : pyval) (c : counters) :
  lookup "false_p" d = Some v -> truthy v = true ->
  (lookup "severity" d = None \/ exists s, lookup "severity" d = Some (PStr s)) ->
  count_finding (PDict d) c = Ok c.
Proof.
  intros Hfp Htrue Hsev. unfold count_finding. cbn [get]. rewrite Hfp, Htrue.
  destruct Hsev as [-> | [s ->]]; reflexivity.
Qed.

Lemma get_findings_trace (W : world) (product_id : pyval) (st : state) :
  trace (snd (get_findings W product_id st)) =
  (trace st ++
   [EvHttp (mkRequest GET EpFindings HdrJson (findings_params product_id) None)
      (server W (trace st)
         (mkRequest GET EpFindings HdrJson (findings_params product_id) None))])%list.
Proof.
  unfold get_findings, try_except, bind, http, raise_for_status, json, logger, raise, ret.
  destruct (server W (trace st) _) as [r|]; cbn; [|reflexivity].
  destruct ((400 <=? status_code r) && (status_code r <? 600)); cbn; [reflexivity|].
  destruct (body r); reflexivity.
Qed.

Lemma findings_params_false_p (product_id : pyval) :
  lookup "false_p" (findings_params product_id) = Some (PBool false).
Proof. unfold findings_params. destruct (truthy product_id); reflexivity. Qed.


(** The three scenarios of C4 run through the whole evaluator, with a
    false positive of critical severity among the findings of the first. *)
Example scenario_pass :
  fst (check_thresholds
         (PDict [("count", PInt 13);
                 ("results",
                   PList (finding "Critical" true :: repeat (finding "High" false) 2
                          ++ repeat (finding "Medium" false) 10
                          ++ [finding "Low" false; finding "Info" false]))])
         init)
  = Ok (false, []).
Proof. reflexivity. Qed.

Example scenario_one_critical :
  fst (check_thresholds (PDict [("results", PList [finding "Critical" false])]) init)
  = Ok (true, ["Found 1 critical findings (threshold: 0)"]).
Proof. reflexivity. Qed.

Example scenario_high_then_medium :
  fst (check_thresholds
         (PDict [("results",
                   PList (repeat (finding "Medium" false) 11
                          ++ repeat (finding "High" false) 3))])
         init)
  = Ok (true, ["Found 3 high findings (threshold: 2)";
               "Found 11 medium findings (threshold: 10)"]).
Proof. reflexivity. Qed.

(** C5: a finding whose false-positive flag is true changes no counter,
    whatever its severity string, so the verdict is the one of the findings
    without it; and the findings request itself asks the server for
    [false_p = False]. *)
Theorem C5_false_positives_excluded
    (d : list (string * pyval)) (v : pyval) (pre post : list pyval) :
  lookup "false_p" d = Some v -> truthy v = true ->
  (lookup "severity" d = None \/ exists s, lookup "severity" d = Some (PStr s)) ->
  (forall c, count_findings (pre ++ PDict d :: post) c = count_findings (pre ++ post) c)
  /\ (forall st,
         fst (check_thresholds (PDict [("results", PList (pre ++ PDict d :: post))]) st) =
         fst (check_thresholds (PDict [("results", PList (pre ++ post))]) st))
  /\ (forall W product_id st,
         lookup "false_p" (findings_params product_id) = Some (PBool false)
         /\ exists o,
             trace (snd (get_findings W product_id st)) =
             (trace st ++
              [EvHttp (mkRequest GET EpFindings HdrJson (findings_params product_id) None)
                 o])%list).
Proof.
  intros Hfp Htrue Hsev.
  assert (Hcount : forall c,
             count_findings (pre ++ PDict d :: post) c = count_findings (pre ++ post) c).
  { intros c. rewrite !count_findings_app.
    destruct (count_findings pre c) as [c'|e]; [|reflexivity].
    cbn [count_findings].
    now rewrite (count_finding_false_positive d v c' Hfp Htrue Hsev). }
  split; [exact Hcount|]. split.
  - intros st. rewrite !check_thresholds_result. unfold tally. cbn [get lookup iter].
    cbn. now rewrite Hcount.
  - intros W product_id st. split; [apply findings_params_false_p|].
    eexists. apply get_findings_trace.
Qed.

Lemma C5_witness :
  (lookup "false_p" [("severity", PStr "Critical"); ("false_p", PBool true)]
   = Some (PBool true)
   /\ truthy (PBool true) = true)
  /\ forall c,
      count_findings
        ([finding "High" false] ++
         PDict [("severity", PStr "Critical"); ("false_p", PBool true)] ::
         [finding "Medium" false]) c
      = count_findings ([finding "High" false] ++ [finding "Medium" false]) c.
Proof.
  split; [split; reflexivity|].
  apply (C5_false_positives_excluded
           [("severity", PStr "Critical"); ("false_p", PBool true)] (PBool true)
           [finding "High" false] [finding "Medium" false]).
  - reflexivity.
  - reflexivity.
  - right. exists "Critical". reflexivity.
Defined.

(** C9: the evaluator's [failed] flag is true exactly when it lists at
    least one reason. *)
Theorem C9_failed_iff_reasons
    (findings_data : pyval) (st : state) (failed : bool) (reasons : list string) :
  fst (check_thresholds findings_data st) = Ok (failed, reasons) ->
  (failed = true <-> reasons <> []).
Proof.
  rewrite check_thresholds_result.
  destruct (tally findings_data) as [c|e]; [|discriminate].
  rewrite check_counts_rules. intros H. injection H as <- <-.
  destruct (0 <? critical_count c)%nat, (2 <? high_count c)%nat,
    (10 <? medium_count c)%nat; cbn; split; intros H; try discriminate;
    try reflexivity; try (exfalso; apply H; reflexivity).
Qed.

Lemma C9_witness :
  fst (check_thresholds (PDict [("results", PList [finding "Critical" false])]) init)
  = Ok (true, ["Found 1 critical findings (threshold: 0)"])
  /\ (true = true <-> ["Found 1 critical findings (threshold: 0)"] <> []).
Proof.
  split; [reflexivity|].
  apply (C9_failed_iff_reasons
           (PDict [("results", PList [finding "Critical" false])]) init).
  reflexivity.
Defined.

(** ** The identifier resolver *)

Lemma find_environment_state (W : world) (envs : list pyval) (s : string) (st : state) :
  snd (find_environment W envs s st) = st.
Proof.
  induction envs as [|env envs IH]; cbn; [reflexivity|].
  unfold bind, lift. destruct (get env "name" (PStr "")) as [n|e]; [|reflexivity].
  destruct (lower_of W n) as [l|e]; [|reflexivity].
  destruct (l =? str_lower (python W) s)%string; [|exact IH].
  destruct (get env "id" PNone); reflexivity.
Qed.

Lemma find_test_type_state (W : world) (tts : list pyval) (s : string) (st : state) :
  snd (find_test_type W tts s st) = st.
Proof.
  induction tts as [|t tts IH]; cbn; [reflexivity|].
  unfold bind, lift. destruct (getitem t "name") as [n|e]; [|reflexivity].
  destruct (lower_of W n) as [l|e]; [|reflexivity].
  destruct (l =? str_lower (python W) s)%string; [|exact IH].
  destruct (getitem t "id"); reflexivity.
Qed.

Lemma find_environment_none (W : world) (envs : list pyval) (s : string) (st : state) :
  Forall (named_other_than W s) envs -> find_environment W envs s st = (Ok None, st).
Proof.
  induction 1 as [|env envs (d & n & -> & Hn & Hne) _ IH]; cbn; [reflexivity|].
  unfold bind, lift. cbn. rewrite Hn. cbn. rewrite Hne. exact IH.
Qed.

Lemma find_test_type_none (W : world) (tts : list pyval) (s : string) (st : state) :
  Forall (named_other_than W s) tts -> find_test_type W tts s st = (Ok None, st).
Proof.
  induction 1 as [|t tts (d & n & -> & Hn & Hne) _ IH]; cbn; [reflexivity|].
  unfold bind, lift. cbn. rewrite Hn. cbn. rewrite Hne. exact IH.
Qed.

Lemma get_environments_trace (W : world) (st : state) :
  trace (snd (get_environments W st)) =
  (trace st ++ [EvHttp environments_request
                  (server W (trace st) environments_request)])%list.
Proof.
  unfold get_environments, environments_request, try_except, bind, http, json,
    lift, logger, raise, ret.
  destruct (server W (trace st) _) as [r|]; cbn; [|reflexivity].
  destruct (status_code r =? 200); cbn; [|reflexivity].
  destruct (body r) as [data|]; cbn; [|reflexivity].
  destruct (contains data "results") as [[|]|e]; cbn; try reflexivity.
  - destruct (getitem data "results") as [v|e]; cbn; [reflexivity|].
    destruct (is_JSONDecodeError e); reflexivity.
  - destruct (is_JSONDecodeError e); reflexivity.
Qed.

Lemma get_test_types_trace (W : world) (st : state) :
  trace (snd (get_test_types W st)) =
  (trace st ++ [EvHttp test_types_request
                  (server W (trace st) test_types_request)])%list.
Proof.
  unfold get_test_types, test_types_request, try_except, bind, http, json,
    lift, logger, raise, ret.
  destruct (server W (trace st) _) as [r|]; cbn; [|reflexivity].
  destruct (status_code r =? 200); cbn; [|reflexivity].
  destruct (body r) as [data|]; cbn; [|reflexivity].
  destruct (contains data "results") as [[|]|e]; cbn; try reflexivity.
  - destruct (getitem data "results") as [v|e]; cbn; [reflexivity|].
    destruct (is_JSONDecodeError e); reflexivity.
  - destruct (is_JSONDecodeError e); reflexivity.
Qed.

Lemma posts_app (xs ys : list event) : posts (xs ++ ys) = (posts xs ++ posts ys)%list.
Proof. apply filter_app. Qed.

(** Resolving an environment issues no mutating call. *)
Lemma get_environment_id_posts (W : world) (r : reference) (st : state) :
  posts (trace (snd (get_environment_id W r st))) = posts (trace st).
Proof.
  assert (Hlist : posts (trace (snd (get_environments W st))) = posts (trace st)).
  { rewrite get_environments_trace, posts_app. cbn. apply app_nil_r. }
  destruct r as [z|s]; cbn; [reflexivity|].
  destruct (str_isdigit (python W) s);
    [destruct (str_int (python W) s); reflexivity|].
  unfold bind at 1.
  destruct (get_environments W st) as [[envs|e] st1]; cbn in Hlist |- *; [|exact Hlist].
  unfold bind at 1, lift at 1.
  destruct (iter envs) as [l|e]; [|exact Hlist].
  unfold bind at 1.
  pose proof (find_environment_state W l s st1) as Hst.
  destruct (find_environment W l s st1) as [[[i|]|e] st2]; cbn in Hst; subst st2;
    [exact Hlist| |exact Hlist].
  unfold bind, lift, logger, ret.
  destruct (truthy envs); cbn; [|exact Hlist].
  destruct (len envs) as [[|n]|e]; cbn; [exact Hlist| |exact Hlist].
  destruct (getitem0 envs) as [e0|e]; cbn; [|exact Hlist].
  destruct (get e0 "name" PNone); cbn; [|exact Hlist].
  destruct (get e0 "id" PNone); cbn; exact Hlist.
Qed.

(** So does resolving a test type. *)
Lemma resolve_test_type_posts (W : world) (r : reference) (st : state) :
  posts (trace (snd (resolve_test_type W r st))) = posts (trace st).
Proof.
  assert (Hlist : posts (trace (snd (get_test_types W st))) = posts (trace st)).
  { rewrite get_test_types_trace, posts_app. cbn. apply app_nil_r. }
  destruct r as [z|s]; [reflexivity|].
  unfold resolve_test_type. destruct (str_isdigit (python W) s); [reflexivity|].
  unfold _get_test_type_id, bind, lift, logger, ret. cbn [negb].
  destruct (get_test_types W st) as [[tts|e] st1]; cbn in Hlist |- *; [|exact Hlist].
  destruct (iter tts) as [l|e]; [|exact Hlist].
  pose proof (find_test_type_state W l s st1) as Hst.
  destruct (find_test_type W l s st1) as [[[i|]|e] st2]; cbn in Hst; subst st2;
    cbn; [| exact Hlist | exact Hlist].
  destruct (truthy i); cbn; exact Hlist.
Qed.

Example int_of_digits_042 : int_of_digits "042" = 42.
Proof. reflexivity. Qed.

(** C6: a reference that is an integer, or a string for which [isdigit()]
    is true, is resolved without any call: where the string is integer-valued
    the environment resolver returns that integer ([int(reference)]) and
    leaves the trace as it is, and [create_test] takes such a test type as
    given, with no lookup either.  (A digit string that [int] does not accept
    makes the environment resolver raise [ValueError], equally without a
    call.) *)
Theorem C6_numeric_bypass (W : world) (r : reference) (st : state) :
  numeric W r = true ->
  get_environment_id W r st =
  (match int_value W r with
   | Some z => Ok (PInt z)
   | None => Raise Py.ValueError
   end, st)
  /\ resolve_test_type W r st = (Ok (Some (pyval_of_ref r)), st).
Proof.
  destruct r as [z|s]; cbn; intros H; [split; reflexivity|].
  rewrite H. split; [|reflexivity].
  destruct (str_int (python W) s); reflexivity.
Qed.

Lemma C6_witness :
  numeric (world_of unreachable unreachable) (RStr "42") = true
  /\ get_environment_id (world_of unreachable unreachable) (RStr "42") init
     = (Ok (PInt 42), init)
  /\ resolve_test_type (world_of unreachable unreachable) (RStr "42") init
     = (Ok (Some (PStr "42")), init).
Proof.
  split; [reflexivity|].
  apply (C6_numeric_bypass (world_of unreachable unreachable) (RStr "42") init).
  reflexivity.
Defined.

(** C1, as the code has it: an environment name that matches none of the
    listed environments (the list not being empty) resolves to the id of the
    first listed one, with a warning in the log; a test-type name that
    matches no listed test type resolves to [None], with no warning. *)
Theorem C1_environment_fallback
    (W : world) (s : string) (st st1 : state) (first : pyval) (others : list pyval) :
  str_isdigit (python W) s = false ->
  get_environments W st = (Ok (PList (first :: others)), st1) ->
  Forall (named_other_than W s) (first :: others) ->
  (exists id0 name0,
      get first "id" PNone = Ok id0 /\ get first "name" PNone = Ok name0
      /\ get_environment_id W (RStr s) st =
         (Ok id0,
          mkState (trace st1)
            (log st1 ++
             [(WARNING, [Lit "Environment '"; Val (PStr s);
                         Lit "' not found. Using first available environment: ";
                         Val name0; Lit " (ID: "; Val id0; Lit ")"])])))
  /\ (forall st' st1',
         get_test_types W st' = (Ok (PList (first :: others)), st1') ->
         _get_test_type_id W s st' = (Ok PNone, st1')).
Proof.
  intros Hs Hlist Hnone. split.
  - pose proof (Forall_inv Hnone) as (d & n & -> & Hn & _).
    exists (match lookup "id" d with Some x => x | None => PNone end), (PStr n).
    split; [reflexivity|]. split; [cbn; now rewrite Hn|].
    unfold get_environment_id. rewrite Hs. unfold bind at 1. rewrite Hlist.
    unfold bind at 1, lift at 1. cbn [iter].
    unfold bind at 1. rewrite (find_environment_none W _ s st1 Hnone).
    unfold bind, lift, logger, ret. cbn. rewrite Hn. reflexivity.
  - intros st' st1' Htt. unfold _get_test_type_id.
    unfold bind at 1. rewrite Htt. unfold bind at 1, lift at 1. cbn [iter].
    unfold bind. now rewrite (find_test_type_none W _ s st1' Hnone).
Qed.

Lemma C1_witness :
  str_isdigit (python demo) "Staging" = false
  /\ get_environments demo init =
     (Ok (PList [production]),
      mkState [EvHttp environments_request
                 (server demo [] environments_request)] [])
  /\ (exists id0 name0,
         get production "id" PNone = Ok id0 /\ get production "name" PNone = Ok name0
         /\ get_environment_id demo (RStr "Staging") init =
            (Ok id0,
             mkState [EvHttp environments_request
                        (server demo [] environments_request)]
               ([] ++
                [(WARNING, [Lit "Environment '"; Val (PStr "Staging");
                            Lit "' not found. Using first available environment: ";
                            Val name0; Lit " (ID: "; Val id0; Lit ")"])])%list)).
Proof.
  split; [reflexivity|]. split; [reflexivity|].
  apply (C1_environment_fallback demo "Staging" init
           (mkState [EvHttp environments_request
                       (server demo [] environments_request)] [])
           production []).
  - reflexivity.
  - reflexivity.
  - constructor; [|constructor].
    exists [("id", PInt 3); ("name", PStr "Production")], "Production".
    repeat split; reflexivity.
Defined.

Example environment_fallback_run :
  fst (get_environment_id demo (RStr "Staging") init) = Ok (PInt 3).
Proof. reflexivity. Qed.

(** C1 fails for the test-type kind: with the single test type "ZAP Scan"
    (id 7) listed, the name "Nessus Scan" resolves to [None], not to 7, and
    nothing is logged. *)
Lemma C1_counterexample :
  str_isdigit (python demo) "Nessus Scan" = false
  /\ fst (get_test_types demo init) = Ok (PList [zap_scan])
  /\ named_other_than demo "Nessus Scan" zap_scan
  /\ get zap_scan "id" PNone = Ok (PInt 7)
  /\ fst (_get_test_type_id demo "Nessus Scan" init) = Ok PNone
  /\ log (snd (_get_test_type_id demo "Nessus Scan" init)) = [].
Proof.
  repeat split; try reflexivity.
  exists [("id", PInt 7); ("name", PStr "ZAP Scan")], "ZAP Scan".
  repeat split; reflexivity.
Qed.




Example create_test_unresolved_environment :
  fst (create_test bare (PInt 1) (RInt 7) (RStr "Production") "2024-05-01" None None init)
  = Ok PNone
  /\ posts (trace (snd (create_test bare (PInt 1) (RInt 7) (RStr "Production")
                          "2024-05-01" None None init))) = [].
Proof. split; reflexivity. Qed.

(** C10: when the environment reference resolves to the id 0, as the
    references ["0"] and [0] do, [create_test] returns [None], its last log
    record being the "Environment ... not found" error, and it issues no POST:
    the trace stops at the resolution. *)
Theorem C10_environment_zero
    (W : world) (eng : pyval) (tt env : reference) (start : string)
    (tend title : option string) (st st0 st1 : state) (tid : pyval) :
  resolve_test_type W tt st = (Ok (Some tid), st0) ->
  get_environment_id W env st0 = (Ok (PInt 0), st1) ->
  create_test W eng tt env start tend title st =
  (Ok PNone, mkState (trace st1) (log st1 ++ [environment_not_found env]))
  /\ posts (trace st1) = posts (trace st)
  /\ get_environment_id W (RInt 0) st0 = (Ok (PInt 0), st0)
  /\ get_environment_id W (RStr "0") st0 = (Ok (PInt 0), st0).
Proof.
  intros Htt Henv. split; [|split; [|split; [reflexivity|]]].
  - unfold create_test. unfold bind at 1. rewrite Htt.
    unfold bind at 1. rewrite Henv. reflexivity.
  - pose proof (get_environment_id_posts W env st0) as H1.
    pose proof (resolve_test_type_posts W tt st) as H2.
    rewrite Henv in H1. rewrite Htt in H2. cbn in H1, H2. congruence.
  - unfold get_environment_id.
    rewrite (isdigit_ascii_law (python W) "0" eq_refl).
    change (isdigit "0") with true. cbn iota.
    assert (Hlen : (String.length "0" <= 640)%nat) by (cbn; lia).
    rewrite (int_ascii_law (python W) "0" eq_refl Hlen). reflexivity.
Qed.

Lemma C10_witness :
  (resolve_test_type demo (RStr "ZAP Scan") init =
   (Ok (Some (PInt 7)),
    mkState [EvHttp test_types_request (server demo [] test_types_request)] [])
   /\ get_environment_id demo (RStr "0")
        (mkState [EvHttp test_types_request (server demo [] test_types_request)] [])
      = (Ok (PInt 0),
         mkState [EvHttp test_types_request (server demo [] test_types_request)] []))
  /\ create_test demo (PInt 1) (RStr "ZAP Scan") (RStr "0") "2024-05-01" None None init =
     (Ok PNone,
      mkState [EvHttp test_types_request (server demo [] test_types_request)]
        ([] ++ [environment_not_found (RStr "0")])%list).
Proof.
  split; [split; reflexivity|].
  apply (C10_environment_zero demo (PInt 1) (RStr "ZAP Scan") (RStr "0") "2024-05-01"
           None None init
           (mkState [EvHttp test_types_request (server demo [] test_types_request)] [])
           (mkState [EvHttp test_types_request (server demo [] test_types_request)] [])
           (PInt 7)).
  - reflexivity.
  - reflexivity.
Defined.

(** ** The orchestrator *)

Section Orchestrator.

Variable W : world.
Variables (eng : pyval) (tt env : reference) (file scan_type : string).
Variables (close_old push : bool) (build branch : option string) (pid pname : pyval).

Lemma scan_and_import_create_raises (st st1 : state) (e : exn) :
  create_test W eng tt env (today W) None (Some (scan_title tt build branch)) st
  = (Raise e, st1) ->
  scan_and_import W eng tt file scan_type env close_old push build branch
    pid pname st = (Raise e, st1).
Proof.
  unfold scan_and_import. intros H. unfold bind at 1. now rewrite H.
Qed.

Lemma scan_and_import_not_created (st st1 : state) (test : pyval) :
  create_test W eng tt env (today W) None (Some (scan_title tt build branch)) st
  = (Ok test, st1) ->
  truthy test = false ->
  scan_and_import W eng tt file scan_type env close_old push build branch
    pid pname st = (Ok creation_failure, st1).
Proof.
  unfold scan_and_import. intros H Hf. unfold bind at 1.
  rewrite H, Hf. reflexivity.
Qed.

Lemma scan_and_import_created (st st1 : state) (test tid : pyval) :
  create_test W eng tt env (today W) None (Some (scan_title tt build branch)) st
  = (Ok test, st1) ->
  truthy test = true ->
  getitem test "id" = Ok tid ->
  scan_and_import W eng tt file scan_type env close_old push build branch
    pid pname st =
  match upload_findings W tid file scan_type close_old push eng pid pname st1 with
  | (Ok import_result, st2) =>
      if truthy import_result then
        match getitem import_result "id", getitem test "title" with
        | Ok import_id, Ok test_title =>
            (Ok (PDict [("success", PBool true);
                        ("test_id", tid);
                        ("import_id", import_id);
                        ("message",
                          PStr "Successfully created test and imported findings");
                        ("test_title", test_title)]), st2)
        | Raise e, _ => (Raise e, st2)
        | Ok _, Raise e => (Raise e, st2)
        end
      else (Ok (import_failure tid), st2)
  | (Raise e, st2) => (Raise e, st2)
  end.
Proof.
  unfold scan_and_import. intros H Ht Hid. unfold bind at 1.
  rewrite H, Ht. cbn [negb]. unfold bind at 1, lift at 1. rewrite Hid.
  unfold bind at 1.
  destruct (upload_findings W tid file scan_type close_old push eng pid pname st1)
    as [[import_result|e] st2]; [|reflexivity].
  destruct (truthy import_result); unfold bind, lift, ret; [|reflexivity].
  destruct (getitem import_result "id"); [|reflexivity].
  destruct (getitem test "title"); reflexivity.
Qed.

End Orchestrator.

Lemma count_opens_app (xs ys : list event) :
  count_opens (xs ++ ys) = (count_opens xs + count_opens ys)%nat.
Proof. unfold count_opens. now rewrite filter_app, length_app. Qed.

Lemma try_upload_unreachable (W : world) (file scan_type : string) (f : nat)
    (data : list (string * pyval)) (pname : pyval) (st : state) :
  server W (trace st) (upload_request data f) = TransportError ->
  fst (try_upload W file scan_type f data pname st) = Raise RequestException.
Proof.
  intros H. unfold try_upload, bind, logger, http. cbn [trace log]. now rewrite H.
Qed.

Lemma try_upload_retry (W : world) (file scan_type : string) (f : nat)
    (data : list (string * pyval)) (pname : pyval) (st : state) (r1 : response) :
  server W (trace st) (upload_request data f) = Responds r1 ->
  accepted r1 = false ->
  str_contains missing_product_name (text r1) = true ->
  truthy pname = false ->
  readable W file = true ->
  forall tr1 f2 rq2 o2,
    tr1 = (trace st ++ [EvHttp (upload_request data f) (Responds r1)])%list ->
    f2 = count_opens tr1 ->
    rq2 = upload_request (dict_set "product_name" (PStr scan_type) data) f2 ->
    o2 = server W (tr1 ++ [EvOpen f2 file]) rq2 ->
    trace (snd (try_upload W file scan_type f data pname st)) =
    (tr1 ++ [EvOpen f2 file; EvHttp rq2 o2])%list
    /\ fst (try_upload W file scan_type f data pname st) =
       match o2 with
       | Responds r2 =>
           if accepted r2 then
             match body r2 with
             | Some v => Ok (Some v)
             | None => Raise JSONDecodeError
             end
           else Ok None
       | TransportError => Raise RequestException
       end.
Proof.
  intros H1 Hrej Hmark Hname Hread tr1 f2 rq2 o2 -> -> -> ->.
  unfold try_upload, bind, logger, http, open_rb, json, ret, raise. cbn [trace log].
  rewrite H1, Hrej, Hmark, Hname, Hread. cbn [andb negb trace log].
  destruct (server W (_ ++ [EvOpen _ _]) _) as [r2|]; cbn [trace log fst snd].
  - destruct (accepted r2); cbn [fst snd trace].
    + destruct (body r2); cbn [fst snd trace]; rewrite <- !app_assoc; split; reflexivity.
    + rewrite <- !app_assoc; split; reflexivity.
  - rewrite <- !app_assoc; split; reflexivity.
Qed.

Lemma try_upload_returns (W : world) (file scan_type : string) (f : nat)
    (data : list (string * pyval)) (pname : pyval) (st st' : state) (v : pyval) :
  try_upload W file scan_type f data pname st = (Ok (Some v), st') ->
  exists tr rq r,
    trace st' = (tr ++ [EvHttp rq (Responds r)])%list
    /\ req_method rq = POST /\ req_endpoint rq = EpImportScan
    /\ accepted r = true /\ body r = Some v.
Proof.
  unfold try_upload, bind, logger, http, open_rb, json, ret, raise. cbn [trace log].
  destruct (server W (trace st) _) as [r1|]; [|discriminate].
  destruct (accepted r1) eqn:Hacc.
  - destruct (body r1) as [v1|] eqn:Hb; [|discriminate].
    intros [= <- <-]. cbn. eauto 10.
  - destruct (str_contains _ _ && negb (truthy pname)); [|discriminate].
    destruct (readable W file); [|discriminate]. cbn [trace log].
    destruct (server W _ _) as [r2|]; [|discriminate].
    destruct (accepted r2) eqn:Hacc2; [|discriminate].
    destruct (body r2) as [v2|] eqn:Hb; [|discriminate].
    intros [= <- <-]. cbn. eauto 10.
Qed.

Lemma upload_findings_run (W : world) (tid : pyval) (file scan_type : string)
    (close_old push : bool) (eng pid pname : pyval) (st st2 : state) (p : pyval * pyval) :
  isfile W file = true -> readable W file = true ->
  product_from_engagement W eng pid pname (upload_started file scan_type st) = (Ok p, st2) ->
  upload_findings W tid file scan_type close_old push eng pid pname st =
  match try_upload W file scan_type (count_opens (trace st2))
          (upload_data tid scan_type close_old push (fst p) (snd p)) (snd p)
          (mkState (trace st2 ++ [EvOpen (count_opens (trace st2)) file]) (log st2)) with
  | (Ok (Some v), st4) => (Ok v, st4)
  | (Ok None, st4) =>
      (Ok PNone, mkState (trace st4) (log st4 ++ [(ERROR, [Lit "Failed to upload findings"])]))
  | (Raise e, st4) =>
      if is_RequestException e then
        (Ok PNone,
         mkState (trace st4)
           (log st4 ++ [(WARNING, [Lit "Error uploading to "; Lit "/api/v2/import-scan/";
                                   Lit ": "; Exc e]);
                        (ERROR, [Lit "Failed to upload findings"])]))
      else (Raise e, st4)
  end.
Proof.
  intros Hfile Hread Hprod. unfold upload_findings.
  unfold bind at 1, logger at 1. rewrite Hfile. cbn [negb].
  unfold bind at 1. fold (upload_started file scan_type st). rewrite Hprod.
  unfold bind at 1, open_rb at 1. rewrite Hread. cbn [trace log].
  unfold bind at 1, try_except.
  destruct (try_upload _ _ _ _ _ _ _) as [[[v|]|e] st4]; try reflexivity.
  destruct (is_RequestException e); [|reflexivity].
  unfold bind, logger, ret. cbn. now rewrite <- app_assoc.
Qed.

Lemma lookup_dict_set (k : string) (v : pyval) (d : list (string * pyval)) :
  lookup k (dict_set k v d) = Some v.
Proof.
  induction d as [|[k' v'] d IH]; cbn.
  - now rewrite String.eqb_refl.
  - destruct (k' =? k)%string eqn:E; cbn.
    + now rewrite String.eqb_refl.
    + now rewrite E.
Qed.

Lemma upload_findings_returns (W : world) (tid : pyval) (file scan_type : string)
    (close_old push : bool) (eng pid pname : pyval) (st st' : state) (v : pyval) :
  upload_findings W tid file scan_type close_old push eng pid pname st = (Ok v, st') ->
  truthy v = true ->
  exists tr rq r,
    trace st' = (tr ++ [EvHttp rq (Responds r)])%list
    /\ req_method rq = POST /\ req_endpoint rq = EpImportScan
    /\ accepted r = true /\ body r = Some v.
Proof.
  destruct (isfile W file) eqn:Hfile.
  2:{ unfold upload_findings, bind, logger, ret. rewrite Hfile. cbn.
      intros [= <- <-]. discriminate. }
  destruct (product_from_engagement W eng pid pname (upload_started file scan_type st))
    as [[p|e] st2] eqn:Hprod.
  2:{ unfold upload_findings. unfold bind at 1, logger at 1. rewrite Hfile. cbn [negb].
      unfold bind at 1. fold (upload_started file scan_type st). rewrite Hprod.
      discriminate. }
  destruct (readable W file) eqn:Hread.
  2:{ unfold upload_findings. unfold bind at 1, logger at 1. rewrite Hfile. cbn [negb].
      unfold bind at 1. fold (upload_started file scan_type st). rewrite Hprod.
      unfold bind at 1, open_rb at 1. rewrite Hread. discriminate. }
  rewrite (upload_findings_run W tid file scan_type close_old push eng pid pname
             st st2 p Hfile Hread Hprod).
  destruct (try_upload _ _ _ _ _ _ _) as [[[v'|]|e] st4] eqn:Htry.
  - intros [= <- <-] _. eapply try_upload_returns. exact Htry.
  - intros [= <- <-]. discriminate.
  - destruct (is_RequestException e); [|discriminate].
    intros [= <- <-]. discriminate.
Qed.

Lemma upload_findings_raises (W : world) (tid : pyval) (file scan_type : string)
    (close_old push : bool) (eng pid pname : pyval) (st st2 : state) (e : exn) :
  isfile W file = true ->
  product_from_engagement W eng pid pname (upload_started file scan_type st)
  = (Raise e, st2) ->
  upload_findings W tid file scan_type close_old push eng pid pname st = (Raise e, st2).
Proof.
  intros Hfile Hprod. unfold upload_findings.
  unfold bind at 1, logger at 1. rewrite Hfile. cbn [negb].
  unfold bind at 1. fold (upload_started file scan_type st). now rewrite Hprod.
Qed.

(** A [RequestException] out of the guarded upload block ends in [None]. *)
Lemma upload_findings_caught (W : world) (tid : pyval) (file scan_type : string)
    (close_old push : bool) (eng pid pname : pyval) (st st2 : state) (p : pyval * pyval) :
  isfile W file = true -> readable W file = true ->
  product_from_engagement W eng pid pname (upload_started file scan_type st) = (Ok p, st2) ->
  fst (try_upload W file scan_type (count_opens (trace st2))
         (upload_data tid scan_type close_old push (fst p) (snd p)) (snd p)
         (mkState (trace st2 ++ [EvOpen (count_opens (trace st2)) file]) (log st2)))
  = Raise RequestException ->
  fst (upload_findings W tid file scan_type close_old push eng pid pname st) = Ok PNone.
Proof.
  intros Hfile Hread Hprod Hraise.
  rewrite (upload_findings_run W tid file scan_type close_old push eng pid pname
             st st2 p Hfile Hread Hprod).
  destruct (try_upload _ _ _ _ _ _ _) as [r st4]. cbn in Hraise. subst r. reflexivity.
Qed.

(** C2, as the code has it: once the test is created, a transport exception
    raised by the upload POST, or by the retry POST, is caught inside
    [upload_findings], and [scan_and_import] returns the structured failure
    carrying the id of that test.  A transport exception raised earlier is not
    caught there: whatever the product lookup before the upload raises, and
    whatever [create_test] raises (its own POST or a listing it makes
    failing), [scan_and_import] raises too. *)
Theorem C2_upload_errors_contained
    (W : world) (eng : pyval) (tt env : reference) (file scan_type : string)
    (close_old push : bool) (build branch : option string) (pid pname : pyval)
    (st st1 : state) (test tid : pyval) :
  create_test W eng tt env (today W) None (Some (scan_title tt build branch)) st
  = (Ok test, st1) ->
  truthy test = true ->
  getitem test "id" = Ok tid ->
  isfile W file = true ->
  (forall p st2,
      readable W file = true ->
      product_from_engagement W eng pid pname (upload_started file scan_type st1)
      = (Ok p, st2) ->
      (server W (trace st2 ++ [EvOpen (count_opens (trace st2)) file])
         (first_attempt tid scan_type close_old push p st2) = TransportError ->
       fst (scan_and_import W eng tt file scan_type env close_old push build branch
              pid pname st) = Ok (import_failure tid))
      /\ (forall r1,
             server W (trace st2 ++ [EvOpen (count_opens (trace st2)) file])
               (first_attempt tid scan_type close_old push p st2) = Responds r1 ->
             accepted r1 = false ->
             str_contains missing_product_name (text r1) = true ->
             truthy (snd p) = false ->
             server W
               (trace st2 ++
                [EvOpen (count_opens (trace st2)) file;
                 EvHttp (first_attempt tid scan_type close_old push p st2) (Responds r1);
                 EvOpen (S (count_opens (trace st2))) file])
               (retry_attempt tid scan_type close_old push p st2) = TransportError ->
             fst (scan_and_import W eng tt file scan_type env close_old push build
                    branch pid pname st) = Ok (import_failure tid)))
  /\ (forall e st2,
         product_from_engagement W eng pid pname (upload_started file scan_type st1)
         = (Raise e, st2) ->
         scan_and_import W eng tt file scan_type env close_old push build branch
           pid pname st = (Raise e, st2))
  /\ (forall st0 st0' e,
         create_test W eng tt env (today W) None (Some (scan_title tt build branch)) st0
         = (Raise e, st0') ->
         scan_and_import W eng tt file scan_type env close_old push build branch
           pid pname st0 = (Raise e, st0')).
Proof.
  intros Hcreate Htest Hid Hfile.
  pose proof (scan_and_import_created W eng tt env file scan_type close_old push
                build branch pid pname st st1 test tid Hcreate Htest Hid) as Hscan.
  split; [|split].
  - intros p st2 Hread Hprod.
    assert (Hcaught :
             fst (try_upload W file scan_type (count_opens (trace st2))
                    (upload_data tid scan_type close_old push (fst p) (snd p)) (snd p)
                    (mkState (trace st2 ++ [EvOpen (count_opens (trace st2)) file])
                       (log st2)))
             = Raise RequestException ->
             fst (scan_and_import W eng tt file scan_type env close_old push build
                    branch pid pname st) = Ok (import_failure tid)).
    { intros Hraise. rewrite Hscan.
      pose proof (upload_findings_caught W tid file scan_type close_old push eng pid
                    pname st1 st2 p Hfile Hread Hprod Hraise) as Hnone.
      destruct (upload_findings W tid file scan_type close_old push eng pid pname st1)
        as [r st5]. cbn in Hnone. subst r. reflexivity. }
    split.
    + intros Hdown. apply Hcaught. now apply try_upload_unreachable.
    + intros r1 H1 Hrej Hmark Hname Hdown. apply Hcaught.
      unfold first_attempt, retry_attempt in *.
      set (f := count_opens (trace st2)) in *.
      set (data := upload_data tid scan_type close_old push (fst p) (snd p)) in *.
      set (st3 := mkState (trace st2 ++ [EvOpen f file]) (log st2)) in *.
      assert (Hf2 : count_opens
                      (trace st3 ++ [EvHttp (upload_request data f) (Responds r1)])
                    = S f).
      { cbn [trace st3]. rewrite !count_opens_app. cbn. subst f. lia. }
      destruct (try_upload_retry W file scan_type f data (snd p) st3 r1 H1 Hrej Hmark
                  Hname Hread _ _ _ _ eq_refl eq_refl eq_refl eq_refl) as [_ Hres].
      rewrite Hf2 in Hres. cbn [trace st3] in Hres.
      repeat (rewrite <- app_assoc in Hres; cbn [app] in Hres).
      now rewrite Hdown in Hres.
  - intros e st2 Hprod. rewrite Hscan.
    now rewrite (upload_findings_raises W tid file scan_type close_old push eng pid
                   pname st1 st2 e Hfile Hprod).
  - intros st0 st0' e. apply scan_and_import_create_raises.
Qed.

Lemma C2_witness :
  (create_test (world_of creates_test unreachable) PNone (RInt 7) (RInt 3)
     "2024-05-01" None (Some (scan_title (RInt 7) None None)) init
   = (Ok (PDict [("id", PInt 11); ("title", PStr "7 scan")]),
      snd (create_test (world_of creates_test unreachable) PNone (RInt 7) (RInt 3)
             "2024-05-01" None (Some (scan_title (RInt 7) None None)) init))
   /\ server (world_of creates_test unreachable)
        (trace (snd (create_test (world_of creates_test unreachable) PNone (RInt 7)
                       (RInt 3) "2024-05-01" None
                       (Some (scan_title (RInt 7) None None)) init))
         ++ [EvOpen 0 "report.xml"])
        (upload_request (upload_data (PInt 11) "ZAP Scan" false false PNone PNone) 0)
      = TransportError)
  /\ fst (scan_and_import (world_of creates_test unreachable) PNone (RInt 7)
            "report.xml" "ZAP Scan" (RInt 3) false false None None PNone PNone init)
     = Ok (import_failure (PInt 11)).
Proof.
  split; [split; reflexivity|].
  pose proof (C2_upload_errors_contained (world_of creates_test unreachable) PNone
                (RInt 7) (RInt 3) "report.xml" "ZAP Scan" false false None None
                PNone PNone init
                (snd (create_test (world_of creates_test unreachable) PNone (RInt 7)
                        (RInt 3) "2024-05-01" None
                        (Some (scan_title (RInt 7) None None)) init))
                (PDict [("id", PInt 11); ("title", PStr "7 scan")]) (PInt 11)
                eq_refl eq_refl eq_refl eq_refl) as [Hupload _].
  exact (proj1 (Hupload (PNone, PNone)
                  (upload_started "report.xml" "ZAP Scan"
                     (snd (create_test (world_of creates_test unreachable) PNone
                             (RInt 7) (RInt 3) "2024-05-01" None
                             (Some (scan_title (RInt 7) None None)) init)))
                  eq_refl eq_refl) eq_refl).
Defined.

(** C2 fails where the failing call is not the upload: with the
    test-creation endpoint unreachable, with every endpoint unreachable while
    the test type is given by name, or with the engagement lookup unreachable,
    [scan_and_import] raises the transport exception. *)
Lemma C2_counterexample :
  fst (scan_and_import (world_of unreachable accepts_upload) PNone (RInt 7)
         "report.xml" "ZAP Scan" (RInt 3) false false None None PNone PNone init)
  = Raise RequestException
  /\ fst (scan_and_import offline (PInt 1) (RStr "ZAP Scan")
            "report.xml" "ZAP Scan" (RStr "Development") false false None None
            PNone PNone init)
     = Raise RequestException
  /\ fst (scan_and_import engagement_down (PInt 1) (RStr "ZAP Scan")
            "report.xml" "ZAP Scan" (RStr "Development") false false None None
            PNone PNone init)
     = Raise RequestException.
Proof. repeat split; reflexivity. Qed.

(** C3: when the first upload is answered with a status other than 200/201
    whose text contains "product_name parameter missing", and no product name
    is set at that point, [upload_findings] opens the report file again and
    posts once more, with [product_name] set to the scan type: its trace ends
    with exactly these four events and nothing after them.  If that retry
    fails too, [upload_findings] returns [None] and [scan_and_import] returns
    [success = False] with the id of the test it created. *)
Theorem C3_single_retry
    (W : world) (tid : pyval) (file scan_type : string) (close_old push : bool)
    (eng pid pname : pyval) (st st2 : state) (p : pyval * pyval) (r1 : response) :
  isfile W file = true ->
  readable W file = true ->
  product_from_engagement W eng pid pname (upload_started file scan_type st)
  = (Ok p, st2) ->
  truthy (snd p) = false ->
  server W (trace st2 ++ [EvOpen (count_opens (trace st2)) file])
    (first_attempt tid scan_type close_old push p st2) = Responds r1 ->
  accepted r1 = false ->
  str_contains missing_product_name (text r1) = true ->
  forall o2,
    o2 = server W
           (trace st2 ++
            [EvOpen (count_opens (trace st2)) file;
             EvHttp (first_attempt tid scan_type close_old push p st2) (Responds r1);
             EvOpen (S (count_opens (trace st2))) file])
           (retry_attempt tid scan_type close_old push p st2) ->
    trace (snd (upload_findings W tid file scan_type close_old push eng pid pname st)) =
    (trace st2 ++
     [EvOpen (count_opens (trace st2)) file;
      EvHttp (first_attempt tid scan_type close_old push p st2) (Responds r1);
      EvOpen (S (count_opens (trace st2))) file;
      EvHttp (retry_attempt tid scan_type close_old push p st2) o2])%list
    /\ lookup "product_name" (req_data (retry_attempt tid scan_type close_old push p st2))
       = Some (PStr scan_type)
    /\ req_file (retry_attempt tid scan_type close_old push p st2)
       <> req_file (first_attempt tid scan_type close_old push p st2)
    /\ (attempt_failed o2 = true ->
        fst (upload_findings W tid file scan_type close_old push eng pid pname st)
        = Ok PNone
        /\ forall tt env build branch st0 test,
            create_test W eng tt env (today W) None
              (Some (scan_title tt build branch)) st0 = (Ok test, st) ->
            truthy test = true ->
            getitem test "id" = Ok tid ->
            fst (scan_and_import W eng tt file scan_type env close_old push
                   build branch pid pname st0) = Ok (import_failure tid)).
Proof.
  intros Hfile Hread Hprod Hname H1 Hrej Hmark o2 Ho2.
  pose proof (upload_findings_run W tid file scan_type close_old push eng pid pname
                st st2 p Hfile Hread Hprod) as Hrun.
  unfold first_attempt, retry_attempt in *.
  set (f := count_opens (trace st2)) in *.
  set (data := upload_data tid scan_type close_old push (fst p) (snd p)) in *.
  set (st3 := mkState (trace st2 ++ [EvOpen f file]) (log st2)) in *.
  assert (Hf2 : count_opens (trace st3 ++ [EvHttp (upload_request data f) (Responds r1)])
                = S f).
  { cbn [trace st3]. rewrite !count_opens_app. cbn. subst f. lia. }
  destruct (try_upload_retry W file scan_type f data (snd p) st3 r1 H1 Hrej Hmark Hname
              Hread _ _ _ _ eq_refl eq_refl eq_refl eq_refl) as [Htrace Hres].
  rewrite Hf2 in Htrace, Hres. cbn [trace st3] in Htrace, Hres.
  repeat (rewrite <- app_assoc in Htrace; cbn [app] in Htrace).
  repeat (rewrite <- app_assoc in Hres; cbn [app] in Hres).
  rewrite <- Ho2 in Htrace, Hres.
  assert (Htr : trace (snd (upload_findings W tid file scan_type close_old push
                              eng pid pname st)) =
                trace (snd (try_upload W file scan_type f data (snd p) st3))).
  { rewrite Hrun. destruct (try_upload _ _ _ _ _ _ _) as [[[v|]|e] st4];
      try reflexivity. destruct (is_RequestException e); reflexivity. }
  split; [now rewrite Htr|].
  split; [apply lookup_dict_set|].
  split; [cbn; intros [= H]; lia|].
  intros Hfailed.
  assert (Hnone : fst (upload_findings W tid file scan_type close_old push
                         eng pid pname st) = Ok PNone).
  { rewrite Hrun. destruct (try_upload _ _ _ _ _ _ _) as [r st4]. cbn in Hres.
    subst r. destruct o2 as [r2|]; cbn in Hfailed.
    - destruct (accepted r2); [discriminate | reflexivity].
    - reflexivity. }
  split; [exact Hnone|].
  intros tt env build branch st0 test Hcreate Htest Hid.
  rewrite (scan_and_import_created W eng tt env file scan_type close_old push
             build branch pid pname st0 st test tid Hcreate Htest Hid).
  destruct (upload_findings W tid file scan_type close_old push eng pid pname st)
    as [r st5]. cbn in Hnone. subst r. reflexivity.
Qed.

Lemma C3_witness :
  (product_from_engagement stubborn PNone PNone PNone
     (upload_started "report.xml" "ZAP Scan" init)
   = (Ok (PNone, PNone), upload_started "report.xml" "ZAP Scan" init)
   /\ server stubborn [EvOpen 0%nat "report.xml"]
        (upload_request (upload_data (PInt 11) "ZAP Scan" false false PNone PNone) 0)
      = Responds stubborn_reply
   /\ accepted stubborn_reply = false
   /\ str_contains missing_product_name (text stubborn_reply) = true)
  /\ trace (snd (upload_findings stubborn (PInt 11) "report.xml" "ZAP Scan" false false
                   PNone PNone PNone init)) =
     [EvOpen 0%nat "report.xml";
      EvHttp (upload_request (upload_data (PInt 11) "ZAP Scan" false false PNone PNone) 0)
        (Responds stubborn_reply);
      EvOpen 1%nat "report.xml";
      EvHttp (upload_request
                (dict_set "product_name" (PStr "ZAP Scan")
                   (upload_data (PInt 11) "ZAP Scan" false false PNone PNone)) 1)
        (Responds stubborn_reply)]
  /\ fst (upload_findings stubborn (PInt 11) "report.xml" "ZAP Scan" false false
            PNone PNone PNone init) = Ok PNone.
Proof.
  split; [repeat split; reflexivity|].
  pose proof (C3_single_retry stubborn (PInt 11) "report.xml" "ZAP Scan" false false
                PNone PNone PNone init (upload_started "report.xml" "ZAP Scan" init)
                (PNone, PNone) stubborn_reply
                eq_refl eq_refl eq_refl eq_refl eq_refl eq_refl eq_refl
                (Responds stubborn_reply) eq_refl) as (Htrace & _ & _ & Hfail).
  split; [exact Htrace|].
  exact (proj1 (Hfail eq_refl)).
Defined.

(** The retry law run on whole invocations: a service that insists on a
    product name is satisfied by the retry; one that keeps rejecting leaves
    the created test's id in the failure result. *)
Example retry_succeeds :
  fst (scan_and_import (world_of creates_test wants_product_name) PNone
         (RStr "ZAP Scan") "report.xml" "ZAP Scan" (RStr "Production") false false
         None None PNone PNone init)
  = Ok (PDict [("success", PBool true); ("test_id", PInt 11); ("import_id", PInt 21);
               ("message", PStr "Successfully created test and imported findings");
               ("test_title", PStr "ZAP Scan scan")])
  /\ List.length
       (posts (trace (snd (scan_and_import (world_of creates_test wants_product_name)
                             PNone (RStr "ZAP Scan") "report.xml" "ZAP Scan"
                             (RStr "Production") false false None None PNone PNone
                             init)))) = 3%nat.
Proof. split; reflexivity. Qed.

Example retry_fails :
  fst (scan_and_import stubborn PNone (RStr "ZAP Scan") "report.xml" "ZAP Scan"
         (RStr "Production") false false None None PNone PNone init)
  = Ok (import_failure (PInt 11))
  /\ List.length
       (posts (trace (snd (scan_and_import stubborn PNone (RStr "ZAP Scan")
                             "report.xml" "ZAP Scan" (RStr "Production") false false
                             None None PNone PNone init)))) = 3%nat.
Proof. split; reflexivity. Qed.

(** With a product name supplied the same rejection is not retried. *)
Example no_retry_with_product_name :
  fst (scan_and_import stubborn PNone (RStr "ZAP Scan") "report.xml" "ZAP Scan"
         (RStr "Production") false false None None PNone (PStr "Shop") init)
  = Ok (import_failure (PInt 11))
  /\ List.length
       (posts (trace (snd (scan_and_import stubborn PNone (RStr "ZAP Scan")
                             "report.xml" "ZAP Scan" (RStr "Production") false false
                             None None PNone (PStr "Shop") init)))) = 2%nat.
Proof. split; reflexivity. Qed.

(** C7, as the code has it: a result [scan_and_import] returns always has
    [success] and [message].  It is either the "Failed to create test"
    result, which has no [test_id], or a result whose [test_id] is the id of
    the test [create_test] returned; and [success] is true only if the last
    call made was an upload POST (the first or the retry) answered 200 or
    201 with the import result as its body. *)
Theorem C7_result_shape
    (W : world) (eng : pyval) (tt env : reference) (file scan_type : string)
    (close_old push : bool) (build branch : option string) (pid pname : pyval)
    (st st' : state) (res : pyval) :
  scan_and_import W eng tt file scan_type env close_old push build branch
    pid pname st = (Ok res, st') ->
  exists d success message,
    res = PDict d
    /\ lookup "success" d = Some (PBool success)
    /\ lookup "message" d = Some (PStr message)
    /\ ((res = creation_failure /\ success = false /\ lookup "test_id" d = None)
        \/ exists test st1 tid,
            create_test W eng tt env (today W) None
              (Some (scan_title tt build branch)) st = (Ok test, st1)
            /\ getitem test "id" = Ok tid
            /\ lookup "test_id" d = Some tid
            /\ (success = true ->
                exists tr rq r import_result,
                  trace st' = (tr ++ [EvHttp rq (Responds r)])%list
                  /\ req_method rq = POST /\ req_endpoint rq = EpImportScan
                  /\ accepted r = true
                  /\ body r = Some import_result
                  /\ truthy import_result = true)).
Proof.
  intros Hrun.
  destruct (create_test W eng tt env (today W) None
              (Some (scan_title tt build branch)) st) as [[test|e] st1] eqn:Hcreate.
  2:{ rewrite (scan_and_import_create_raises W eng tt env file scan_type close_old push
                 build branch pid pname st st1 e Hcreate) in Hrun. discriminate. }
  destruct (truthy test) eqn:Htest.
  2:{ rewrite (scan_and_import_not_created W eng tt env file scan_type close_old push
                 build branch pid pname st st1 test Hcreate Htest) in Hrun.
      injection Hrun as <- <-.
      exists [("success", PBool false); ("message", PStr "Failed to create test")],
        false, "Failed to create test".
      repeat split. left. repeat split. }
  destruct (getitem test "id") as [tid|e] eqn:Hid.
  2:{ unfold scan_and_import in Hrun. unfold bind at 1 in Hrun.
      rewrite Hcreate, Htest in Hrun. cbn [negb] in Hrun.
      unfold bind at 1, lift at 1 in Hrun. rewrite Hid in Hrun. discriminate. }
  rewrite (scan_and_import_created W eng tt env file scan_type close_old push
             build branch pid pname st st1 test tid Hcreate Htest Hid) in Hrun.
  destruct (upload_findings W tid file scan_type close_old push eng pid pname st1)
    as [[import_result|e] st2] eqn:Hup; [|discriminate].
  destruct (truthy import_result) eqn:Himp.
  - destruct (getitem import_result "id") as [import_id|e]; [|discriminate].
    destruct (getitem test "title") as [test_title|e]; [|discriminate].
    injection Hrun as <- <-.
    eexists _, true, _. split; [reflexivity|]. split; [reflexivity|].
    split; [reflexivity|]. right. exists test, st1, tid.
    split; [reflexivity|]. split; [exact Hid|]. split; [reflexivity|]. intros _.
    destruct (upload_findings_returns W tid file scan_type close_old push eng pid pname
                st1 st2 import_result Hup Himp) as (tr & rq & r & H).
    exists tr, rq, r, import_result. intuition.
  - injection Hrun as <- <-.
    eexists _, false, _. split; [reflexivity|]. split; [reflexivity|].
    split; [reflexivity|]. right. exists test, st1, tid.
    split; [reflexivity|]. split; [exact Hid|]. split; [reflexivity|]. discriminate.
Qed.

Lemma C7_witness :
  fst (scan_and_import demo (PInt 1) (RStr "ZAP Scan") "report.xml" "ZAP Scan"
         (RStr "Production") false false (Some "12") (Some "main") PNone PNone init)
  = Ok (PDict [("success", PBool true); ("test_id", PInt 11); ("import_id", PInt 21);
               ("message", PStr "Successfully created test and imported findings");
               ("test_title", PStr "ZAP Scan scan - Build #12 - Branch: main")])
  /\ exists d success message,
      PDict [("success", PBool true); ("test_id", PInt 11); ("import_id", PInt 21);
             ("message", PStr "Successfully created test and imported findings");
             ("test_title", PStr "ZAP Scan scan - Build #12 - Branch: main")] = PDict d
      /\ lookup "success" d = Some (PBool success)
      /\ lookup "message" d = Some (PStr message).
Proof.
  split; [reflexivity|].
  destruct (C7_result_shape demo (PInt 1) (RStr "ZAP Scan") (RStr "Production")
              "report.xml" "ZAP Scan" false false (Some "12") (Some "main") PNone PNone
              init
              (snd (scan_and_import demo (PInt 1) (RStr "ZAP Scan") "report.xml"
                      "ZAP Scan" (RStr "Production") false false (Some "12")
                      (Some "main") PNone PNone init))
              (PDict [("success", PBool true); ("test_id", PInt 11);
                      ("import_id", PInt 21);
                      ("message",
                        PStr "Successfully created test and imported findings");
                      ("test_title", PStr "ZAP Scan scan - Build #12 - Branch: main")])
              eq_refl) as (d & success & message & Hd & Hs & Hm & _).
  exists d, success, message. repeat split; assumption.
Defined.

(** C7 fails when no test is created: the result then has [success] and
    [message] only. *)
Lemma C7_counterexample :
  fst (scan_and_import (world_of (rejects "Bad request") accepts_upload) (PInt 1)
         (RStr "ZAP Scan") "report.xml" "ZAP Scan" (RStr "Production") false false
         None None PNone PNone init)
  = Ok (PDict [("success", PBool false); ("message", PStr "Failed to create test")])
  /\ lookup "test_id"
       [("success", PBool false); ("message", PStr "Failed to create test")] = None.
Proof. split; reflexivity. Qed.

(** ** References and names beyond ASCII *)

(** A name matches a listed name that differs from it by the case of a
    letter outside ASCII: the match is by [str.lower], and nothing is
    logged. *)
Example non_ascii_name_matches :
  fst (get_environment_id polyglot (RStr "école") init) = Ok (PInt 4)
  /\ log (snd (get_environment_id polyglot (RStr "école") init)) = [].
Proof. split; reflexivity. Qed.

(** Digits outside ASCII bypass the lookup like the ASCII ones; a digit
    that [int] refuses raises [ValueError], without a call either. *)
Example non_ascii_digits :
  get_environment_id polyglot (RStr "٤٢") init = (Ok (PInt 42), init)
  /\ get_environment_id polyglot (RStr "²") init = (Raise Py.ValueError, init)
  /\ resolve_test_type polyglot (RStr "٤٢") init = (Ok (Some (PStr "٤٢")), init).
Proof. repeat split; reflexivity. Qed.

(** With nothing listed, such a digit string still reaches the POST of
    [create_test]: it is no name reference, and the empty listings are
    never asked for. *)
Example non_ascii_digits_reach_the_post :
  let W := mkWorld bare_service on_disk on_disk "2024-05-01" sample_runtime in
  List.length (posts (trace (snd (create_test W (PInt 1) (RStr "٤٢") (RStr "٤٢")
                                     "2024-05-01" None None init)))) = 1%nat
  /\ List.length (trace (snd (create_test W (PInt 1) (RStr "٤٢") (RStr "٤٢")
                                "2024-05-01" None None init))) = 1%nat.
Proof. split; reflexivity. Qed.

(** * Further properties *)

(** ** Resolution by name *)

Lemma find_environment_skip (W : world) (pre post : list pyval) (s : string)
    (st : state) :
  Forall (named_other_than W s) pre ->
  find_environment W (pre ++ post) s st = find_environment W post s st.
Proof.
  induction 1 as [|env pre (d & n & -> & Hn & Hne) _ IH]; [reflexivity|].
  cbn. unfold bind, lift. cbn. rewrite Hn. cbn. rewrite Hne. exact IH.
Qed.

Lemma find_test_type_skip (W : world) (pre post : list pyval) (s : string)
    (st : state) :
  Forall (named_other_than W s) pre ->
  find_test_type W (pre ++ post) s st = find_test_type W post s st.
Proof.
  induction 1 as [|t pre (d & n & -> & Hn & Hne) _ IH]; [reflexivity|].
  cbn. unfold bind, lift. cbn. rewrite Hn. cbn. rewrite Hne. exact IH.
Qed.

(** X1: A name is resolved to the id of the first listed resource carrying that
    name up to case, whatever follows it in the listing; nothing is logged and
    the listing is the only call.  An environment record without an id gives
    [None]; a test-type record without an id raises [KeyError]. *)
Theorem first_match_wins
    (W : world) (s : string) (st st1 : state)
    (pre post : list pyval) (hit : pyval) (d : list (string * pyval)) :
  str_isdigit (python W) s = false ->
  Forall (named_other_than W s) pre ->
  named_like W s hit d ->
  (get_environments W st = (Ok (PList (pre ++ hit :: post)), st1) ->
   get_environment_id W (RStr s) st = (Ok (id_of d), st1))
  /\ (get_test_types W st = (Ok (PList (pre ++ hit :: post)), st1) ->
      _get_test_type_id W s st =
      (match lookup "id" d with Some i => Ok i | None => Raise KeyError end, st1)).
Proof.
  intros Hs Hpre (-> & n & Hn & Heq). split; intros Hlist.
  - unfold get_environment_id. rewrite Hs. unfold bind at 1. rewrite Hlist.
    unfold bind at 1, lift at 1. cbn [iter].
    unfold bind at 1. rewrite (find_environment_skip W pre _ s st1 Hpre).
    cbn [find_environment]. unfold bind, lift, ret. cbn. rewrite Hn. cbn.
    rewrite Heq, String.eqb_refl. reflexivity.
  - unfold _get_test_type_id. unfold bind at 1. rewrite Hlist.
    unfold bind at 1, lift at 1. cbn [iter].
    unfold bind at 1. rewrite (find_test_type_skip W pre _ s st1 Hpre).
    cbn [find_test_type]. unfold bind, lift, ret. cbn. rewrite Hn. cbn.
    rewrite Heq, String.eqb_refl. destruct (lookup "id" d); reflexivity.
Qed.

Lemma first_match_wins_witness :
  (str_isdigit (python demo) "production" = false
   /\ named_like demo "production" production
        [("id", PInt 3); ("name", PStr "Production")]
   /\ get_environments demo init =
      (Ok (PList ([] ++ production :: [])), snd (get_environments demo init)))
  /\ get_environment_id demo (RStr "production") init
     = (Ok (PInt 3), snd (get_environments demo init)).
Proof.
  assert (Hn : named_like demo "production" production
                 [("id", PInt 3); ("name", PStr "Production")]).
  { split; [reflexivity|]. exists "Production". split; reflexivity. }
  split; [split; [reflexivity | split; [exact Hn | reflexivity]]|].
  exact (proj1 (first_match_wins demo "production" init
                  (snd (get_environments demo init)) [] [] production
                  [("id", PInt 3); ("name", PStr "Production")]
                  eq_refl (Forall_nil _) Hn) eq_refl).
Defined.

(** Of two listed names that lowercase to the same string, the first one
    gives the identifier, also when the letters are outside ASCII. *)
Example first_of_two_non_ascii_names (st : state) :
  find_environment polyglot
    [PDict [("id", PInt 4); ("name", PStr "École")];
     PDict [("id", PInt 9); ("name", PStr "éCOLE")]] "école" st
  = (Ok (Some (PInt 4)), st).
Proof. reflexivity. Qed.


Lemma find_environment_lower (W : world) (envs : list pyval) (s s' : string)
    (st : state) :
  str_lower (python W) s = str_lower (python W) s' ->
  find_environment W envs s st = find_environment W envs s' st.
Proof.
  intros H. induction envs as [|env envs IH]; cbn; [reflexivity|].
  unfold bind, lift. destruct (get env "name" (PStr "")) as [n|e]; [|reflexivity].
  destruct (lower_of W n) as [l|e]; [|reflexivity].
  rewrite H. destruct (l =? str_lower (python W) s')%string; [reflexivity | exact IH].
Qed.

Lemma find_test_type_lower (W : world) (tts : list pyval) (s s' : string)
    (st : state) :
  str_lower (python W) s = str_lower (python W) s' ->
  find_test_type W tts s st = find_test_type W tts s' st.
Proof.
  intros H. induction tts as [|t tts IH]; cbn; [reflexivity|].
  unfold bind, lift. destruct (getitem t "name") as [n|e]; [|reflexivity].
  destruct (lower_of W n) as [l|e]; [|reflexivity].
  rewrite H. destruct (l =? str_lower (python W) s')%string; [reflexivity | exact IH].
Qed.

(** X2: Resolution by name does not depend on the case of the name: two
    names (strings for which [isdigit()] is false) whose [lower()] are equal
    resolve to the same result and make the same calls, by match or by the
    environment fallback.  For test types the whole outcome, log included, is
    the same. *)
Theorem resolution_ignores_case (W : world) (s s' : string) (st : state) :
  str_lower (python W) s = str_lower (python W) s' ->
  str_isdigit (python W) s = false ->
  str_isdigit (python W) s' = false ->
  fst (get_environment_id W (RStr s) st) = fst (get_environment_id W (RStr s') st)
  /\ trace (snd (get_environment_id W (RStr s) st))
     = trace (snd (get_environment_id W (RStr s') st))
  /\ _get_test_type_id W s st = _get_test_type_id W s' st.
Proof.
  intros H Hs Hs'.
  assert (Henv : fst (get_environment_id W (RStr s) st)
                 = fst (get_environment_id W (RStr s') st)
                 /\ trace (snd (get_environment_id W (RStr s) st))
                    = trace (snd (get_environment_id W (RStr s') st))).
  { unfold get_environment_id. rewrite Hs, Hs'.
    unfold bind, lift, logger, ret.
    destruct (get_environments W st) as [[envs|e] st1]; [|split; reflexivity].
    destruct (iter envs) as [l|e]; [|split; reflexivity].
    rewrite (find_environment_lower W l s s' st1 H).
    destruct (find_environment W l s' st1) as [[[i|]|e] st2]; try (split; reflexivity).
    destruct (truthy envs); [|split; reflexivity].
    destruct (len envs) as [[|k]|e]; try (split; reflexivity). cbn.
    destruct (getitem0 envs) as [e0|e]; [|split; reflexivity]. cbn.
    destruct (get e0 "name" PNone); [|split; reflexivity]. cbn.
    destruct (get e0 "id" PNone); split; reflexivity. }
  split; [apply Henv|]. split; [apply Henv|].
  unfold _get_test_type_id, bind, lift, ret.
  destruct (get_test_types W st) as [[tts|e] st1]; [|reflexivity].
  destruct (iter tts) as [l|e]; [|reflexivity].
  now rewrite (find_test_type_lower W l s s' st1 H).
Qed.

Lemma resolution_ignores_case_witness :
  (str_lower (python demo) "PRODUCTION" = str_lower (python demo) "production"
   /\ str_isdigit (python demo) "PRODUCTION" = false
   /\ str_isdigit (python demo) "production" = false)
  /\ fst (get_environment_id demo (RStr "PRODUCTION") init)
     = fst (get_environment_id demo (RStr "production") init).
Proof.
  split; [repeat split; reflexivity|].
  exact (proj1 (resolution_ignores_case demo "PRODUCTION" "production" init
                  eq_refl eq_refl eq_refl)).
Defined.

(** Two spellings of a name that is not ASCII resolve to the same listed
    environment. *)
Example non_ascii_spellings_agree :
  fst (get_environment_id polyglot (RStr "École") init) = Ok (PInt 4)
  /\ fst (get_environment_id polyglot (RStr "école") init) = Ok (PInt 4).
Proof. split; reflexivity. Qed.

(** ** Listings *)

(** X3: A listing answered with a status other than 200, or with a body that is
    not JSON, is taken as the empty list, with one error record in the log and
    no exception; every name then resolves to [None]. *)
Theorem failed_listing_is_empty (W : world) (st : state) (r : response) :
  (status_code r =? 200) = false \/ body r = None ->
  (server W (trace st) environments_request = Responds r ->
   (exists msg,
       get_environments W st =
       (Ok (PList []),
        mkState (trace st ++ [EvHttp environments_request (Responds r)])
          (log st ++ [(ERROR, msg)])))
   /\ forall s, str_isdigit (python W) s = false ->
                fst (get_environment_id W (RStr s) st) = Ok PNone)
  /\ (server W (trace st) test_types_request = Responds r ->
      (exists msg,
          get_test_types W st =
          (Ok (PList []),
           mkState (trace st ++ [EvHttp test_types_request (Responds r)])
             (log st ++ [(ERROR, msg)])))
      /\ forall s, fst (_get_test_type_id W s st) = Ok PNone).
Proof.
  intros Hbad. split; intros Hsrv.
  - assert (Hlist : exists msg,
               get_environments W st =
               (Ok (PList []),
                mkState (trace st ++ [EvHttp environments_request (Responds r)])
                  (log st ++ [(ERROR, msg)]))).
    { unfold get_environments, try_except, bind, http, json, lift, logger, raise, ret.
      fold environments_request. rewrite Hsrv. cbn [trace log].
      destruct (status_code r =? 200) eqn:Hst; [|eauto].
      destruct Hbad as [Hbad | Hbad]; [discriminate|]. rewrite Hbad. cbn. eauto. }
    split; [exact Hlist|].
    intros s Hs. destruct Hlist as [msg Hlist].
    unfold get_environment_id. rewrite Hs. unfold bind at 1. rewrite Hlist. reflexivity.
  - assert (Hlist : exists msg,
               get_test_types W st =
               (Ok (PList []),
                mkState (trace st ++ [EvHttp test_types_request (Responds r)])
                  (log st ++ [(ERROR, msg)]))).
    { unfold get_test_types, try_except, bind, http, json, lift, logger, raise, ret.
      fold test_types_request. rewrite Hsrv. cbn [trace log].
      destruct (status_code r =? 200) eqn:Hst; [|eauto].
      destruct Hbad as [Hbad | Hbad]; [discriminate|]. rewrite Hbad. cbn. eauto. }
    split; [exact Hlist|].
    intros s. destruct Hlist as [msg Hlist].
    unfold _get_test_type_id. unfold bind at 1. rewrite Hlist. reflexivity.
Qed.

Lemma failed_listing_is_empty_witness :
  (server forbidden_listing [] environments_request
   = Responds (mkResponse 403 "Forbidden" None))
  /\ fst (get_environment_id forbidden_listing (RStr "Production") init) = Ok PNone.
Proof.
  split; [reflexivity|].
  exact (proj2 (proj1 (failed_listing_is_empty forbidden_listing init
                         (mkResponse 403 "Forbidden" None) (or_introl eq_refl))
                  eq_refl) "Production" eq_refl).
Defined.

(** X4: A listing answered 200 is read from the [results] field of a paginated
    body, and taken whole when the body is a bare JSON list. *)
Theorem listing_accepts_both_shapes
    (W : world) (st : state) (r : response) (l : list pyval) :
  status_code r = 200 ->
  (exists d, body r = Some (PDict d) /\ lookup "results" d = Some (PList l))
  \/ (body r = Some (PList l) /\ no_results_string l = true) ->
  (server W (trace st) environments_request = Responds r ->
   get_environments W st =
   (Ok (PList l), mkState (trace st ++ [EvHttp environments_request (Responds r)]) (log st)))
  /\ (server W (trace st) test_types_request = Responds r ->
      get_test_types W st =
      (Ok (PList l), mkState (trace st ++ [EvHttp test_types_request (Responds r)]) (log st))).
Proof.
  intros Hst Hshape. split; intros Hsrv.
  - unfold get_environments, try_except, bind, http, json, lift, logger, raise, ret.
    fold environments_request. rewrite Hsrv. cbn [trace log]. rewrite Hst. cbn.
    destruct Hshape as [(d & -> & Hres) | [-> Hno]]; cbn.
    + now rewrite Hres.
    + unfold no_results_string in Hno. apply negb_true_iff in Hno. now rewrite Hno.
  - unfold get_test_types, try_except, bind, http, json, lift, logger, raise, ret.
    fold test_types_request. rewrite Hsrv. cbn [trace log]. rewrite Hst. cbn.
    destruct Hshape as [(d & -> & Hres) | [-> Hno]]; cbn.
    + now rewrite Hres.
    + unfold no_results_string in Hno. apply negb_true_iff in Hno. now rewrite Hno.
Qed.

Lemma listing_accepts_both_shapes_witness :
  (server demo [] environments_request
   = replies 200 "" (PDict [("count", PInt 1); ("results", PList [production])]))
  /\ get_environments demo init =
     (Ok (PList [production]),
      mkState ([] ++ [EvHttp environments_request
                        (replies 200 ""
                           (PDict [("count", PInt 1); ("results", PList [production])]))])
        []).
Proof.
  split; [reflexivity|].
  exact (proj1 (listing_accepts_both_shapes demo init
                  (mkResponse 200 ""
                     (Some (PDict [("count", PInt 1); ("results", PList [production])])))
                  [production] eq_refl
                  (or_introl (ex_intro _ [("count", PInt 1);
                                          ("results", PList [production])]
                                (conj eq_refl eq_refl))))
           eq_refl).
Defined.

(** ** Test creation *)

(** X5: Once both references are resolved, the environment to a true value,
    [create_test] makes exactly one further call, the POST of the test with
    the resolved ids (the end date defaulting to the start date), and returns
    the created record only on status 201: any other status, 200 included,
    gives [None]. *)
Theorem create_test_posts_once
    (W : world) (eng : pyval) (tt env : reference) (start : string)
    (tend title : option string) (st st0 st1 : state) (ttid eid : pyval) :
  resolve_test_type W tt st = (Ok (Some ttid), st0) ->
  get_environment_id W env st0 = (Ok eid, st1) ->
  truthy eid = true ->
  trace (snd (create_test W eng tt env start tend title st)) =
  (trace st1 ++
   [EvHttp (test_request eng tt ttid eid start tend title)
      (server W (trace st1) (test_request eng tt ttid eid start tend title))])%list
  /\ fst (create_test W eng tt env start tend title st) =
     answer created (server W (trace st1) (test_request eng tt ttid eid start tend title))
  /\ posts (trace (snd (create_test W eng tt env start tend title st))) =
     (posts (trace st) ++
      [EvHttp (test_request eng tt ttid eid start tend title)
         (server W (trace st1) (test_request eng tt ttid eid start tend title))])%list.
Proof.
  intros Htt Henv Heid.
  assert (Hposts : posts (trace st1) = posts (trace st)).
  { pose proof (get_environment_id_posts W env st0) as H1.
    pose proof (resolve_test_type_posts W tt st) as H2.
    rewrite Henv in H1. rewrite Htt in H2. cbn in H1, H2. congruence. }
  assert (Hrun : trace (snd (create_test W eng tt env start tend title st)) =
                 (trace st1 ++
                  [EvHttp (test_request eng tt ttid eid start tend title)
                     (server W (trace st1)
                        (test_request eng tt ttid eid start tend title))])%list
                 /\ fst (create_test W eng tt env start tend title st) =
                    answer created
                      (server W (trace st1)
                         (test_request eng tt ttid eid start tend title))).
  { unfold create_test, bind, logger, http, json, ret, raise, answer, created.
    rewrite Htt, Henv, Heid. cbn [negb trace log].
    fold (test_request eng tt ttid eid start tend title).
    destruct (server W (trace st1) _) as [r|]; cbn [trace log fst snd];
      [|split; reflexivity].
    destruct (status_code r =? 201); cbn [trace log fst snd]; [|split; reflexivity].
    destruct (body r); split; reflexivity. }
  destruct Hrun as [Htrace Hres]. split; [exact Htrace|]. split; [exact Hres|].
  rewrite Htrace, posts_app, Hposts. reflexivity.
Qed.

Lemma create_test_posts_once_witness :
  (resolve_test_type demo (RStr "zap scan") init =
   (Ok (Some (PInt 7)), snd (resolve_test_type demo (RStr "zap scan") init))
   /\ get_environment_id demo (RInt 3) (snd (resolve_test_type demo (RStr "zap scan") init))
      = (Ok (PInt 3), snd (resolve_test_type demo (RStr "zap scan") init)))
  /\ fst (create_test demo (PInt 1) (RStr "zap scan") (RInt 3) "2024-05-01" None None init)
     = answer created
         (server demo (trace (snd (resolve_test_type demo (RStr "zap scan") init)))
            (test_request (PInt 1) (RStr "zap scan") (PInt 7) (PInt 3) "2024-05-01"
               None None)).
Proof.
  split; [split; reflexivity|].
  exact (proj1 (proj2 (create_test_posts_once demo (PInt 1) (RStr "zap scan") (RInt 3)
                         "2024-05-01" None None init
                         (snd (resolve_test_type demo (RStr "zap scan") init))
                         (snd (resolve_test_type demo (RStr "zap scan") init))
                         (PInt 7) (PInt 3) eq_refl eq_refl eq_refl))).
Defined.

Example create_test_defaults :
  fst (create_test demo (PInt 1) (RStr "zap scan") (RInt 3) "2024-05-01" None None init)
  = Ok (PDict [("id", PInt 11); ("title", PStr "zap scan test on 2024-05-01")]).
Proof. reflexivity. Qed.

(** ** Upload *)

(** X6: A report path that is not a file is noticed by [upload_findings] before
    any lookup, open or upload: it returns [None] and its trace is unchanged.
    [scan_and_import] checks it only after the test is created, so it returns
    the failure carrying that test's id. *)
Theorem missing_report_file
    (W : world) (tid : pyval) (file scan_type : string) (close_old push : bool)
    (eng pid pname : pyval) (st : state) :
  isfile W file = false ->
  fst (upload_findings W tid file scan_type close_old push eng pid pname st) = Ok PNone
  /\ trace (snd (upload_findings W tid file scan_type close_old push eng pid pname st))
     = trace st
  /\ forall tt env build branch st0 test,
      create_test W eng tt env (today W) None (Some (scan_title tt build branch)) st0
      = (Ok test, st) ->
      truthy test = true ->
      getitem test "id" = Ok tid ->
      fst (scan_and_import W eng tt file scan_type env close_old push build branch
             pid pname st0) = Ok (import_failure tid)
      /\ trace (snd (scan_and_import W eng tt file scan_type env close_old push build
                       branch pid pname st0)) = trace st.
Proof.
  intros Hfile.
  assert (Hup : upload_findings W tid file scan_type close_old push eng pid pname st =
                (Ok PNone,
                 mkState (trace st)
                   (log (upload_started file scan_type st) ++
                    [(ERROR, [Lit "Report file not found: "; Val (PStr file)])]))).
  { unfold upload_findings, bind, logger, ret. rewrite Hfile. reflexivity. }
  rewrite Hup. split; [reflexivity|]. split; [reflexivity|].
  intros tt env build branch st0 test Hcreate Htest Hid.
  rewrite (scan_and_import_created W eng tt env file scan_type close_old push
             build branch pid pname st0 st test tid Hcreate Htest Hid), Hup.
  split; reflexivity.
Qed.

Lemma missing_report_file_witness :
  isfile demo missing_file = false
  /\ fst (upload_findings demo (PInt 11) missing_file "ZAP Scan" false false
            (PInt 1) PNone PNone init) = Ok PNone
  /\ trace (snd (upload_findings demo (PInt 11) missing_file "ZAP Scan" false false
                   (PInt 1) PNone PNone init)) = [].
Proof.
  split; [reflexivity|].
  pose proof (missing_report_file demo (PInt 11) missing_file "ZAP Scan" false false
                (PInt 1) PNone PNone init eq_refl) as (H1 & H2 & _).
  split; [exact H1 | exact H2].
Defined.

Example missing_file_leaves_a_test :
  fst (scan_and_import demo (PInt 1) (RStr "ZAP Scan") missing_file "ZAP Scan"
         (RStr "Production") false false None None PNone PNone init)
  = Ok (import_failure (PInt 11))
  /\ List.length
       (posts (trace (snd (scan_and_import demo (PInt 1) (RStr "ZAP Scan") missing_file
                             "ZAP Scan" (RStr "Production") false false None None
                             PNone PNone init)))) = 1%nat.
Proof. split; reflexivity. Qed.

Lemma try_upload_single (W : world) (file scan_type : string) (f : nat)
    (data : list (string * pyval)) (pname : pyval) (st : state) (r1 : response) :
  server W (trace st) (upload_request data f) = Responds r1 ->
  accepted r1 = true
  \/ str_contains missing_product_name (text r1) = false
  \/ truthy pname = true ->
  trace (snd (try_upload W file scan_type f data pname st)) =
  (trace st ++ [EvHttp (upload_request data f) (Responds r1)])%list
  /\ fst (try_upload W file scan_type f data pname st) =
     if accepted r1 then
       match body r1 with
       | Some v => Ok (Some v)
       | None => Raise JSONDecodeError
       end
     else Ok None.
Proof.
  intros H1 Hcase.
  unfold try_upload, bind, logger, http, open_rb, json, ret, raise. cbn [trace log].
  rewrite H1. cbn [trace log].
  destruct (accepted r1) eqn:Hacc.
  - destruct (body r1); split; reflexivity.
  - destruct Hcase as [Hc | [Hc | Hc]]; [discriminate | |]; rewrite Hc;
      rewrite ?andb_false_r; split; reflexivity.
Qed.

(** X7: When the first upload is answered 200 or 201, [upload_findings] returns
    its body after that single POST; and then a created test with a title and
    an import result with an id give the success result of [scan_and_import],
    with the test's id, the import's id and the test's title. *)
Theorem accepted_upload_round_trip
    (W : world) (tid : pyval) (file scan_type : string) (close_old push : bool)
    (eng pid pname : pyval) (st st2 : state) (p : pyval * pyval) (r1 : response)
    (import_result : pyval) :
  isfile W file = true ->
  readable W file = true ->
  product_from_engagement W eng pid pname (upload_started file scan_type st)
  = (Ok p, st2) ->
  server W (trace st2 ++ [EvOpen (count_opens (trace st2)) file])
    (first_attempt tid scan_type close_old push p st2) = Responds r1 ->
  accepted r1 = true ->
  body r1 = Some import_result ->
  fst (upload_findings W tid file scan_type close_old push eng pid pname st)
  = Ok import_result
  /\ trace (snd (upload_findings W tid file scan_type close_old push eng pid pname st)) =
     (trace st2 ++
      [EvOpen (count_opens (trace st2)) file;
       EvHttp (first_attempt tid scan_type close_old push p st2) (Responds r1)])%list
  /\ forall tt env build branch st0 test import_id test_title,
      create_test W eng tt env (today W) None (Some (scan_title tt build branch)) st0
      = (Ok test, st) ->
      truthy test = true ->
      getitem test "id" = Ok tid ->
      getitem test "title" = Ok test_title ->
      truthy import_result = true ->
      getitem import_result "id" = Ok import_id ->
      fst (scan_and_import W eng tt file scan_type env close_old push build branch
             pid pname st0) = Ok (import_success tid import_id test_title).
Proof.
  intros Hfile Hread Hprod H1 Hacc Hbody.
  pose proof (upload_findings_run W tid file scan_type close_old push eng pid pname
                st st2 p Hfile Hread Hprod) as Hrun.
  unfold first_attempt in *.
  destruct (try_upload_single W file scan_type (count_opens (trace st2))
              (upload_data tid scan_type close_old push (fst p) (snd p)) (snd p)
              (mkState (trace st2 ++ [EvOpen (count_opens (trace st2)) file]) (log st2))
              r1 H1 (or_introl Hacc)) as [Htrace Hres].
  rewrite Hacc, Hbody in Hres. cbn [trace] in Htrace.
  rewrite <- app_assoc in Htrace. cbn [app] in Htrace.
  destruct (try_upload _ _ _ _ _ _ _) as [r st4]. cbn in Hres, Htrace. subst r.
  rewrite Hrun. split; [reflexivity|]. split; [exact Htrace|].
  intros tt env build branch st0 test import_id test_title Hcreate Htest Hid Htitle
    Himp Hiid.
  rewrite (scan_and_import_created W eng tt env file scan_type close_old push
             build branch pid pname st0 st test tid Hcreate Htest Hid), Hrun.
  now rewrite Himp, Hiid, Htitle.
Qed.

Lemma accepted_upload_round_trip_witness :
  (product_from_engagement demo PNone PNone PNone
     (upload_started "report.xml" "ZAP Scan" init)
   = (Ok (PNone, PNone), upload_started "report.xml" "ZAP Scan" init)
   /\ server demo [EvOpen 0%nat "report.xml"]
        (first_attempt (PInt 11) "ZAP Scan" false false (PNone, PNone)
           (upload_started "report.xml" "ZAP Scan" init))
      = replies 201 "" (PDict [("id", PInt 21); ("test", PInt 11)]))
  /\ fst (upload_findings demo (PInt 11) "report.xml" "ZAP Scan" false false
            PNone PNone PNone init)
     = Ok (PDict [("id", PInt 21); ("test", PInt 11)]).
Proof.
  split; [split; reflexivity|].
  exact (proj1 (accepted_upload_round_trip demo (PInt 11) "report.xml" "ZAP Scan" false
                  false PNone PNone PNone init
                  (upload_started "report.xml" "ZAP Scan" init) (PNone, PNone)
                  (mkResponse 201 "" (Some (PDict [("id", PInt 21); ("test", PInt 11)])))
                  (PDict [("id", PInt 21); ("test", PInt 11)])
                  eq_refl eq_refl eq_refl eq_refl eq_refl eq_refl)).
Defined.

(** X8: A rejected upload is retried only for the missing product name: when the
    answer's text does not contain the marker, or a product name is set, the
    rejected POST is the only one and the result is [None]. *)
Theorem rejected_upload_without_retry
    (W : world) (tid : pyval) (file scan_type : string) (close_old push : bool)
    (eng pid pname : pyval) (st st2 : state) (p : pyval * pyval) (r1 : response) :
  isfile W file = true ->
  readable W file = true ->
  product_from_engagement W eng pid pname (upload_started file scan_type st)
  = (Ok p, st2) ->
  server W (trace st2 ++ [EvOpen (count_opens (trace st2)) file])
    (first_attempt tid scan_type close_old push p st2) = Responds r1 ->
  accepted r1 = false ->
  str_contains missing_product_name (text r1) = false \/ truthy (snd p) = true ->
  fst (upload_findings W tid file scan_type close_old push eng pid pname st) = Ok PNone
  /\ trace (snd (upload_findings W tid file scan_type close_old push eng pid pname st)) =
     (trace st2 ++
      [EvOpen (count_opens (trace st2)) file;
       EvHttp (first_attempt tid scan_type close_old push p st2) (Responds r1)])%list.
Proof.
  intros Hfile Hread Hprod H1 Hrej Hcase.
  pose proof (upload_findings_run W tid file scan_type close_old push eng pid pname
                st st2 p Hfile Hread Hprod) as Hrun.
  unfold first_attempt in *.
  destruct (try_upload_single W file scan_type (count_opens (trace st2))
              (upload_data tid scan_type close_old push (fst p) (snd p)) (snd p)
              (mkState (trace st2 ++ [EvOpen (count_opens (trace st2)) file]) (log st2))
              r1 H1 (or_intror Hcase)) as [Htrace Hres].
  rewrite Hrej in Hres. cbn [trace] in Htrace.
  rewrite <- app_assoc in Htrace. cbn [app] in Htrace.
  destruct (try_upload _ _ _ _ _ _ _) as [r st4]. cbn in Hres, Htrace. subst r.
  rewrite Hrun. split; [reflexivity | exact Htrace].
Qed.

Lemma rejected_upload_without_retry_witness :
  (server stubborn [EvOpen 0%nat "report.xml"]
     (first_attempt (PInt 11) "ZAP Scan" false false (PNone, PStr "Shop")
        (upload_started "report.xml" "ZAP Scan" init))
   = Responds stubborn_reply
   /\ truthy (PStr "Shop") = true)
  /\ fst (upload_findings stubborn (PInt 11) "report.xml" "ZAP Scan" false false
            PNone PNone (PStr "Shop") init) = Ok PNone
  /\ trace (snd (upload_findings stubborn (PInt 11) "report.xml" "ZAP Scan" false false
                   PNone PNone (PStr "Shop") init)) =
     [EvOpen 0%nat "report.xml";
      EvHttp (first_attempt (PInt 11) "ZAP Scan" false false (PNone, PStr "Shop")
                (upload_started "report.xml" "ZAP Scan" init))
        (Responds stubborn_reply)].
Proof.
  split; [split; reflexivity|].
  exact (rejected_upload_without_retry stubborn (PInt 11) "report.xml" "ZAP Scan" false
           false PNone PNone (PStr "Shop") init
           (upload_started "report.xml" "ZAP Scan" init) (PNone, PStr "Shop")
           stubborn_reply eq_refl eq_refl eq_refl eq_refl eq_refl (or_intror eq_refl)).
Defined.

(** ** What the client never does *)

Section Budget.

Variable P : event -> bool.
Hypothesis P_open : forall h path, P (EvOpen h path) = false.

Lemma occurrences_snoc (tr : list event) (e : event) :
  occurrences P (tr ++ [e]) = (occurrences P tr + (if P e then 1 else 0))%nat.
Proof.
  unfold occurrences. rewrite filter_app, length_app. cbn. now destruct (P e).
Qed.

Lemma adds_ret {A} (a : A) : adds_at_most P 0 (ret a).
Proof. intros st. unfold ret. cbn [snd]. lia. Qed.

Lemma adds_raise {A} (e : exn) : adds_at_most P 0 (@raise A e).
Proof. intros st. unfold raise. cbn [snd]. lia. Qed.

Lemma adds_lift {A} (r : result A) : adds_at_most P 0 (lift r).
Proof. intros st. unfold lift. cbn [snd]. lia. Qed.

Lemma adds_logger (l : level) (msg : list piece) : adds_at_most P 0 (logger l msg).
Proof. intros st. unfold logger. cbn [snd trace]. lia. Qed.

Lemma adds_weaken {A} (n k : nat) (m : M A) :
  (n <= k)%nat -> adds_at_most P n m -> adds_at_most P k m.
Proof. intros Hnk H st. specialize (H st). lia. Qed.

Lemma adds_bind {A B} (n k : nat) (m : M A) (f : A -> M B) :
  adds_at_most P n m -> (forall a, adds_at_most P k (f a)) ->
  adds_at_most P (n + k) (bind m f).
Proof.
  intros Hm Hf st. unfold bind. specialize (Hm st).
  destruct (m st) as [[a|e] st1]; cbn [snd] in *.
  - specialize (Hf a st1). lia.
  - lia.
Qed.

Lemma adds_try {A} (n k : nat) (m : M A) (c : exn -> bool) (h : exn -> M A) :
  adds_at_most P n m -> (forall e, adds_at_most P k (h e)) ->
  adds_at_most P (n + k) (try_except m c h).
Proof.
  intros Hm Hh st. unfold try_except. specialize (Hm st).
  destruct (m st) as [[a|e] st1]; cbn [snd] in *; [lia|].
  destruct (c e); cbn [snd]; [|lia]. specialize (Hh e st1). lia.
Qed.

Lemma adds_http (W : world) (rq : request) : adds_at_most P 1 (http W rq).
Proof.
  intros st. unfold http. destruct (server W (trace st) rq) as [r|];
    cbn [snd trace]; rewrite occurrences_snoc; destruct (P _); lia.
Qed.

Lemma adds_http_other (W : world) (rq : request) :
  (forall o, P (EvHttp rq o) = false) -> adds_at_most P 0 (http W rq).
Proof.
  intros Hrq st. unfold http. destruct (server W (trace st) rq) as [r|];
    cbn [snd trace]; rewrite occurrences_snoc, Hrq; lia.
Qed.

Lemma adds_json (r : response) : adds_at_most P 0 (json r).
Proof. unfold json. destruct (body r); [apply adds_ret | apply adds_raise]. Qed.

Lemma adds_open (W : world) (path : string) : adds_at_most P 0 (open_rb W path).
Proof.
  intros st. unfold open_rb. destruct (readable W path); cbn [snd trace]; [|lia].
  rewrite occurrences_snoc, P_open. lia.
Qed.

Lemma adds_find_environment (W : world) (envs : list pyval) (s : string) :
  adds_at_most P 0 (find_environment W envs s).
Proof. intros st. rewrite find_environment_state. lia. Qed.

Lemma adds_find_test_type (W : world) (tts : list pyval) (s : string) :
  adds_at_most P 0 (find_test_type W tts s).
Proof. intros st. rewrite find_test_type_state. lia. Qed.

End Budget.

Ltac budget_step :=
  first
    [ apply adds_ret | apply adds_raise | apply adds_lift | apply adds_logger
    | apply adds_json | apply adds_find_environment | apply adds_find_test_type
    | apply adds_open; assumption
    | apply adds_http_other; solve [auto]
    | apply (adds_bind _ 0 0) | apply (adds_try _ 0 0)
    | match goal with
      | |- forall _, _ => intro
      | |- adds_at_most _ _ (if ?b then _ else _) => destruct b
      | |- adds_at_most _ _ (match ?x with _ => _ end) => destruct x
      end ].

Ltac budget := repeat budget_step.

Section Reads.

Variable P : event -> bool.
Hypothesis P_open : forall h path, P (EvOpen h path) = false.
Hypothesis P_get :
  forall ep h d f o, P (EvHttp (mkRequest GET ep h d f) o) = false.
Variable W : world.

Lemma adds_get_environments : adds_at_most P 0 (get_environments W).
Proof. unfold get_environments. budget. Qed.

Lemma adds_get_test_types : adds_at_most P 0 (get_test_types W).
Proof. unfold get_test_types. budget. Qed.

Lemma adds_get_environment_id (r : reference) :
  adds_at_most P 0 (get_environment_id W r).
Proof.
  unfold get_environment_id. destruct r as [z|s]; [apply adds_ret|].
  destruct (str_isdigit (python W) s);
    [destruct (str_int (python W) s); [apply adds_ret | apply adds_raise]|].
  apply (adds_bind _ 0 0); [apply adds_get_environments|]. budget.
Qed.

Lemma adds_resolve_test_type (r : reference) :
  adds_at_most P 0 (resolve_test_type W r).
Proof.
  unfold resolve_test_type, _get_test_type_id. destruct r as [z|s]; [apply adds_ret|].
  destruct (negb (str_isdigit (python W) s)); [|apply adds_ret].
  apply (adds_bind _ 0 0); [|budget].
  apply (adds_bind _ 0 0); [apply adds_get_test_types|]. budget.
Qed.

Lemma adds_get_engagement (eng : pyval) : adds_at_most P 0 (get_engagement W eng).
Proof. unfold get_engagement. budget. Qed.

Lemma adds_get_product (pid : pyval) : adds_at_most P 0 (get_product W pid).
Proof. unfold get_product. budget. Qed.

Lemma adds_product_from_engagement (eng pid pname : pyval) :
  adds_at_most P 0 (product_from_engagement W eng pid pname).
Proof.
  unfold product_from_engagement, get_product_from_engagement.
  destruct (truthy eng && negb (truthy pid) && negb (truthy pname)); [|apply adds_ret].
  apply (adds_bind _ 0 0).
  - apply (adds_bind _ 0 0); [apply adds_get_engagement|]. budget.
  - intros pid'. destruct (truthy pid'); [|apply adds_ret].
    apply (adds_bind _ 0 0); [apply adds_get_product|]. budget.
Qed.

Lemma adds_get_findings (product_id : pyval) :
  adds_at_most P 0 (get_findings W product_id).
Proof. unfold get_findings, raise_for_status. budget. Qed.

(** [create_test]: one event at most, none if [P] holds of no test POST. *)
Lemma adds_create_test (eng : pyval) (tt env : reference) (start : string)
    (tend title : option string) :
  adds_at_most P 1 (create_test W eng tt env start tend title).
Proof.
  unfold create_test.
  apply (adds_bind _ 0 1); [apply adds_resolve_test_type|].
  intros [test_type_id|]; [|apply (adds_weaken _ 0 1); [lia | apply adds_ret]].
  apply (adds_bind _ 0 1); [apply adds_get_environment_id|].
  intros environment_id. destruct (negb (truthy environment_id)).
  - apply (adds_weaken _ 0 1); [lia|]. budget.
  - apply (adds_bind _ 0 1); [apply adds_logger|]. intros _.
    apply (adds_bind _ 0 1); [apply adds_logger|]. intros _.
    apply (adds_bind _ 1 0); [apply adds_http|]. budget.
Qed.

Lemma adds_create_test_other (eng : pyval) (tt env : reference) (start : string)
    (tend title : option string) :
  (forall d o, P (EvHttp (mkRequest POST EpTests HdrJson d None) o) = false) ->
  adds_at_most P 0 (create_test W eng tt env start tend title).
Proof.
  intros Hother. unfold create_test.
  apply (adds_bind _ 0 0); [apply adds_resolve_test_type|].
  intros [test_type_id|]; [|apply adds_ret].
  apply (adds_bind _ 0 0); [apply adds_get_environment_id|]. budget.
Qed.

(** The upload block: two events at most, none if [P] holds of no upload. *)
Lemma adds_try_upload (file scan_type : string) (f : nat)
    (data : list (string * pyval)) (pname : pyval) :
  adds_at_most P 2 (try_upload W file scan_type f data pname).
Proof.
  unfold try_upload.
  apply (adds_bind _ 0 2); [apply adds_logger|]. intros _.
  apply (adds_bind _ 0 2); [apply adds_logger|]. intros _.
  apply (adds_bind _ 1 1); [apply adds_http|]. intros response.
  apply (adds_bind _ 0 1); [apply adds_logger|]. intros _.
  apply (adds_bind _ 0 1); [apply adds_logger|]. intros _.
  destruct (accepted response).
  { apply (adds_weaken _ 0 1); [lia|]. budget. }
  apply (adds_bind _ 0 1); [apply adds_logger|]. intros _.
  destruct (str_contains _ _ && _); [|apply (adds_weaken _ 0 1); [lia | apply adds_ret]].
  apply (adds_bind _ 0 1); [apply adds_logger|]. intros _.
  apply (adds_bind _ 0 1); [apply adds_open; assumption|]. intros f2.
  apply (adds_bind _ 1 0); [apply adds_http|]. budget.
Qed.

Lemma adds_try_upload_other (file scan_type : string) (f : nat)
    (data : list (string * pyval)) (pname : pyval) :
  (forall d h o, P (EvHttp (upload_request d h) o) = false) ->
  adds_at_most P 0 (try_upload W file scan_type f data pname).
Proof. intros Hother. unfold try_upload. budget. Qed.

Lemma adds_upload_findings (n : nat) (tid : pyval) (file scan_type : string)
    (close_old push : bool) (eng pid pname : pyval) :
  (forall f data pname', adds_at_most P n (try_upload W file scan_type f data pname')) ->
  adds_at_most P n (upload_findings W tid file scan_type close_old push eng pid pname).
Proof.
  intros Htry. unfold upload_findings.
  apply (adds_bind _ 0 n); [apply adds_logger|]. intros _.
  destruct (negb (isfile W file)).
  { apply (adds_weaken _ 0 n); [lia|]. budget. }
  apply (adds_bind _ 0 n); [apply adds_product_from_engagement|]. intros p.
  apply (adds_bind _ 0 n); [apply adds_open; assumption|]. intros f.
  replace n with (n + 0)%nat by lia.
  apply (adds_bind _ n 0).
  - replace n with (n + 0)%nat by lia. apply adds_try; [apply Htry|]. budget.
  - budget.
Qed.

Lemma adds_scan_and_import (a b : nat) (eng : pyval) (tt env : reference)
    (file scan_type : string) (close_old push : bool) (build branch : option string)
    (pid pname : pyval) :
  (forall start tend title, adds_at_most P a (create_test W eng tt env start tend title)) ->
  (forall tid,
      adds_at_most P b
        (upload_findings W tid file scan_type close_old push eng pid pname)) ->
  adds_at_most P (a + b)
    (scan_and_import W eng tt file scan_type env close_old push build branch pid pname).
Proof.
  intros Hcreate Hupload. unfold scan_and_import.
  apply adds_bind; [apply Hcreate|]. intros test.
  destruct (negb (truthy test)).
  { apply (adds_weaken _ 0 b); [lia | apply adds_ret]. }
  apply (adds_bind _ 0 b); [apply adds_lift|]. intros tid.
  replace b with (b + 0)%nat by lia.
  apply adds_bind; [apply Hupload|]. budget.
Qed.

End Reads.

Lemma is_test_post_get ep h d f o :
  is_test_post (EvHttp (mkRequest GET ep h d f) o) = false.
Proof. reflexivity. Qed.

Lemma is_upload_post_get ep h d f o :
  is_upload_post (EvHttp (mkRequest GET ep h d f) o) = false.
Proof. reflexivity. Qed.

Lemma is_other_post_get ep h d f o :
  is_other_post (EvHttp (mkRequest GET ep h d f) o) = false.
Proof. reflexivity. Qed.

(** X9: Whatever the service answers and whatever the arguments are, one call of
    [scan_and_import] adds to the trace at most one test-creation POST, at
    most two upload POSTs, and no other POST; [upload_findings] alone adds at
    most two upload POSTs and no other POST. *)
Theorem post_budget
    (W : world) (eng : pyval) (tt env : reference) (file scan_type : string)
    (close_old push : bool) (build branch : option string) (pid pname tid : pyval)
    (st : state) :
  ((occurrences is_test_post
      (trace (snd (scan_and_import W eng tt file scan_type env close_old push build
                     branch pid pname st)))
    <= occurrences is_test_post (trace st) + 1)%nat
   /\ (occurrences is_upload_post
         (trace (snd (scan_and_import W eng tt file scan_type env close_old push build
                        branch pid pname st)))
       <= occurrences is_upload_post (trace st) + 2)%nat
   /\ (occurrences is_other_post
         (trace (snd (scan_and_import W eng tt file scan_type env close_old push build
                        branch pid pname st)))
       <= occurrences is_other_post (trace st))%nat)
  /\ ((occurrences is_upload_post
         (trace (snd (upload_findings W tid file scan_type close_old push eng pid
                        pname st)))
       <= occurrences is_upload_post (trace st) + 2)%nat
      /\ (occurrences (fun e => is_post e && negb (is_upload_post e))
            (trace (snd (upload_findings W tid file scan_type close_old push eng pid
                           pname st)))
          <= occurrences (fun e => is_post e && negb (is_upload_post e)) (trace st))%nat).
Proof.
  split; [split; [|split]|split].
  - apply (adds_scan_and_import is_test_post W 1 0); intros.
    + apply adds_create_test; intros; reflexivity.
    + apply adds_upload_findings; try solve [intros; reflexivity].
      intros. apply adds_try_upload_other; intros; reflexivity.
  - apply (adds_scan_and_import is_upload_post W 0 2); intros.
    + apply adds_create_test_other; intros; reflexivity.
    + apply adds_upload_findings; try solve [intros; reflexivity].
      intros. apply adds_try_upload; intros; reflexivity.
  - rewrite <- (Nat.add_0_r (occurrences is_other_post (trace st))).
    apply (adds_scan_and_import is_other_post W 0 0); intros.
    + apply adds_create_test_other; intros; reflexivity.
    + apply adds_upload_findings; try solve [intros; reflexivity].
      intros. apply adds_try_upload_other; intros; reflexivity.
  - apply adds_upload_findings; try solve [intros; reflexivity].
    intros. apply adds_try_upload; intros; reflexivity.
  - rewrite <- (Nat.add_0_r (occurrences _ (trace st))).
    apply adds_upload_findings; try solve [intros; reflexivity].
    intros. apply adds_try_upload_other; intros; reflexivity.
Qed.

(** X10: The lookups, the resolution and the findings fetch are read-only: none
    of them adds a POST to the trace, and [check_thresholds] makes no call at
    all. *)
Theorem lookups_are_read_only (W : world) :
  (forall r, adds_at_most is_post 0 (get_environment_id W r))
  /\ (forall r, adds_at_most is_post 0 (resolve_test_type W r))
  /\ (forall eng pid pname,
         adds_at_most is_post 0 (product_from_engagement W eng pid pname))
  /\ (forall product_id, adds_at_most is_post 0 (get_findings W product_id))
  /\ (forall findings_data st, trace (snd (check_thresholds findings_data st)) = trace st).
Proof.
  repeat split; intros.
  - apply adds_get_environment_id; intros; reflexivity.
  - apply adds_resolve_test_type; intros; reflexivity.
  - apply adds_product_from_engagement; intros; reflexivity.
  - apply adds_get_findings; intros; reflexivity.
  - unfold check_thresholds, bind, lift, logger, ret.
    destruct (get findings_data "results" (PList [])) as [results|e]; [|reflexivity].
    destruct (iter results) as [findings|e]; [|reflexivity].
    destruct (count_findings findings _); reflexivity.
Qed.

(** ** Product metadata *)



Example product_found :
  fst (product_from_engagement demo (PInt 1) PNone PNone init)
  = Ok (PInt 5, PStr "Shop")
  /\ fst (product_from_engagement product_down (PInt 1) PNone PNone init)
     = Ok (PInt 5, PNone)
  /\ fst (product_from_engagement forbidden_listing (PInt 1) (PInt 9) PNone init)
     = Ok (PInt 9, PNone).
Proof. repeat split; reflexivity. Qed.

(** ** Malformed answers *)

(** X12: [scan_and_import] reads [test['id']], [import_result['id']] and
    [test['title']] without a guard: a created test without an id raises
    before any upload is attempted, and an import result without an id, or a
    test without a title, raises after the upload was accepted, so that no
    result object is returned. *)
Theorem missing_fields_raise
    (W : world) (eng : pyval) (tt env : reference) (file scan_type : string)
    (close_old push : bool) (build branch : option string) (pid pname : pyval)
    (st st1 : state) (test : pyval) :
  create_test W eng tt env (today W) None (Some (scan_title tt build branch)) st
  = (Ok test, st1) ->
  truthy test = true ->
  (forall e, getitem test "id" = Raise e ->
             scan_and_import W eng tt file scan_type env close_old push build branch
               pid pname st = (Raise e, st1))
  /\ (forall tid import_result st2,
         getitem test "id" = Ok tid ->
         upload_findings W tid file scan_type close_old push eng pid pname st1
         = (Ok import_result, st2) ->
         truthy import_result = true ->
         (forall e, getitem import_result "id" = Raise e ->
                    scan_and_import W eng tt file scan_type env close_old push build
                      branch pid pname st = (Raise e, st2))
         /\ (forall e import_id,
                getitem import_result "id" = Ok import_id ->
                getitem test "title" = Raise e ->
                scan_and_import W eng tt file scan_type env close_old push build
                  branch pid pname st = (Raise e, st2))).
Proof.
  intros Hcreate Htest. split.
  - intros e Hid. unfold scan_and_import. unfold bind at 1.
    rewrite Hcreate, Htest. cbn [negb]. unfold bind at 1, lift at 1. now rewrite Hid.
  - intros tid import_result st2 Hid Hup Himp.
    rewrite (scan_and_import_created W eng tt env file scan_type close_old push
               build branch pid pname st st1 test tid Hcreate Htest Hid), Hup, Himp.
    split.
    + intros e He. now rewrite He.
    + intros e import_id Hi He. now rewrite Hi, He.
Qed.

Lemma missing_fields_raise_witness :
  (create_test (world_of (fun _ _ => replies 201 "" (PDict [("title", PStr "t")]))
                  accepts_upload)
     PNone (RInt 7) (RInt 3) "2024-05-01" None (Some (scan_title (RInt 7) None None)) init
   = (Ok (PDict [("title", PStr "t")]),
      snd (create_test (world_of (fun _ _ => replies 201 "" (PDict [("title", PStr "t")]))
                          accepts_upload)
             PNone (RInt 7) (RInt 3) "2024-05-01" None
             (Some (scan_title (RInt 7) None None)) init)))
  /\ fst (scan_and_import
            (world_of (fun _ _ => replies 201 "" (PDict [("title", PStr "t")]))
               accepts_upload)
            PNone (RInt 7) "report.xml" "ZAP Scan" (RInt 3) false false None None
            PNone PNone init) = Raise KeyError.
Proof.
  split; [reflexivity|].
  rewrite (proj1 (missing_fields_raise
                    (world_of (fun _ _ => replies 201 "" (PDict [("title", PStr "t")]))
                       accepts_upload)
                    PNone (RInt 7) (RInt 3) "report.xml" "ZAP Scan" false false None None
                    PNone PNone init _ (PDict [("title", PStr "t")]) eq_refl eq_refl)
             KeyError eq_refl).
  reflexivity.
Defined.

(** ** The evaluator, further *)

Lemma count_finding_valid (f : pyval) (c : counters) :
  valid_finding f = true ->
  count_finding f c =
  Ok (mkCounters
        (critical_count c + (if counts_as "critical" f then 1 else 0))
        (high_count c + (if counts_as "high" f then 1 else 0))
        (medium_count c + (if counts_as "medium" f then 1 else 0))).
Proof.
  destruct c as [cc hc mc]. destruct f as [| | | | |d]; try discriminate.
  unfold valid_finding, count_finding, counts_as. cbn [get py_lower critical_count
    high_count medium_count].
  destruct (lookup "severity" d) as [[| | |s| |]|]; try discriminate; intros _;
    cbn [py_lower].
  - destruct (truthy _); cbn [negb andb].
    + now rewrite !Nat.add_0_r.
    + destruct (lower s =? "critical")%string eqn:Ec.
      { apply String.eqb_eq in Ec. rewrite Ec. cbn. f_equal. f_equal; lia. }
      destruct (lower s =? "high")%string eqn:Eh.
      { apply String.eqb_eq in Eh. rewrite Eh. cbn. f_equal. f_equal; lia. }
      destruct (lower s =? "medium")%string eqn:Em.
      { f_equal. f_equal; lia. }
      f_equal. f_equal; lia.
  - cbn. rewrite andb_false_r. destruct (truthy _); now rewrite !Nat.add_0_r.
Qed.

Lemma count_finding_invalid (f : pyval) (c : counters) :
  valid_finding f = false -> count_finding f c = Raise AttributeError.
Proof.
  destruct f as [| | | | |d]; try reflexivity.
  unfold valid_finding, count_finding. cbn [get].
  destruct (lookup "severity" d) as [[| | |s| |]|]; try discriminate; reflexivity.
Qed.

Lemma count_findings_characterised (fs : list pyval) (c : counters) :
  count_findings fs c =
  if forallb valid_finding fs then
    Ok (mkCounters (critical_count c + how_many "critical" fs)
          (high_count c + how_many "high" fs)
          (medium_count c + how_many "medium" fs))
  else Raise AttributeError.
Proof.
  revert c. induction fs as [|f fs IH]; intros c; cbn [count_findings forallb].
  - unfold how_many. cbn. rewrite !Nat.add_0_r. now destruct c.
  - destruct (valid_finding f) eqn:Hv.
    + rewrite (count_finding_valid f c Hv), IH. cbn [andb].
      destruct (forallb valid_finding fs); [|reflexivity].
      unfold how_many. cbn [filter critical_count high_count medium_count].
      destruct (counts_as "critical" f), (counts_as "high" f), (counts_as "medium" f);
        cbn [List.length]; f_equal; f_equal; lia.
    + now rewrite (count_finding_invalid f c Hv).
Qed.

Lemma tally_characterised_general
    (d : list (string * pyval)) (fs : list pyval) (st : state) :
  lookup "results" d = Some (PList fs) ->
  fst (check_thresholds (PDict d) st) =
  if forallb valid_finding fs then
    Ok (check_counts (mkCounters (how_many "critical" fs) (how_many "high" fs)
                        (how_many "medium" fs)))
  else Raise AttributeError.
Proof.
  intros Hres. rewrite check_thresholds_result. unfold tally. cbn [get]. rewrite Hres.
  cbn [iter]. rewrite count_findings_characterised.
  destruct (forallb valid_finding fs); reflexivity.
Qed.

(** X13: The counters the evaluator reaches are, for each of the three
    severities, the number of records of that severity (up to case) that are
    not flagged false positive; records of any other severity count nowhere.
    One record that is not an object, or whose severity is not a string,
    makes the whole evaluation raise [AttributeError]. *)
Theorem tally_characterised
    (d : list (string * pyval)) (fs : list pyval) (st : state) :
  lookup "results" d = Some (PList fs) ->
  fst (check_thresholds (PDict d) st) =
  if forallb valid_finding fs then
    Ok (check_counts (mkCounters (how_many "critical" fs) (how_many "high" fs)
                        (how_many "medium" fs)))
  else Raise AttributeError.
Proof.
  intros Hres. rewrite check_thresholds_result. unfold tally. cbn [get]. rewrite Hres.
  cbn [iter]. rewrite count_findings_characterised.
  destruct (forallb valid_finding fs); reflexivity.
Qed.

Lemma tally_characterised_witness :
  lookup "results"
    [("count", PInt 3);
     ("results", PList [finding "HIGH" false; finding "Critical" true; PInt 7])]
  = Some (PList [finding "HIGH" false; finding "Critical" true; PInt 7])
  /\ fst (check_thresholds
            (PDict [("count", PInt 3);
                    ("results",
                      PList [finding "HIGH" false; finding "Critical" true; PInt 7])])
            init)
     = Raise AttributeError.
Proof.
  split; [reflexivity|].
  apply (tally_characterised
           [("count", PInt 3);
            ("results", PList [finding "HIGH" false; finding "Critical" true; PInt 7])]
           [finding "HIGH" false; finding "Critical" true; PInt 7] init).
  reflexivity.
Defined.

Lemma how_many_perm (sev : string) (fs gs : list pyval) :
  Permutation fs gs -> how_many sev fs = how_many sev gs.
Proof.
  induction 1 as [|x l l' _ IH|x y l|l l' l'' _ IH1 _ IH2]; unfold how_many in *; cbn.
  - reflexivity.
  - destruct (counts_as sev x); cbn; now rewrite IH.
  - destruct (counts_as sev x), (counts_as sev y); reflexivity.
  - congruence.
Qed.

Lemma forallb_perm (fs gs : list pyval) :
  Permutation fs gs -> forallb valid_finding fs = forallb valid_finding gs.
Proof.
  induction 1 as [|x l l' _ IH|x y l|l l' l'' _ IH1 _ IH2]; cbn.
  - reflexivity.
  - now rewrite IH.
  - destruct (valid_finding x), (valid_finding y); reflexivity.
  - congruence.
Qed.

(** X14: The verdict does not depend on the order in which the findings are
    served. *)
Theorem verdict_ignores_order
    (d d' : list (string * pyval)) (fs gs : list pyval) (st : state) :
  lookup "results" d = Some (PList fs) ->
  lookup "results" d' = Some (PList gs) ->
  Permutation fs gs ->
  fst (check_thresholds (PDict d) st) = fst (check_thresholds (PDict d') st).
Proof.
  intros Hd Hd' H.
  rewrite (tally_characterised_general d fs st Hd),
    (tally_characterised_general d' gs st Hd').
  now rewrite (forallb_perm fs gs H), !(how_many_perm _ fs gs H).
Qed.

Lemma verdict_ignores_order_witness :
  Permutation [finding "High" false; finding "Critical" false]
    [finding "Critical" false; finding "High" false]
  /\ fst (check_thresholds
            (findings_body [finding "High" false; finding "Critical" false]) init)
     = fst (check_thresholds
              (findings_body [finding "Critical" false; finding "High" false]) init).
Proof.
  split; [apply perm_swap|].
  apply (verdict_ignores_order
           [("results", PList [finding "High" false; finding "Critical" false])]
           [("results", PList [finding "Critical" false; finding "High" false])]
           [finding "High" false; finding "Critical" false]
           [finding "Critical" false; finding "High" false] init eq_refl eq_refl).
  apply perm_swap.
Defined.

Lemma how_many_app (sev : string) (fs gs : list pyval) :
  how_many sev (fs ++ gs) = (how_many sev fs + how_many sev gs)%nat.
Proof. unfold how_many. now rewrite filter_app, length_app. Qed.

(** X15: More findings never turn a failing verdict into a passing one: if
    the gate fails on some findings, it fails on any larger set it can
    evaluate. *)
Theorem more_findings_never_pass
    (d d' : list (string * pyval)) (fs gs : list pyval) (st : state)
    (reasons reasons' : list string) (failed' : bool) :
  lookup "results" d = Some (PList fs) ->
  lookup "results" d' = Some (PList (fs ++ gs)) ->
  fst (check_thresholds (PDict d) st) = Ok (true, reasons) ->
  fst (check_thresholds (PDict d') st) = Ok (failed', reasons') ->
  failed' = true.
Proof.
  intros Hd Hd'.
  rewrite (tally_characterised_general d fs st Hd),
    (tally_characterised_general d' (fs ++ gs) st Hd'), forallb_app.
  destruct (forallb valid_finding fs); [|discriminate].
  destruct (forallb valid_finding gs); [|discriminate]. cbn [andb].
  rewrite !check_counts_rules, !how_many_app. cbn [critical_count high_count medium_count].
  intros [= Hfail _] [= <- _].
  apply orb_true_iff in Hfail as [Hfail | Hm].
  - apply orb_true_iff in Hfail as [Hc | Hh].
    + apply Nat.ltb_lt in Hc.
      assert (H : (0 <? how_many "critical" fs + how_many "critical" gs)%nat = true)
        by (apply Nat.ltb_lt; lia).
      now rewrite H.
    + apply Nat.ltb_lt in Hh.
      assert (H : (2 <? how_many "high" fs + how_many "high" gs)%nat = true)
        by (apply Nat.ltb_lt; lia).
      rewrite H. now rewrite orb_true_r.
  - apply Nat.ltb_lt in Hm.
    assert (H : (10 <? how_many "medium" fs + how_many "medium" gs)%nat = true)
      by (apply Nat.ltb_lt; lia).
    rewrite H. now rewrite orb_true_r.
Qed.

Lemma more_findings_never_pass_witness :
  fst (check_thresholds (findings_body [finding "Critical" false]) init)
  = Ok (true, ["Found 1 critical findings (threshold: 0)"])
  /\ true = true.
Proof.
  split; [reflexivity|].
  apply (more_findings_never_pass
           [("results", PList [finding "Critical" false])]
           [("results", PList ([finding "Critical" false] ++ [finding "Low" false]))]
           [finding "Critical" false] [finding "Low" false]
           init ["Found 1 critical findings (threshold: 0)"]
           ["Found 1 critical findings (threshold: 0)"] true);
    reflexivity.
Defined.

(** ** Fetching the findings and ending the gate *)

(** X16: [get_findings] makes one GET and either returns the parsed body of an
    answer whose status is not 4xx or 5xx, or logs one error and exits: a
    failed call, an error status and a body that is not JSON all end in
    [SystemExit], never in another exception. *)
Theorem fetch_or_exit (W : world) (product_id : pyval) (st : state) :
  trace (snd (get_findings W product_id st)) =
  (trace st ++ [EvHttp (findings_request product_id)
                  (server W (trace st) (findings_request product_id))])%list
  /\ match server W (trace st) (findings_request product_id) with
     | Responds r =>
         if error_status r then
           fst (get_findings W product_id st) = Raise SystemExit
         else
           match body r with
           | Some v => get_findings W product_id st
                       = (Ok v, mkState (trace st ++ [EvHttp (findings_request product_id)
                                                         (Responds r)]) (log st))
           | None => fst (get_findings W product_id st) = Raise SystemExit
           end
     | TransportError => fst (get_findings W product_id st) = Raise SystemExit
     end.
Proof.
  split; [apply get_findings_trace|].
  unfold get_findings, try_except, bind, http, raise_for_status, json, logger, raise,
    ret, error_status. fold (findings_request product_id).
  destruct (server W (trace st) (findings_request product_id)) as [r|]; cbn;
    [|reflexivity].
  destruct ((400 <=? status_code r) && (status_code r <? 600)); cbn; [reflexivity|].
  destruct (body r); reflexivity.
Qed.

(** X17: A findings body without a [results] field passes the gate: it is
    evaluated as no finding at all. *)
Theorem body_without_results_passes (d : list (string * pyval)) (st : state) :
  lookup "results" d = None ->
  fst (check_thresholds (PDict d) st) = Ok (false, []).
Proof.
  intros H. rewrite check_thresholds_result. unfold tally. cbn [get]. rewrite H.
  reflexivity.
Qed.

Lemma body_without_results_passes_witness :
  lookup "results" [("detail", PStr "Invalid token.")] = None
  /\ fst (check_thresholds (PDict [("detail", PStr "Invalid token.")]) init)
     = Ok (false, []).
Proof.
  split; [reflexivity|].
  apply (body_without_results_passes [("detail", PStr "Invalid token.")] init).
  reflexivity.
Defined.

Lemma log_reasons_state (reasons : list string) (st : state) :
  log_reasons reasons st =
  (Ok tt,
   mkState (trace st)
     (log st ++ map (fun reason => (ERROR, [Lit "- "; Val (PStr reason)])) reasons)).
Proof.
  revert st. induction reasons as [|r rs IH]; intros st; cbn.
  - rewrite app_nil_r. now destruct st.
  - unfold bind, logger. rewrite IH. cbn. now rewrite <- app_assoc.
Qed.

(** X18: The gate script ends with status 0 exactly when the findings were
    fetched and the evaluation returned a verdict that did not fail; in every
    other case (fetch failure, malformed body, a violated threshold) the
    status is 1.  When it fails on thresholds, its log ends with the header
    line followed by one error record per reason, in order. *)
Theorem gate_exit_status (W : world) (url : string) (product : pyval) (st : state) :
  (exit_status (fst (gate_main W url product st)) = 0
   \/ exit_status (fst (gate_main W url product st)) = 1)
  /\ (exit_status (fst (gate_main W url product st)) = 0 <->
      exists findings_data st1 reasons st2,
        get_findings W product
          (snd (logger INFO [Lit "Fetching findings from DefectDojo API at ";
                             Val (PStr url)] st))
        = (Ok findings_data, st1)
        /\ check_thresholds findings_data st1 = (Ok (false, reasons), st2))
  /\ (forall findings_data st1 reasons st2,
         get_findings W product
           (snd (logger INFO [Lit "Fetching findings from DefectDojo API at ";
                              Val (PStr url)] st))
         = (Ok findings_data, st1) ->
         check_thresholds findings_data st1 = (Ok (true, reasons), st2) ->
         gate_main W url product st =
         (Exit 1,
          mkState (trace st2)
            (log st2
             ++ (ERROR, [Lit "Pipeline check FAILED due to the following reasons:"])
                :: map (fun reason => (ERROR, [Lit "- "; Val (PStr reason)])) reasons))).
Proof.
  unfold gate_main. cbn [logger snd].
  set (st0 := mkState (trace st) (log st ++ _)).
  destruct (get_findings W product st0) as [[findings_data|e] st1] eqn:Hget.
  - destruct (check_thresholds findings_data st1) as [[[failed reasons]|e] st2] eqn:Hchk.
    + destruct failed; cbn [logger].
      * rewrite log_reasons_state. cbn [fst exit_status trace log].
        split; [now right|]. split.
        -- split; [discriminate|]. intros (fd & s1 & rs & s2 & H1 & H2).
           injection H1 as <- <-. rewrite Hchk in H2. discriminate.
        -- intros fd s1 rs s2 H1 H2. injection H1 as <- <-. rewrite Hchk in H2.
           injection H2 as <- <-. now rewrite <- app_assoc.
      * cbn [fst exit_status]. split; [now left|]. split.
        -- split; [|reflexivity]. intros _. exists findings_data, st1, reasons, st2.
           split; [reflexivity | exact Hchk].
        -- intros fd s1 rs s2 H1 H2. injection H1 as <- <-. rewrite Hchk in H2.
           discriminate.
    + cbn [fst exit_status]. split; [now right|]. split.
      * split; [discriminate|]. intros (fd & s1 & rs & s2 & H1 & H2).
        injection H1 as <- <-. rewrite Hchk in H2. discriminate.
      * intros fd s1 rs s2 H1 H2. injection H1 as <- <-. rewrite Hchk in H2.
        discriminate.
  - assert (Hone : exit_status
                     (fst (match e with
                           | SystemExit => (Exit 1, st1)
                           | _ => (Uncaught e, st1)
                           end)) = 1) by (destruct e; reflexivity).
    split; [right; destruct e; reflexivity|]. split.
    + split.
      * intros H. destruct e; discriminate.
      * intros (fd & s1 & rs & s2 & H1 & _). discriminate.
    + intros fd s1 rs s2 H1. discriminate.
Qed.

Example gate_passes :
  fst (gate_main
         (findings_world
            (replies 200 ""
               (findings_body (finding "Critical" true :: repeat (finding "High" false) 2))))
         "https://dojo.example.com" (PInt 4) init) = Exit 0.
Proof. reflexivity. Qed.

Example gate_fails :
  fst (gate_main
         (findings_world (replies 200 "" (findings_body [finding "critical" false])))
         "https://dojo.example.com" PNone init) = Exit 1
  /\ fst (gate_main (findings_world (Responds (mkResponse 401 "Unauthorized" None)))
            "https://dojo.example.com" PNone init) = Exit 1
  /\ fst (gate_main (findings_world (replies 200 "" (PList [])))
            "https://dojo.example.com" PNone init) = Uncaught AttributeError.
Proof. repeat split; reflexivity. Qed.

(** ** Hosts *)

Lemma rstrip_slash_slashes (n : nat) : rstrip_slash (slashes n) = EmptyString.
Proof. induction n as [|n IH]; cbn; [reflexivity|]. now rewrite IH. Qed.

Lemma rstrip_slash_decompose (s : string) :
  exists n, s = rstrip_slash s ++ slashes n.
Proof.
  induction s as [|c s [n IH]].
  - exists 0%nat. reflexivity.
  - cbn [rstrip_slash]. destruct (rstrip_slash s) as [|c' r'] eqn:E.
    + destruct (Ascii.eqb c "/") eqn:Ec.
      * apply Ascii.eqb_eq in Ec. subst c. exists (S n). cbn. now rewrite IH at 1.
      * exists n. cbn. now rewrite IH at 1.
    + exists n. cbn. now rewrite IH at 1.
Qed.

Lemma rstrip_slash_clean (s : string) : endswith_slash (rstrip_slash s) = false.
Proof.
  induction s as [|c s IH]; [reflexivity|].
  cbn [rstrip_slash]. destruct (rstrip_slash s) as [|c' r'] eqn:E.
  - destruct (Ascii.eqb c "/") eqn:Ec; [reflexivity|]. cbn. exact Ec.
  - exact IH.
Qed.

Lemma rstrip_slash_fixed (s : string) :
  endswith_slash s = false -> rstrip_slash s = s.
Proof.
  induction s as [|c s IH]; [reflexivity|].
  cbn [endswith_slash rstrip_slash]. destruct s as [|c' s'].
  - intros H. cbn. now rewrite H.
  - intros H. rewrite (IH H). reflexivity.
Qed.

(** X19: [__init__] raises [ValueError], without any request, when the key is
    missing or empty or the host is missing, empty or made of slashes only.
    Otherwise it makes exactly one call, the GET of the users endpoint, and
    the client exists only if that call is answered 200; any other status
    and a failed call give [ConnectionError].  The host the client keeps is
    the given one without its trailing slashes. *)
Theorem client_construction
    (W : world) (api_key host : option string) (st : state) :
  (given api_key = false
   \/ given host = false
   \/ (exists h, host = Some h /\ rstrip_slash h = EmptyString) ->
   fst (init_client W api_key host st) = ValueError
   /\ trace (snd (init_client W api_key host st)) = trace st)
  /\ (forall k h,
         api_key = Some k -> k <> EmptyString ->
         host = Some h -> rstrip_slash h <> EmptyString ->
         trace (snd (init_client W api_key host st)) =
         (trace st ++ [EvHttp users_request (server W (trace st) users_request)])%list
         /\ fst (init_client W api_key host st) =
            match server W (trace st) users_request with
            | Responds r =>
                if status_code r =? 200 then Constructed k (rstrip_slash h)
                else ConnectionError
            | TransportError => ConnectionError
            end
         /\ endswith_slash (rstrip_slash h) = false
         /\ exists n, h = rstrip_slash h ++ slashes n).
Proof.
  split.
  - intros Hcase. unfold init_client.
    assert (Hbad : negb (given api_key)
                   || negb (given (if given host
                                   then Some (rstrip_slash match host with
                                                           | Some h => h
                                                           | None => ""
                                                           end)
                                   else None)) = true).
    { destruct Hcase as [H | [H | (h & -> & H)]].
      - now rewrite H.
      - rewrite H. cbn. apply orb_true_r.
      - cbn [given]. destruct (negb (h =? "")%string); cbn; rewrite ?H;
          apply orb_true_r. }
    rewrite Hbad. split; reflexivity.
  - intros k h -> Hk -> Hh.
    assert (Hgk : given (Some k) = true).
    { cbn. destruct (k =? "")%string eqn:E; [|reflexivity].
      apply String.eqb_eq in E. contradiction. }
    assert (Hgh : given (Some h) = true).
    { cbn. destruct (h =? "")%string eqn:E; [|reflexivity].
      apply String.eqb_eq in E. subst h. contradiction Hh. reflexivity. }
    assert (Hgr : given (Some (rstrip_slash h)) = true).
    { cbn. destruct (rstrip_slash h =? "")%string eqn:E; [|reflexivity].
      apply String.eqb_eq in E. contradiction. }
    unfold init_client. rewrite Hgh, Hgk, Hgr. cbn [negb orb].
    unfold test_connection, try_except, bind, http, logger, ret.
    fold users_request.
    split; [|split; [|split; [apply rstrip_slash_clean | apply rstrip_slash_decompose]]].
    + destruct (server W (trace st) users_request) as [r|]; cbn; [|reflexivity].
      destruct (status_code r =? 200); reflexivity.
    + destruct (server W (trace st) users_request) as [r|]; cbn; [|reflexivity].
      destruct (status_code r =? 200); reflexivity.
Qed.

Lemma client_construction_witness :
  (given (Some "token") = true /\ rstrip_slash "https://dojo.example.com//" <> EmptyString)
  /\ fst (init_client (users_world (replies 200 "" (PDict []))) (Some "token")
            (Some "https://dojo.example.com//") init)
     = Constructed "token" "https://dojo.example.com".
Proof.
  split; [split; [reflexivity | discriminate]|].
  exact (proj1 (proj2 (proj2 (client_construction
                                (users_world (replies 200 "" (PDict [])))
                                (Some "token") (Some "https://dojo.example.com//") init)
                         "token" "https://dojo.example.com//" eq_refl
                         ltac:(discriminate) eq_refl ltac:(discriminate)))).
Defined.

Example client_refused :
  fst (init_client (users_world (Responds (mkResponse 403 "Forbidden" None)))
         (Some "token") (Some "https://dojo.example.com") init) = ConnectionError
  /\ fst (init_client (users_world TransportError)
            (Some "token") (Some "https://dojo.example.com") init) = ConnectionError
  /\ fst (init_client demo (Some "token") (Some "///") init) = ValueError
  /\ fst (init_client demo None (Some "https://dojo.example.com") init) = ValueError.
Proof. repeat split; reflexivity. Qed.

Lemma endswith_slash_app (s t : string) :
  t <> EmptyString -> endswith_slash (s ++ t) = endswith_slash t.
Proof.
  intros Ht. induction s as [|c s IH]; [reflexivity|].
  cbn [append endswith_slash]. destruct (s ++ t) as [|c' r] eqn:E.
  - destruct s; cbn in E; [contradiction | discriminate].
  - exact IH.
Qed.

Lemma endswith_slash_decompose (s : string) :
  endswith_slash s = true -> exists a, s = a ++ "/".
Proof.
  induction s as [|c s IH]; [discriminate|].
  cbn [endswith_slash]. destruct s as [|c' s'].
  - intros H. apply Ascii.eqb_eq in H. subst c. exists EmptyString. reflexivity.
  - intros H. destruct (IH H) as [a Ha]. exists (String c a). cbn. now rewrite Ha.
Qed.

Lemma split_slash_nonempty (s : string) : split_slash s <> [].
Proof.
  induction s as [|c s IH]; cbn; [discriminate|].
  destruct (Ascii.eqb c "/"); [discriminate|].
  destruct (split_slash s); [contradiction | discriminate].
Qed.

Lemma split_slash_app (a b : string) :
  split_slash (a ++ String "/" b) = (split_slash a ++ split_slash b)%list.
Proof.
  induction a as [|c a IH]; [reflexivity|].
  cbn [append split_slash]. rewrite IH.
  destruct (Ascii.eqb c "/"); [reflexivity|].
  pose proof (split_slash_nonempty a) as Hne.
  destruct (split_slash a) as [|h t]; [contradiction | reflexivity].
Qed.

Lemma string_app_assoc (a b c : string) : (a ++ b) ++ c = a ++ (b ++ c).
Proof. induction a as [|x a IH]; cbn; [reflexivity|]. now rewrite IH. Qed.

Lemma among_app (x : string) (ps qs : list string) :
  among x (ps ++ qs) = among x ps || among x qs.
Proof. unfold among. apply existsb_app. Qed.

(** X20: The host the patched constructor keeps always ends with a slash and has
    a path segment [api] or [v2]; the suffix [api/v2/] is appended only when
    the host has neither segment; and patching a patched host changes
    nothing. *)
Theorem patched_host_normal (host : string) :
  endswith_slash (patched_host host) = true
  /\ among "api" (split_slash (patched_host host))
     || among "v2" (split_slash (patched_host host)) = true
  /\ patched_host (patched_host host) = patched_host host.
Proof.
  assert (Hfix : forall h,
             endswith_slash h = true ->
             among "api" (split_slash h) || among "v2" (split_slash h) = true ->
             patched_host h = h).
  { intros h He Ha. unfold patched_host. rewrite He. cbn [negb].
    apply orb_true_iff in Ha as [Ha | Ha]; rewrite Ha; cbn;
      rewrite ?andb_false_r; reflexivity. }
  assert (Hgoal : endswith_slash (patched_host host) = true
                  /\ among "api" (split_slash (patched_host host))
                     || among "v2" (split_slash (patched_host host)) = true).
  { unfold patched_host.
    set (h1 := if negb (endswith_slash host) then host ++ "/" else host).
    assert (H1 : endswith_slash h1 = true).
    { subst h1. destruct (endswith_slash host) eqn:E; cbn [negb]; [exact E|].
      rewrite endswith_slash_app; [reflexivity | discriminate]. }
    destruct (among "api" (split_slash h1)) eqn:Ha; cbn [negb andb].
    { split; [exact H1 | now rewrite Ha]. }
    destruct (among "v2" (split_slash h1)) eqn:Hv; cbn [negb andb].
    { split; [exact H1 | now rewrite Ha, Hv]. }
    split.
    - rewrite endswith_slash_app; [reflexivity | discriminate].
    - destruct (endswith_slash_decompose h1 H1) as [a ->].
      rewrite string_app_assoc. cbn [append]. rewrite split_slash_app, among_app.
      cbn. now rewrite orb_true_r. }
  destruct Hgoal as [He Ha]. split; [exact He|]. split; [exact Ha|].
  now apply Hfix.
Qed.

Example patched_hosts :
  patched_host "https://dojo.example.com" = "https://dojo.example.com/api/v2/"
  /\ patched_host "https://dojo.example.com/api/v2" = "https://dojo.example.com/api/v2/"
  /\ patched_host "https://dojo.example.com/v2" = "https://dojo.example.com/v2/"
  /\ patched_host "" = "/api/v2/".
Proof. repeat split; reflexivity. Qed.

(** ** The stand-alone import script *)

Lemma lookup_dict_set_other (k k' : string) (v : pyval) (d : list (string * pyval)) :
  (k' =? k)%string = false -> lookup k (dict_set k' v d) = lookup k d.
Proof.
  intros Hne. induction d as [|[k0 v0] d IH]; cbn.
  - now rewrite Hne.
  - destruct (k0 =? k')%string eqn:E; cbn.
    + apply String.eqb_eq in E. subst k0. now rewrite Hne.
    + destruct (k0 =? k)%string; [reflexivity | exact IH].
Qed.

Lemma lookup_copy_if_set (kwargs data : list (string * pyval)) (k k' : string) :
  lookup k (copy_if_set kwargs data k') =
  if (k' =? k)%string && truthy (kwargs_get kwargs k PNone)
  then Some (kwargs_get kwargs k PNone)
  else lookup k data.
Proof.
  unfold copy_if_set. destruct (k' =? k)%string eqn:E; cbn [andb].
  - apply String.eqb_eq in E. subst k'.
    destruct (truthy (kwargs_get kwargs k PNone)); [apply lookup_dict_set | reflexivity].
  - destruct (truthy (kwargs_get kwargs k' PNone)); [|reflexivity].
    now apply lookup_dict_set_other.
Qed.

Lemma lookup_copy_all (kwargs : list (string * pyval)) (keys : list string)
    (data : list (string * pyval)) (k : string) :
  lookup k (fold_left (copy_if_set kwargs) keys data) =
  if among k keys && truthy (kwargs_get kwargs k PNone)
  then Some (kwargs_get kwargs k PNone)
  else lookup k data.
Proof.
  revert data. induction keys as [|k' keys IH]; intros data; [reflexivity|].
  cbn [fold_left]. rewrite IH, lookup_copy_if_set. unfold among. cbn [existsb].
  fold (among k keys). destruct (among k keys); cbn [andb orb].
  - rewrite orb_true_r. cbn [andb].
    destruct (truthy (kwargs_get kwargs k PNone)); [reflexivity|].
    now rewrite andb_false_r.
  - rewrite orb_false_r. reflexivity.
Qed.

Lemma lookup_always_sent (k : string) (v1 v2 v3 v4 v5 : pyval) :
  among k always_sent = false ->
  lookup k [("scan_type", v1); ("active", v2); ("verified", v3);
            ("close_old_findings", v4); ("push_to_jira", v5)] = None.
Proof.
  unfold among, always_sent. cbn [existsb lookup].
  destruct ("scan_type" =? k)%string; [discriminate|].
  destruct ("active" =? k)%string; [discriminate|].
  destruct ("verified" =? k)%string; [discriminate|].
  destruct ("close_old_findings" =? k)%string; [discriminate|].
  destruct ("push_to_jira" =? k)%string; [discriminate | reflexivity].
Qed.

(** X21: The fields [import_scan] sends.  With an engagement given, the
    engagement is sent and none of the name-approach fields is, even if
    supplied; an optional field is sent only with a true value, so that an
    option given as [0], [''] or [False] is dropped; the four flags are sent
    as given, with their defaults when absent. *)
Theorem import_fields (scan_type : string) (kwargs : list (string * pyval)) :
  (truthy (kwargs_get kwargs "engagement" PNone) = true ->
   lookup "engagement" (import_data scan_type kwargs)
   = Some (kwargs_get kwargs "engagement" PNone)
   /\ forall k, In k name_approach -> lookup k (import_data scan_type kwargs) = None)
  /\ (forall k v,
         lookup k (import_data scan_type kwargs) = Some v ->
         among k always_sent = false ->
         truthy v = true /\ v = kwargs_get kwargs k PNone)
  /\ lookup "scan_type" (import_data scan_type kwargs) = Some (PStr scan_type)
  /\ lookup "active" (import_data scan_type kwargs)
     = Some (kwargs_get kwargs "active" (PBool true))
  /\ lookup "verified" (import_data scan_type kwargs)
     = Some (kwargs_get kwargs "verified" (PBool false)).
Proof.
  split; [|split; [|repeat split]].
  - intros Heng. unfold import_data. rewrite Heng. split.
    + rewrite lookup_copy_all. cbn [among existsb other_optional String.eqb Ascii.eqb
        Bool.eqb orb andb]. apply lookup_dict_set.
    + intros k Hk. rewrite lookup_copy_all.
      cbn in Hk. destruct Hk as [<- | [<- | [<- | [<- | [<- | []]]]]]; reflexivity.
  - intros k v. unfold import_data. rewrite lookup_copy_all.
    destruct (among k other_optional && truthy (kwargs_get kwargs k PNone)) eqn:Hopt.
    { intros [= <-] _. apply andb_prop in Hopt as [_ Ht]. now split. }
    destruct (truthy (kwargs_get kwargs "engagement" PNone)) eqn:Heng.
    + destruct ("engagement" =? k)%string eqn:E.
      * apply String.eqb_eq in E. subst k. rewrite lookup_dict_set.
        intros [= <-] _. now split.
      * rewrite (lookup_dict_set_other _ _ _ _ E). intros Hl Hbase. exfalso.
        rewrite (lookup_always_sent _ _ _ _ _ _ Hbase) in Hl. discriminate Hl.
    + rewrite lookup_copy_all.
      destruct (among k name_approach && truthy (kwargs_get kwargs k PNone)) eqn:Hname.
      { intros [= <-] _. apply andb_prop in Hname as [_ Ht]. now split. }
      intros Hl Hbase. exfalso.
      rewrite (lookup_always_sent _ _ _ _ _ _ Hbase) in Hl. discriminate Hl.
  - unfold import_data. rewrite lookup_copy_all.
    replace (among "scan_type" other_optional) with false by reflexivity. cbn [andb].
    destruct (truthy (kwargs_get kwargs "engagement" PNone)).
    + rewrite lookup_dict_set_other by reflexivity. reflexivity.
    + rewrite lookup_copy_all.
      replace (among "scan_type" name_approach) with false by reflexivity. reflexivity.
  - unfold import_data. rewrite lookup_copy_all.
    replace (among "active" other_optional) with false by reflexivity. cbn [andb].
    destruct (truthy (kwargs_get kwargs "engagement" PNone)).
    + rewrite lookup_dict_set_other by reflexivity. reflexivity.
    + rewrite lookup_copy_all.
      replace (among "active" name_approach) with false by reflexivity. reflexivity.
  - unfold import_data. rewrite lookup_copy_all.
    replace (among "verified" other_optional) with false by reflexivity. cbn [andb].
    destruct (truthy (kwargs_get kwargs "engagement" PNone)).
    + rewrite lookup_dict_set_other by reflexivity. reflexivity.
    + rewrite lookup_copy_all.
      replace (among "verified" name_approach) with false by reflexivity. reflexivity.
Qed.

Lemma import_fields_witness :
  truthy (kwargs_get [("engagement", PInt 4); ("product_name", PStr "Shop");
                      ("lead", PInt 0)] "engagement" PNone) = true
  /\ lookup "engagement"
       (import_data "ZAP Scan" [("engagement", PInt 4); ("product_name", PStr "Shop");
                                ("lead", PInt 0)])
     = Some (PInt 4)
  /\ lookup "product_name"
       (import_data "ZAP Scan" [("engagement", PInt 4); ("product_name", PStr "Shop");
                                ("lead", PInt 0)])
     = None.
Proof.
  split; [reflexivity|].
  pose proof (proj1 (import_fields "ZAP Scan"
                       [("engagement", PInt 4); ("product_name", PStr "Shop");
                        ("lead", PInt 0)]) eq_refl) as [H1 H2].
  split; [exact H1|]. apply H2. left. reflexivity.
Defined.

(** X22: [import_scan] makes one attempt and never raises on what the service
    answers: a path that is not a file gives [None] without any call; else
    the file is opened and posted once, the parsed body is returned when the
    answer is 200 or 201, and any other status or a failed call gives [None].
    There is no retry, whatever the answer says. *)
Theorem import_scan_single_attempt
    (W : world) (file scan_type : string) (debug : bool)
    (kwargs : list (string * pyval)) (st : state) :
  (isfile W file = false ->
   fst (import_scan W file scan_type debug kwargs st) = Ok PNone
   /\ trace (snd (import_scan W file scan_type debug kwargs st)) = trace st)
  /\ (isfile W file = true -> readable W file = true ->
      forall o,
        o = server W (trace st ++ [EvOpen (count_opens (trace st)) file])
              (upload_request (import_data scan_type kwargs) (count_opens (trace st))) ->
        trace (snd (import_scan W file scan_type debug kwargs st)) =
        (trace st ++
         [EvOpen (count_opens (trace st)) file;
          EvHttp (upload_request (import_data scan_type kwargs) (count_opens (trace st)))
            o])%list
        /\ (forall r v, o = Responds r -> accepted r = true -> body r = Some v ->
                        fst (import_scan W file scan_type debug kwargs st) = Ok v)
        /\ (attempt_failed o = true ->
            fst (import_scan W file scan_type debug kwargs st) = Ok PNone)).
Proof.
  split.
  - intros Hfile. unfold import_scan. rewrite Hfile. cbn [negb].
    unfold bind, logger, ret. split; reflexivity.
  - intros Hfile Hread o ->. unfold import_scan. rewrite Hfile. cbn [negb].
    unfold try_except, bind, logger, open_rb, http, json, ret, raise.
    cbn [trace log]. destruct debug; cbn [trace log]; rewrite Hread; cbn [trace log];
      (destruct (server W (trace st ++ [EvOpen (count_opens (trace st)) file])
                  (upload_request (import_data scan_type kwargs)
                     (count_opens (trace st)))) as [r|] eqn:Hsrv;
       cbn [trace log fst snd is_RequestException];
       [ destruct (accepted r) eqn:Hacc; cbn [trace log fst snd];
         [ destruct (body r) as [v|] eqn:Hbody;
           cbn [trace log fst snd is_RequestException];
           rewrite <- app_assoc; cbn [app];
           (split; [reflexivity|]); split;
           [ intros r' v' [= <-] _ Hb; congruence
           | cbn [attempt_failed]; rewrite Hacc; discriminate
           | intros r' v' [= <-] _ Hb; congruence
           | cbn [attempt_failed]; rewrite Hacc; discriminate ]
         | rewrite <- app_assoc; cbn [app]; (split; [reflexivity|]); split;
           [ intros r' v' [= <-] Ha; congruence | reflexivity ] ]
       | rewrite <- app_assoc; cbn [app]; (split; [reflexivity|]); split;
         [ intros r' v' H; discriminate H | reflexivity ] ]).
Qed.

Lemma import_scan_single_attempt_witness :
  (isfile demo "report.xml" = true
   /\ server demo ([] ++ [EvOpen 0%nat "report.xml"])
        (upload_request (import_data "ZAP Scan" [("engagement", PInt 4)]) 0)
      = replies 201 "" (PDict [("id", PInt 21); ("test", PInt 11)]))
  /\ fst (import_scan demo "report.xml" "ZAP Scan" false [("engagement", PInt 4)] init)
     = Ok (PDict [("id", PInt 21); ("test", PInt 11)]).
Proof.
  split; [split; reflexivity|].
  exact (proj1 (proj2 (proj2 (import_scan_single_attempt demo "report.xml" "ZAP Scan"
                                false [("engagement", PInt 4)] init)
                         eq_refl eq_refl _ eq_refl))
           (mkResponse 201 "" (Some (PDict [("id", PInt 21); ("test", PInt 11)])))
           (PDict [("id", PInt 21); ("test", PInt 11)]) eq_refl eq_refl eq_refl).
Defined.

(** With a service that asks for a product name, the stand-alone script
    fails where [scan_and_import] retries. *)
Example import_scan_does_not_retry :
  fst (import_scan (world_of creates_test wants_product_name) "report.xml" "ZAP Scan"
         false [("engagement", PInt 4)] init) = Ok PNone
  /\ List.length
       (posts (trace (snd (import_scan (world_of creates_test wants_product_name)
                             "report.xml" "ZAP Scan" false [("engagement", PInt 4)]
                             init)))) = 1%nat.
Proof. split; reflexivity. Qed.

(** X23: The import script ends with status 1, before any call, when neither an
    engagement nor a product name is given; and it ends with status 0 exactly
    when one of them is given and [import_scan] returned a non-empty JSON
    object.  Every other run ends with status 1. *)
Theorem import_exit_status
    (W : world) (file scan_type : string) (debug : bool)
    (kwargs : list (string * pyval)) (st : state) :
  (truthy (kwargs_get kwargs "engagement" PNone) = false ->
   truthy (kwargs_get kwargs "product_name" PNone) = false ->
   import_main W file scan_type debug kwargs st =
   (Exit 1,
    [(Stderr, [Lit "Error: Either --engagement or --product-name must be provided"])],
    st))
  /\ (exit_status (fst (fst (import_main W file scan_type debug kwargs st))) = 0
      \/ exit_status (fst (fst (import_main W file scan_type debug kwargs st))) = 1)
  /\ (exit_status (fst (fst (import_main W file scan_type debug kwargs st))) = 0 <->
      truthy (kwargs_get kwargs "engagement" PNone)
      || truthy (kwargs_get kwargs "product_name" PNone) = true
      /\ exists d st',
          import_scan W file scan_type debug kwargs st = (Ok (PDict d), st')
          /\ d <> []).
Proof.
  unfold import_main.
  destruct (truthy (kwargs_get kwargs "engagement" PNone)) eqn:Heng;
    destruct (truthy (kwargs_get kwargs "product_name" PNone)) eqn:Hname;
    cbn [negb andb orb].
  4:{ split; [reflexivity|]. split; [now right|]. split; [discriminate|].
      intros [H _]. discriminate. }
  all: split; [discriminate|].
  all: destruct (import_scan W file scan_type debug kwargs st) as [[result|e] st']
         eqn:Hrun; cbn [fst exit_status];
       [|split; [now right|]; split; [discriminate|];
         intros [_ (d & s' & H & _)]; discriminate].
  all: destruct (truthy result) eqn:Htrue; cbn [fst exit_status];
       [|split; [now right|]; split; [discriminate|];
         intros [_ (d & s' & H & Hd)]; injection H as -> ->;
         destruct d; [contradiction | discriminate Htrue]].
  all: destruct result as [| | | | |d]; cbn [get fst exit_status];
       try (split; [now right|]; split; [discriminate|];
            intros [_ (d' & s' & H & _)]; discriminate).
  all: split; [now left|]; split; [|reflexivity]; intros _; split; [reflexivity|];
       exists d, st'; split; [reflexivity|]; destruct d; [discriminate | discriminate].
Qed.

Lemma import_exit_status_witness :
  (truthy (kwargs_get [("minimum_severity", PStr "High")] "engagement" PNone) = false
   /\ truthy (kwargs_get [("minimum_severity", PStr "High")] "product_name" PNone) = false)
  /\ import_main demo "report.xml" "ZAP Scan" false [("minimum_severity", PStr "High")] init
     = (Exit 1,
        [(Stderr, [Lit "Error: Either --engagement or --product-name must be provided"])],
        init).
Proof.
  split; [split; reflexivity|].
  exact (proj1 (import_exit_status demo "report.xml" "ZAP Scan" false
                  [("minimum_severity", PStr "High")] init) eq_refl eq_refl).
Defined.

Example import_main_runs :
  fst (fst (import_main demo "report.xml" "ZAP Scan" false [("engagement", PInt 4)] init))
  = Exit 0
  /\ fst (fst (import_main stubborn "report.xml" "ZAP Scan" false
                 [("product_name", PStr "Shop")] init)) = Exit 1
  /\ fst (fst (import_main
                 (world_of creates_test (fun _ _ => replies 200 "" (PList [PInt 1])))
                 "report.xml" "ZAP Scan" false [("engagement", PInt 4)] init))
     = Uncaught AttributeError.
Proof. repeat split; reflexivity. Qed.

(** ** Scan types *)

Module ScanTypesFacts.

Import ScanTypes.

Lemma try_endpoint_miss (S : service) (ep : string) (st : state) :
  yields_nothing (S (calls st) ep) = true ->
  fst (try_endpoint S ep st) = Ok None
  /\ calls (snd (try_endpoint S ep st)) = (calls st ++ [(ep, S (calls st) ep)])%list.
Proof.
  unfold yields_nothing, try_endpoint, bind, logger, get_path, lift, ret.
  cbn [calls log].
  destruct (S (calls st) ep) as [r|]; cbn [calls log]; [|intros _; split; reflexivity].
  destruct (status_code r =? 200); cbn [calls log]; [|intros _; split; reflexivity].
  destruct (body r) as [data|]; cbn [calls log]; [|intros _; split; reflexivity].
  destruct (scan_types_of data) as [[|n ns]|e]; [|discriminate..].
  intros _. split; reflexivity.
Qed.

Lemma try_endpoint_hit (S : service) (ep : string) (st : state) (names : list pyval) :
  yields (S (calls st) ep) names ->
  fst (try_endpoint S ep st) = Ok (Some names)
  /\ calls (snd (try_endpoint S ep st)) = (calls st ++ [(ep, S (calls st) ep)])%list.
Proof.
  intros (r & data & Ho & Hst & Hbody & Hnames & Hne).
  unfold try_endpoint, bind, logger, get_path, lift, ret. cbn [calls log].
  rewrite Ho. cbn [calls log]. rewrite Hst, Z.eqb_refl, Hbody, Hnames.
  destruct names as [|n ns]; [contradiction|]. split; reflexivity.
Qed.

Lemma try_endpoint_raises (S : service) (ep : string) (st : state) (e : exn) :
  fst (try_endpoint S ep st) = Raise e -> is_RequestException e = false.
Proof.
  unfold try_endpoint, bind, logger, get_path, lift, ret. cbn [calls log].
  destruct (S (calls st) ep) as [r|]; cbn [calls log is_RequestException fst];
    [|discriminate].
  destruct (status_code r =? 200); cbn [calls log fst]; [|discriminate].
  destruct (body r) as [data|]; cbn [calls log is_RequestException fst]; [|discriminate].
  destruct (scan_types_of data) as [[|n ns]|e0]; cbn [fst]; [discriminate..|].
  destruct (is_RequestException e0) eqn:He; cbn [fst].
  - discriminate.
  - now intros [= <-].
Qed.

Lemma after_loop_empty (S : service) (st : state) :
  fst (after_loop S st) = Ok []
  /\ calls (snd (after_loop S st)) = (calls st ++ [(swagger, S (calls st) swagger)])%list.
Proof.
  unfold after_loop, bind, logger, get_path, ret. cbn [calls log].
  destruct (S (calls st) swagger) as [r|]; cbn [calls log]; [|split; reflexivity].
  destruct (status_code r =? 200); split; reflexivity.
Qed.

End ScanTypesFacts.

(** X24: [get_scan_types] never lets a failed call or a body that is not JSON
    out: whatever it raises is not a [RequestException]. *)
Theorem scan_types_contains_transport_errors
    (S : ScanTypes.service) (st : ScanTypes.state) (e : exn) :
  fst (ScanTypes.get_scan_types S st) = Raise e -> is_RequestException e = false.
Proof.
  unfold ScanTypes.get_scan_types. generalize ScanTypes.endpoints. intros eps.
  revert st. induction eps as [|ep eps IH]; intros st; cbn [ScanTypes.try_endpoints].
  - rewrite (proj1 (ScanTypesFacts.after_loop_empty S st)). discriminate.
  - unfold ScanTypes.bind at 1.
    pose proof (ScanTypesFacts.try_endpoint_raises S ep st) as Hr.
    destruct (ScanTypes.try_endpoint S ep st) as [[[names|]|e0] st1]; cbn [fst] in *.
    + discriminate.
    + apply IH.
    + intros [= <-]. now apply Hr.
Qed.

Lemma scan_types_contains_transport_errors_witness :
  fst (ScanTypes.get_scan_types (fun _ _ => replies 200 "" (PList [PInt 1]))
         ScanTypes.init) = Raise TypeError
  /\ is_RequestException TypeError = false.
Proof.
  split; [reflexivity|].
  apply (scan_types_contains_transport_errors
           (fun _ _ => replies 200 "" (PList [PInt 1])) ScanTypes.init TypeError).
  reflexivity.
Defined.

(** X25: The three URLs are tried in their order, and the first whose answer
    yields at least one scan type decides: its names are returned and no
    further URL is called.  When none yields anything, the Swagger page is
    fetched as a fourth call and the result is the empty list. *)
Theorem scan_types_fallback (S : ScanTypes.service) (st : ScanTypes.state) :
  let e1 := "/api/v2/import-scan-info/" in
  let e2 := "/api/v2/scan_type_info/" in
  let e3 := "/api/v2/test-types/" in
  let o1 := S (ScanTypes.calls st) e1 in
  let o2 := S (ScanTypes.calls st ++ [(e1, o1)])%list e2 in
  let o3 := S (ScanTypes.calls st ++ [(e1, o1); (e2, o2)])%list e3 in
  let o4 := S (ScanTypes.calls st ++ [(e1, o1); (e2, o2); (e3, o3)])%list
              ScanTypes.swagger in
  (forall names, yields o1 names ->
     fst (ScanTypes.get_scan_types S st) = Ok names
     /\ ScanTypes.calls (snd (ScanTypes.get_scan_types S st))
        = (ScanTypes.calls st ++ [(e1, o1)])%list)
  /\ (forall names, yields_nothing o1 = true -> yields o2 names ->
        fst (ScanTypes.get_scan_types S st) = Ok names
        /\ ScanTypes.calls (snd (ScanTypes.get_scan_types S st))
           = (ScanTypes.calls st ++ [(e1, o1); (e2, o2)])%list)
  /\ (forall names, yields_nothing o1 = true -> yields_nothing o2 = true ->
        yields o3 names ->
        fst (ScanTypes.get_scan_types S st) = Ok names
        /\ ScanTypes.calls (snd (ScanTypes.get_scan_types S st))
           = (ScanTypes.calls st ++ [(e1, o1); (e2, o2); (e3, o3)])%list)
  /\ (yields_nothing o1 = true -> yields_nothing o2 = true ->
      yields_nothing o3 = true ->
      fst (ScanTypes.get_scan_types S st) = Ok []
      /\ ScanTypes.calls (snd (ScanTypes.get_scan_types S st))
         = (ScanTypes.calls st ++ [(e1, o1); (e2, o2); (e3, o3);
                                   (ScanTypes.swagger, o4)])%list).
Proof.
  intros e1 e2 e3 o1 o2 o3 o4.
  unfold ScanTypes.get_scan_types, ScanTypes.endpoints.
  cbn [ScanTypes.try_endpoints]. fold e1 e2 e3.
  assert (Hstep : forall ep st0 (k : option (list pyval) -> ScanTypes.T (list pyval)),
             ScanTypes.bind (ScanTypes.try_endpoint S ep) k st0 =
             match ScanTypes.try_endpoint S ep st0 with
             | (Ok a, st') => k a st'
             | (Raise e, st') => (Raise e, st')
             end) by reflexivity.
  repeat split.
  - rewrite Hstep.
    destruct (ScanTypesFacts.try_endpoint_hit S e1 st names H) as [Hr Hc].
    destruct (ScanTypes.try_endpoint S e1 st) as [r s1]. cbn in Hr, Hc. now subst r.
  - rewrite Hstep.
    destruct (ScanTypesFacts.try_endpoint_hit S e1 st names H) as [Hr Hc].
    destruct (ScanTypes.try_endpoint S e1 st) as [r s1]. cbn in Hr, Hc. now subst r.
  - rewrite Hstep.
    destruct (ScanTypesFacts.try_endpoint_miss S e1 st H) as [Hr Hc].
    destruct (ScanTypes.try_endpoint S e1 st) as [r s1]. cbn in Hr, Hc. subst r.
    rewrite Hstep. fold o1 in Hc.
    assert (H2 : yields (S (ScanTypes.calls s1) e2) names) by (now rewrite Hc).
    destruct (ScanTypesFacts.try_endpoint_hit S e2 s1 names H2) as [Hr2 Hc2].
    destruct (ScanTypes.try_endpoint S e2 s1) as [r s2]. cbn in Hr2, Hc2. now subst r.
  - rewrite Hstep.
    destruct (ScanTypesFacts.try_endpoint_miss S e1 st H) as [Hr Hc].
    destruct (ScanTypes.try_endpoint S e1 st) as [r s1]. cbn in Hr, Hc. subst r.
    rewrite Hstep. fold o1 in Hc.
    assert (H2 : yields (S (ScanTypes.calls s1) e2) names) by (now rewrite Hc).
    destruct (ScanTypesFacts.try_endpoint_hit S e2 s1 names H2) as [Hr2 Hc2].
    destruct (ScanTypes.try_endpoint S e2 s1) as [r s2]. cbn in Hr2, Hc2. subst r.
    cbn. rewrite Hc2, Hc. fold o2. now rewrite <- app_assoc.
  - rewrite Hstep.
    destruct (ScanTypesFacts.try_endpoint_miss S e1 st H) as [Hr Hc].
    destruct (ScanTypes.try_endpoint S e1 st) as [r s1]. cbn in Hr, Hc. subst r.
    rewrite Hstep. fold o1 in Hc.
    assert (H2 : yields_nothing (S (ScanTypes.calls s1) e2) = true) by (now rewrite Hc).
    destruct (ScanTypesFacts.try_endpoint_miss S e2 s1 H2) as [Hr2 Hc2].
    destruct (ScanTypes.try_endpoint S e2 s1) as [r s2]. cbn in Hr2, Hc2. subst r.
    rewrite Hstep. rewrite Hc in Hc2. fold o2 in Hc2.
    rewrite <- app_assoc in Hc2. cbn [app] in Hc2.
    assert (H3 : yields (S (ScanTypes.calls s2) e3) names) by (now rewrite Hc2).
    destruct (ScanTypesFacts.try_endpoint_hit S e3 s2 names H3) as [Hr3 Hc3].
    destruct (ScanTypes.try_endpoint S e3 s2) as [r s3]. cbn in Hr3, Hc3. now subst r.
  - rewrite Hstep.
    destruct (ScanTypesFacts.try_endpoint_miss S e1 st H) as [Hr Hc].
    destruct (ScanTypes.try_endpoint S e1 st) as [r s1]. cbn in Hr, Hc. subst r.
    rewrite Hstep. fold o1 in Hc.
    assert (H2 : yields_nothing (S (ScanTypes.calls s1) e2) = true) by (now rewrite Hc).
    destruct (ScanTypesFacts.try_endpoint_miss S e2 s1 H2) as [Hr2 Hc2].
    destruct (ScanTypes.try_endpoint S e2 s1) as [r s2]. cbn in Hr2, Hc2. subst r.
    rewrite Hstep. rewrite Hc in Hc2. fold o2 in Hc2.
    rewrite <- app_assoc in Hc2. cbn [app] in Hc2.
    assert (H3 : yields (S (ScanTypes.calls s2) e3) names) by (now rewrite Hc2).
    destruct (ScanTypesFacts.try_endpoint_hit S e3 s2 names H3) as [Hr3 Hc3].
    destruct (ScanTypes.try_endpoint S e3 s2) as [r s3]. cbn in Hr3, Hc3. subst r.
    cbn. rewrite Hc3, Hc2. fold o3. now rewrite <- app_assoc.
  - rewrite Hstep.
    destruct (ScanTypesFacts.try_endpoint_miss S e1 st H) as [Hr Hc].
    destruct (ScanTypes.try_endpoint S e1 st) as [r s1]. cbn in Hr, Hc. subst r.
    rewrite Hstep. fold o1 in Hc.
    assert (H2 : yields_nothing (S (ScanTypes.calls s1) e2) = true) by (now rewrite Hc).
    destruct (ScanTypesFacts.try_endpoint_miss S e2 s1 H2) as [Hr2 Hc2].
    destruct (ScanTypes.try_endpoint S e2 s1) as [r s2]. cbn in Hr2, Hc2. subst r.
    rewrite Hstep. rewrite Hc in Hc2. fold o2 in Hc2.
    rewrite <- app_assoc in Hc2. cbn [app] in Hc2.
    assert (H3 : yields_nothing (S (ScanTypes.calls s2) e3) = true) by (now rewrite Hc2).
    destruct (ScanTypesFacts.try_endpoint_miss S e3 s2 H3) as [Hr3 Hc3].
    destruct (ScanTypes.try_endpoint S e3 s2) as [r s3]. cbn in Hr3, Hc3. subst r.
    apply (proj1 (ScanTypesFacts.after_loop_empty S s3)).
  - rewrite Hstep.
    destruct (ScanTypesFacts.try_endpoint_miss S e1 st H) as [Hr Hc].
    destruct (ScanTypes.try_endpoint S e1 st) as [r s1]. cbn in Hr, Hc. subst r.
    rewrite Hstep. fold o1 in Hc.
    assert (H2 : yields_nothing (S (ScanTypes.calls s1) e2) = true) by (now rewrite Hc).
    destruct (ScanTypesFacts.try_endpoint_miss S e2 s1 H2) as [Hr2 Hc2].
    destruct (ScanTypes.try_endpoint S e2 s1) as [r s2]. cbn in Hr2, Hc2. subst r.
    rewrite Hstep. rewrite Hc in Hc2. fold o2 in Hc2.
    rewrite <- app_assoc in Hc2. cbn [app] in Hc2.
    assert (H3 : yields_nothing (S (ScanTypes.calls s2) e3) = true) by (now rewrite Hc2).
    destruct (ScanTypesFacts.try_endpoint_miss S e3 s2 H3) as [Hr3 Hc3].
    destruct (ScanTypes.try_endpoint S e3 s2) as [r s3]. cbn in Hr3, Hc3. subst r.
    rewrite Hc2 in Hc3. fold o3 in Hc3. rewrite <- app_assoc in Hc3. cbn [app] in Hc3.
    rewrite (proj2 (ScanTypesFacts.after_loop_empty S s3)), Hc3.
    fold o4. now rewrite <- app_assoc.
Qed.

Lemma scan_types_fallback_witness :
  (yields_nothing (legacy_service [] "/api/v2/import-scan-info/") = true
   /\ yields_nothing (legacy_service [] "/api/v2/scan_type_info/") = true)
  /\ fst (ScanTypes.get_scan_types legacy_service ScanTypes.init)
     = Ok [PStr "ZAP Scan"; PStr "Nessus Scan"].
Proof.
  split; [split; reflexivity|].
  refine (proj1 (proj1 (proj2 (proj2 (scan_types_fallback legacy_service ScanTypes.init)))
                   [PStr "ZAP Scan"; PStr "Nessus Scan"] eq_refl eq_refl _)).
  eexists _, _. repeat split; try reflexivity. discriminate.
Defined.
